(** * ush/timeseries.py: the time-series plotting routine

    A shallow embedding of [plot_time_series] (src/ush/timeseries.py).
    Dataframes are lists of rows, pivot tables are date-indexed tables with
    one column per model, and the routine runs in a small monad that threads
    the observable world (log, figure, file system) and can stop early with
    [return None] or with a Python exception.

    Numbers that Python holds as binary64 floats are exact rationals here
    ([Q]), with [None] for NaN; strings are byte strings and [str.lower] /
    [str.upper] act on ASCII letters. *)

From stdpp Require Import base strings list gmap pretty sorting.
From Stdlib Require Import Ascii String QArith Qabs.

Local Open Scope Z_scope.
Local Open Scope string_scope.
Local Open Scope list_scope.

(** ** Strings *)

Module Str.

Definition upper_ascii (c : ascii) : ascii :=
  let n := Ascii.nat_of_ascii c in
  if ((97 <=? n) && (n <=? 122))%nat then Ascii.ascii_of_nat (n - 32) else c.

Definition lower_ascii (c : ascii) : ascii :=
  let n := Ascii.nat_of_ascii c in
  if ((65 <=? n) && (n <=? 90))%nat then Ascii.ascii_of_nat (n + 32) else c.

Fixpoint smap (f : ascii → ascii) (s : string) : string :=
  match s with
  | EmptyString => EmptyString
  | String c s' => String (f c) (smap f s')
  end.

(** [str.upper()] and [str.lower()] *)
Definition upper : string → string := smap upper_ascii.
Definition lower : string → string := smap lower_ascii.

(** [sep.join(items)] *)
Fixpoint join (sep : string) (items : list string) : string :=
  match items with
  | [] => ""
  | [x] => x
  | x :: rest => x +:+ sep +:+ join sep rest
  end.

(** [s.replace(a, b)] for a one-character [a] *)
Fixpoint replace_char (a : ascii) (b : string) (s : string) : string :=
  match s with
  | EmptyString => EmptyString
  | String c s' =>
      if Ascii.eqb c a then b +:+ replace_char a b s'
      else String c (replace_char a b s')
  end.

Definition startswith_slash (s : string) : bool :=
  match s with String "/" _ => true | _ => false end.

Fixpoint endswith_slash (s : string) : bool :=
  match s with
  | EmptyString => false
  | String c EmptyString => Ascii.eqb c "/"
  | String _ s' => endswith_slash s'
  end.

Fixpoint has_slash (s : string) : bool :=
  match s with
  | EmptyString => false
  | String c s' => Ascii.eqb c "/" || has_slash s'
  end.

(** [s.capitalize()] *)
Definition capitalize (s : string) : string :=
  match s with
  | EmptyString => EmptyString
  | String c s' => String (upper_ascii c) (lower s')
  end.

Definition nonempty (s : string) : bool :=
  match s with EmptyString => false | _ => true end.

(** [str(x)] for an int *)
Definition of_Z (x : Z) : string := pretty x.

(** [f'{x:02d}'] *)
Definition fmt_02d (x : Z) : string :=
  let s := of_Z x in
  if (String.length s <? 2)%nat then "0" +:+ s else s.

(** zero padding to [w] characters, for non-negative fields of strftime *)
Fixpoint zfill (w : nat) (s : string) : string :=
  if (String.length s <? w)%nat then
    match w with
    | O => s
    | S w' => "0" +:+ zfill w' s
    end
  else s.

End Str.

(** ** posixpath *)

Module Path.

(** [os.path.join(a, b)]: an absolute [b] discards [a]; a separator is
    added unless [a] is empty or already ends with one. *)
Definition join2 (a b : string) : string :=
  if Str.startswith_slash b then b
  else if (String.eqb a "" || Str.endswith_slash a)%bool then a +:+ b
  else a +:+ "/" +:+ b.

(** [os.path.join(a, *p)] *)
Definition join (a : string) (p : list string) : string :=
  foldl join2 a p.

End Path.

(** ** Data model *)

(** A pandas timestamp: calendar date, hour of day, and the remainder of the
    hour in microseconds. *)
Record datetime := mk_datetime {
  dt_year : Z; dt_month : Z; dt_day : Z; dt_hour : Z; dt_rest : Z
}.

Global Instance datetime_eq_dec : EqDecision datetime.
Proof. solve_decision. Defined.

Global Instance datetime_countable : Countable datetime.
Proof.
  refine (inj_countable'
    (λ d, (dt_year d, dt_month d, dt_day d, dt_hour d, dt_rest d))
    (λ t, let '(y, m, d, h, r) := t in mk_datetime y m d h r) _).
  by intros [].
Defined.

(** [d.strftime('%Y%m%d')] *)
Definition strftime_Ymd (d : datetime) : string :=
  Str.zfill 4 (Str.of_Z (dt_year d)) +:+ Str.zfill 2 (Str.of_Z (dt_month d))
  +:+ Str.zfill 2 (Str.of_Z (dt_day d)).

Definition month_abbr (m : Z) : string :=
  nth (Z.to_nat (m - 1))
    ["Jan"; "Feb"; "Mar"; "Apr"; "May"; "Jun";
     "Jul"; "Aug"; "Sep"; "Oct"; "Nov"; "Dec"] "".

(** [d.strftime('%d %b %Y')] *)
Definition strftime_dbY (d : datetime) : string :=
  Str.zfill 2 (Str.of_Z (dt_day d)) +:+ " " +:+ month_abbr (dt_month d)
  +:+ " " +:+ Str.zfill 4 (Str.of_Z (dt_year d)).

(** A float cell of a table: [None] is NaN. *)
Definition cell := option Q.

(** Observation record: one row of the statistics dataframe.  The columns
    the routine reads by name are fields; the partial sums and sample counts
    the collaborators aggregate are kept as named values. *)
Record row := mk_row {
  MODEL : string;
  VALID : datetime;
  INIT : datetime;
  FCST_LEV : string;
  FCST_LEAD : Z;
  FCST_THRESH_VALUE : string;
  INTERP_PNTS : string;
  FCST_VAR : string;
  VX_MASK : string;
  STATS : list (string * Q)
}.

Global Instance Q_eq_dec : EqDecision Q.
Proof. solve_decision. Defined.

Global Instance row_eq_dec : EqDecision row.
Proof. solve_decision. Defined.

Definition DataFrame := list row.

(** [df.empty] *)
Definition empty (df : DataFrame) : bool :=
  match df with [] => true | _ => false end.

(** Python exceptions the routine can raise. *)
Inductive exn :=
| NameError (name : string)
| UnboundLocalError (name : string)
| KeyError (key : string)
| AttributeError (what : string)
| ValueError (what : string)
| IndexError (what : string)
| TypeError (what : string)
| FileNotFoundError (path : string)
| FileExistsError (path : string)
| SameFileError (path : string).

(** [df[name]] followed by [.dt]: the datetime columns of the dataframe.
    Another existing column has no [.dt] accessor, an unknown one is a
    [KeyError]. *)
Definition date_column (name : string) : exn + (row → datetime) :=
  if String.eqb name "VALID" then inr VALID
  else if String.eqb name "INIT" then inr INIT
  else if bool_decide (name ∈ ["MODEL"; "FCST_LEV"; "FCST_LEAD";
            "FCST_THRESH_VALUE"; "INTERP_PNTS"; "FCST_VAR"; "VX_MASK"])
       then inl (AttributeError "Can only use .dt accessor with datetimelike values")
  else inl (KeyError name).

(** Pivot table: rows indexed by date, one column of cells per model. *)
Record pivot_table := mk_pivot {
  pv_index : list datetime;
  pv_columns : list (string * list cell)
}.

(** [pivot.empty]: no rows or no columns *)
Definition pv_empty (p : pivot_table) : bool :=
  match pv_index p, pv_columns p with
  | [], _ | _, [] => true
  | _, _ => false
  end.

(** [name in pivot] and [pivot[name].values] *)
Definition pv_has (p : pivot_table) (name : string) : bool :=
  bool_decide (name ∈ (pv_columns p).*1).

Fixpoint assoc {A} (name : string) (cols : list (string * A)) : option A :=
  match cols with
  | [] => None
  | (n, v) :: rest => if String.eqb n name then Some v else assoc name rest
  end.

Definition pv_column (p : pivot_table) (name : string) : option (list cell) :=
  assoc name (pv_columns p).

(** ** The observable world *)

Inductive log_level := INFO | WARNING.

(** Steps of the filter and aggregation chain, each recorded with the
    dataframe it starts from; the aggregation also with the value the
    local [sample_equalization] has by then. *)
Inductive stage :=
| at_level | at_lead | at_width | at_thresh | at_models | at_equalize
| at_stats (sample_equalization : bool).

Global Instance stage_eq_dec : EqDecision stage.
Proof. solve_decision. Defined.

(** What has been drawn on the figure. *)
Inductive line_owner := OfModel (name : string) | OfReference.

Inductive artist :=
| Line (who : line_owner) (ls : string) (x : list datetime) (y : list cell)
| Errorbar (who : line_owner) (x : list datetime) (y lo hi : list cell)
| Axhline
| Annotation (text : string) (at_x : option datetime)
| Title (text : string) (pad : option Z)
| Legend (labels : list string)
| Logo (path : string).

Global Instance line_owner_eq_dec : EqDecision line_owner.
Proof. solve_decision. Defined.

Global Instance artist_eq_dec : EqDecision artist.
Proof. solve_decision. Defined.

(** The file system: directories, and image files with the figure they
    hold.  A path names the same object exactly when the strings agree. *)
Record filesystem := mk_fs {
  dirs : gset string;
  files : gmap string (list artist)
}.

Record world := mk_world {
  w_log : list (log_level * string);
  w_stages : list (stage * DataFrame);
  w_figure : list artist;
  w_closed : list Z;
  w_fs : filesystem
}.

(** ** The monad of the routine *)

Inductive outcome (A : Type) :=
| Normal (a : A)
| ReturnNone
| Raise (e : exn).
Arguments Normal {A} a.
Arguments ReturnNone {A}.
Arguments Raise {A} e.

Definition M (A : Type) := world → outcome A * world.

Global Instance M_ret : MRet M := λ A a w, (Normal a, w).

Global Instance M_bind : MBind M := λ A B k m w,
  match m w with
  | (Normal a, w') => k a w'
  | (ReturnNone, w') => (ReturnNone, w')
  | (Raise e, w') => (Raise e, w')
  end.

Definition return_None {A} : M A := λ w, (ReturnNone, w).
Definition raise {A} (e : exn) : M A := λ w, (Raise e, w).

Definition when (b : bool) (m : M unit) : M unit := if b then m else mret tt.

Definition lift_exn {A} (r : exn + A) : M A :=
  match r with inl e => raise e | inr a => mret a end.

(** [logger.info], [logger.warning] *)
Definition log (l : log_level) (msg : string) : M unit :=
  λ w, (Normal tt, mk_world (w_log w ++ [(l, msg)]) (w_stages w) (w_figure w)
                            (w_closed w) (w_fs w)).

Definition enter (s : stage) (df : DataFrame) : M unit :=
  λ w, (Normal tt, mk_world (w_log w) (w_stages w ++ [(s, df)]) (w_figure w)
                            (w_closed w) (w_fs w)).

Definition draw (a : artist) : M unit :=
  λ w, (Normal tt, mk_world (w_log w) (w_stages w) (w_figure w ++ [a])
                            (w_closed w) (w_fs w)).

(** [plt.close(num)] *)
Definition plt_close (num : Z) : M unit :=
  λ w, (Normal tt, mk_world (w_log w) (w_stages w) (w_figure w)
                            (w_closed w ++ [num]) (w_fs w)).

Definition get_fs : M filesystem := λ w, (Normal (w_fs w), w).
Definition put_fs (fs : filesystem) : M unit :=
  λ w, (Normal tt, mk_world (w_log w) (w_stages w) (w_figure w) (w_closed w) fs).
Definition get_figure : M (list artist) := λ w, (Normal (w_figure w), w).

(** A local variable read before it is bound, and a global name that the
    module may or may not define. *)
Definition load_fast {A} (name : string) (v : option A) : M A :=
  match v with Some a => mret a | None => raise (UnboundLocalError name) end.

Definition load_global {A} (name : string) (v : option A) : M A :=
  match v with Some a => mret a | None => raise (NameError name) end.

(** ** Collaborators

    [plot_util], the settings tables and the names a star import may bring
    into the module are not part of this file of the repository; the routine
    is modelled over any implementation of them. *)

(** [flead]: the string ['all'] or a list of lead hours *)
Inductive leads := all_leads | lead_list (l : list Z).

(** One row of the aggregated dataframe: the group key and the named
    values computed for the group (metrics, confidence bounds, counts). *)
Record agg_row := mk_agg {
  AGG_MODEL : string;
  AGG_DATE : datetime;
  AGG_VALUES : list (string * cell)
}.

Definition AggFrame := list agg_row.

(** [df.groupby(['MODEL', date])]: the rows of each key, in dataframe order *)
Abbreviation GroupBy := (gmap (string * datetime) (list row)).

Record bootstrap := mk_bootstrap {
  bs_method : string; bs_nrep : Z; bs_min_samp : Z; ci_lev : Q
}.

Record stats_result := mk_stats {
  df_aggregated : AggFrame;
  metric_long_names : list string;
  units : string;
  unit_convert : bool
}.

Record pivot_tables6 := mk_pivots6 {
  pt_metric1 : option pivot_table; pt_metric2 : option pivot_table;
  pt_ci_lower1 : option pivot_table; pt_ci_upper1 : option pivot_table;
  pt_ci_lower2 : option pivot_table; pt_ci_upper2 : option pivot_table
}.

Record pivot_tables7 := mk_pivots7 {
  rt_metric1 : option pivot_table; rt_metric2 : option pivot_table;
  rt_counts : option pivot_table;
  rt_ci_lower1 : option pivot_table; rt_ci_upper1 : option pivot_table;
  rt_ci_lower2 : option pivot_table; rt_ci_upper2 : option pivot_table
}.

Record stats_axis := mk_stats_axis {
  ax_ylabel : string;
  ax_thresh_labels : list string;
  ax_metric1_string : string;
  ax_metric2_string : string;
  ax_units : string;
  ax_var_long_name_key : string;
  ax_var_long_name : string
}.

(** One entry of [mod_setting_dicts] *)
Record model_setting := mk_setting {
  marker : string; color : string; markersize : Q; linewidth : Q
}.

Record plot_util_t := mk_plot_util {
  filter_by_lead : DataFrame → leads → DataFrame * string * string;
  filter_by_width : DataFrame → list string → DataFrame * string * string;
  process_thresh :
    DataFrame → list string → DataFrame * string * string * list string;
  process_models : DataFrame → list string → DataFrame * list string;
  equalize_samples : DataFrame → list string → DataFrame * bool;
  process_stats :
    DataFrame → GroupBy → list string → string → option string → bool →
    string → string → bootstrap → bool → bool → stats_result;
  get_pivot_tables :
    AggFrame → string → option string → bool → bool → string → bool →
    string → pivot_tables6;
  get_model_settings : list string → list model_setting;
  configure_dates_axis : list datetime → Z → list datetime * list string;
  configure_stats_axis :
    list string → list string → string → option string → list string →
    string → bool → string → stats_axis;
  get_var_info : DataFrame → string;
  get_domain_info : DataFrame → string * string;
  get_name_for_listed_items : list string → string;
  get_level_info : string → string → string → string → string * string
}.

(** Module-level names: [model_colors.model_alias], and the two names the
    routine reads without defining them.  [None] means the name is not
    bound in the module. *)
Record globals := mk_globals {
  model_alias : gmap string string;
  reindex_pivot_tables :
    option (option pivot_table → option pivot_table → option pivot_table →
            option pivot_table → option pivot_table → option pivot_table →
            option pivot_table → list Z → option string → bool → bool →
            pivot_tables7 * Z);
  xvals1 : option (list datetime);
  (** [f'{x:.2f}'] / [f'{x:.2E}'] of a column mean *)
  fmt_mean : cell → string;
  (** [float(s)] for threshold labels *)
  float : string → Q
}.

(** ** pandas and numpy operations used inline *)

(** Boolean-mask selection *)
Fixpoint select {A} (mask : list bool) (l : list A) : list A :=
  match mask, l with
  | b :: mask', x :: l' => if b then x :: select mask' l' else select mask' l'
  | _, _ => []
  end.

(** [p[p.index.isin(common)]] *)
Definition pv_select (common : gset datetime) (p : pivot_table) : pivot_table :=
  let mask := map (λ d, bool_decide (d ∈ common)) (pv_index p) in
  mk_pivot (select mask (pv_index p))
           (map (λ c, (c.1, select mask c.2)) (pv_columns p)).

(** [np.nanmean], and [Series.mean] with its default [skipna=True]; the
    mean is kept in lowest terms, so that equal values are equal terms *)
Definition Qsum (l : list Q) : Q := foldr Qplus 0%Q l.

Definition nanmean (l : list cell) : cell :=
  match omap (M:=list) (λ x : option Q, x) l with
  | [] => None
  | vs => Some (Qred (Qsum vs / inject_Z (Z.of_nat (List.length vs))))
  end.

(** Row [i] of a table, across its columns *)
Definition pv_row (p : pivot_table) (i : nat) : list cell :=
  map (λ c, default None (c.2 !! i)) (pv_columns p).

(** [p.mean(axis=1)] *)
Definition pv_mean_axis1 (p : pivot_table) : list cell :=
  map (λ i, nanmean (pv_row p i)) (seq 0 (List.length (pv_index p))).

(** [x / r == 1.]: a NaN operand or a zero divisor never compares equal *)
Definition ratio_is_one (x r : cell) : bool :=
  match x, r with
  | Some a, Some b => if Qeq_bool b 0 then false else Qeq_bool (a / b) 1
  | _, _ => false
  end.

(** [np.any((p.T / reference).T == 1.)] *)
Definition any_ratio_is_one (p : pivot_table) (reference : list cell) : bool :=
  existsb (λ i, existsb (λ x, ratio_is_one x (default None (reference !! i)))
                        (pv_row p i))
          (seq 0 (List.length (pv_index p))).

(** [df.groupby([ 'MODEL', date ])] *)
Definition group_key (date : row → datetime) (r : row) : string * datetime :=
  (MODEL r, date r).

Definition groupby (date : row → datetime) (df : DataFrame) : GroupBy :=
  foldr (λ r g, <[group_key date r := r :: default [] (g !! group_key date r)]> g)
        ∅ df.

(** [np.array(date_hours)[[str(x) in hours for x in date_hours]]] with
    [hours = df[date].dt.hour.astype(str).tolist()] *)
Definition present_hours (date : row → datetime) (df : DataFrame)
    (date_hours : list Z) : list Z :=
  let hours := map (λ r, Str.of_Z (dt_hour (date r))) df in
  select (map (λ x, bool_decide (Str.of_Z x ∈ hours)) date_hours) date_hours.

(** Lines 109-114.  The comprehension reads the column once for each listed
    hour, so with no hour listed the column is not read at all. *)
Definition prune_date_hours (name : string) (df : DataFrame)
    (date_hours : list Z) : exn + list Z :=
  match date_hours with
  | [] => inr []
  | _ => match date_column name with
         | inr date => inr (present_hours date df date_hours)
         | inl e => inl e
         end
  end.

(** Stable sort of labels by their float value ([np.argsort] then indexing) *)
Fixpoint insert_by (key : string → Q) (x : string) (l : list string) : list string :=
  match l with
  | [] => [x]
  | y :: l' => if Qle_bool (key y) (key x) then y :: insert_by key x l'
               else x :: l
  end.

Definition sort_by (key : string → Q) (l : list string) : list string :=
  foldl (λ acc x, insert_by key x acc) [] l.

(** [np.unique] of a string column *)
Definition unique (l : list string) : list string :=
  merge_sort String.le (remove_dups l).

(** ** File-system operations *)

Module Fs.

(** [p[:p.rfind('/') + 1]] *)
Fixpoint head (p : string) : string :=
  match p with
  | EmptyString => EmptyString
  | String c p' => if Str.has_slash p then String c (head p') else EmptyString
  end.

Fixpoint all_slashes (s : string) : bool :=
  match s with
  | EmptyString => true
  | String c s' => Ascii.eqb c "/" && all_slashes s'
  end.

(** [s.rstrip('/')] *)
Fixpoint rstrip (s : string) : string :=
  match s with
  | EmptyString => EmptyString
  | String c s' =>
      match rstrip s' with
      | EmptyString => if Ascii.eqb c "/" then EmptyString else String c EmptyString
      | r => String c r
      end
  end.

(** [os.path.dirname] *)
Definition dirname (p : string) : string :=
  let h := head p in
  if all_slashes h then h else rstrip h.

(** the directory itself and every directory above it *)
Fixpoint ancestors (fuel : nat) (p : string) : list string :=
  match fuel with
  | O => []
  | S fuel' => if String.eqb p "" then [] else p :: ancestors fuel' (dirname p)
  end.

(** [os.path.isdir(p)] *)
Definition isdir (p : string) : M bool :=
  fs ← get_fs; mret (bool_decide (p ∈ dirs fs)).

(** [os.path.exists(p)] *)
Definition exists_ (p : string) : M bool :=
  fs ← get_fs; mret (bool_decide (p ∈ dirs fs ∨ p ∈ dom (files fs))).

(** [os.makedirs(p)] *)
Definition makedirs (p : string) : M unit :=
  fs ← get_fs;
  if String.eqb p "" then raise (FileNotFoundError p)
  else if bool_decide (p ∈ dirs fs ∨ p ∈ dom (files fs))
  then raise (FileExistsError p)
  else put_fs (mk_fs (list_to_set (ancestors (String.length p) p) ∪ dirs fs)
                     (files fs)).

(** the directory a new file would be created in must exist; the empty
    directory name is the working directory *)
Definition parent_exists (fs : filesystem) (p : string) : bool :=
  String.eqb (dirname p) "" || bool_decide (dirname p ∈ dirs fs).

(** [fig.savefig(p)]: the file holds the figure as drawn so far *)
Definition savefig (p : string) : M unit :=
  fs ← get_fs; fig ← get_figure;
  if parent_exists fs p then put_fs (mk_fs (dirs fs) (<[p := fig]> (files fs)))
  else raise (FileNotFoundError p).

(** [shutil.copy2(src, dst)] for a destination that is a file name; a file
    is not copied onto itself *)
Definition copy2 (src dst : string) : M unit :=
  fs ← get_fs;
  if String.eqb src dst then raise (SameFileError src)
  else
    match files fs !! src with
    | None => raise (FileNotFoundError src)
    | Some img =>
        if parent_exists fs dst
        then put_fs (mk_fs (dirs fs) (<[dst := img]> (files fs)))
        else raise (FileNotFoundError dst)
    end.

End Fs.

(** ** plot_time_series *)

(** The arguments of [plot_time_series] (the logger is the world's log). *)
Record plot_args := mk_args {
  df : DataFrame;
  date_range : datetime * datetime;
  model_list : list string;
  num : Z;
  level : string;
  flead : leads;
  thresh : list string;
  metric1_name : string;
  metric2_name : option string;
  y_lim_lock : bool;
  xlabel : string;
  date_type : string;
  date_hours : list Z;
  verif_type : string;
  save_dir : string;
  restart_dir : string;
  line_type : string;
  confidence_intervals : bool;
  interp_pts : list string;
  bs : bootstrap;
  eval_period : string;
  save_header : string;
  display_averages : bool;
  keep_shared_events_only : bool;
  plot_group : string;
  sample_equalization : bool;
  plot_logo_left : bool;
  plot_logo_right : bool;
  path_logo_left : string;
  path_logo_right : string;
  aggregate_dates_by : string
}.

Definition banner : string := "========================================".

(** The [if df.empty:] blocks: warn, close the figure once it exists, and
    [return None]. *)
Definition skip_plot {A} (close : option Z) : M A :=
  log WARNING "Empty Dataframe. Continuing onto next plot...";;
  match close with Some n => plt_close n | None => mret tt end;;
  log INFO banner;;
  return_None.

(** Operations on a table variable that may hold [None] *)
Definition attr (name : string) (p : option pivot_table) : M pivot_table :=
  match p with
  | Some t => mret t
  | None => raise (AttributeError name)
  end.

Definition contains (p : option pivot_table) (name : string) : M bool :=
  match p with
  | Some t => mret (pv_has t name)
  | None => raise (TypeError "argument of type 'NoneType' is not iterable")
  end.

Definition subscript (p : option pivot_table) (name : string) : M (list cell) :=
  match p with
  | None => raise (TypeError "'NoneType' object is not subscriptable")
  | Some t =>
      match pv_column t name with
      | Some c => mret c
      | None => raise (KeyError name)
      end
  end.

Definition item {A} (l : list A) (i : nat) : M A :=
  match l !! i with
  | Some x => mret x
  | None => raise (IndexError "list index out of range")
  end.

(** [thresh and '' not in thresh] *)
Definition listed (l : list string) : bool :=
  negb (bool_decide (l = [])) && negb (bool_decide ("" ∈ l)).

(** Lines 219-244: with confidence intervals, keep only the dates common to
    a metric table and its two bound tables. *)
Definition common_index (a b c : pivot_table) : gset datetime :=
  list_to_set (pv_index a) ∩ list_to_set (pv_index b) ∩ list_to_set (pv_index c).

Definition restrict_to_common (ci se : bool) (metric2 : option string)
    (t : pivot_tables7) : M pivot_tables7 :=
  if ci then
    m1 ← attr "index" (rt_metric1 t);
    l1 ← attr "index" (rt_ci_lower1 t);
    u1 ← attr "index" (rt_ci_upper1 t);
    let indices_in_common1 := common_index m1 l1 u1 in
    counts ← (if se then c ← attr "index" (rt_counts t);
                         mret (Some (pv_select indices_in_common1 c))
              else mret (rt_counts t));
    match metric2 with
    | Some _ =>
        m2 ← attr "index" (rt_metric2 t);
        l2 ← attr "index" (rt_ci_lower2 t);
        u2 ← attr "index" (rt_ci_upper2 t);
        let indices_in_common2 := common_index m2 l2 u2 in
        mret (mk_pivots7
                (Some (pv_select indices_in_common1 m1))
                (Some (pv_select indices_in_common2 m2)) counts
                (Some (pv_select indices_in_common1 l1))
                (Some (pv_select indices_in_common1 u1))
                (Some (pv_select indices_in_common2 l2))
                (Some (pv_select indices_in_common2 u2)))
    | None =>
        mret (mk_pivots7
                (Some (pv_select indices_in_common1 m1)) (rt_metric2 t) counts
                (Some (pv_select indices_in_common1 l1))
                (Some (pv_select indices_in_common1 u1))
                (rt_ci_lower2 t) (rt_ci_upper2 t))
    end
  else mret t.

(** Lines 262-299: reference-line detection for one metric.  [Some] is
    [plot_reference[k] = True] together with the reference series. *)
Record reference_line := mk_ref {
  ref_values : list cell;
  ref_ci : option (list cell * list cell)
}.

Definition ref_metrics : list string := ["OBAR"].

Definition varies_warning (metric_name : string) : string :=
  Str.upper metric_name +:+ " is requested, but the value "
  +:+ "varies from model to model. "
  +:+ "Will plot an individual line for each model. If a "
  +:+ "single reference line is preferred, set the "
  +:+ "sample_equalization toggle in ush/settings.py to 'True', "
  +:+ "and check in the log file if sample equalization "
  +:+ "completed successfully.".

Definition detect_reference (metric_name : string) (ci : bool)
    (pivot_metric pivot_ci_lower pivot_ci_upper : option pivot_table)
    : M (option reference_line) :=
  if bool_decide (Str.upper metric_name ∈ ref_metrics) then
    pivot_reference ← attr "mean" pivot_metric;
    let reference := pv_mean_axis1 pivot_reference in
    bounds ← (if ci then lo ← attr "mean" pivot_ci_lower;
                         hi ← attr "mean" pivot_ci_upper;
                         mret (Some (pv_mean_axis1 lo, pv_mean_axis1 hi))
              else mret None);
    if any_ratio_is_one pivot_reference reference
    then mret (Some (mk_ref reference bounds))
    else log WARNING (varies_warning metric_name);; mret None
  else mret None.

(** Lines 338-513: the per-model plotting loop. *)
Record loop_state := mk_loop {
  n_mods : nat;
  counts : option (list cell);
  plotted_reference : bool * bool;
  plotted_reference_CIs : bool * bool;
  labels : list string
}.

Definition abs_cells (l : list cell) : list cell := map (option_map Qabs) l.

(** One line of the plot (lines 407-425 for the first metric, 431-449 for
    the second): the reference once for all models, or the model's own
    series.  The result is the new value of [plotted_reference[k]]. *)
Definition plot_line (model ls : string) (x : list datetime)
    (reference : option reference_line) (y : list cell) (plotted : bool)
    : M bool :=
  match reference with
  | Some r =>
      if plotted then mret plotted
      else draw (Line OfReference ls x (ref_values r));; mret true
  | None => draw (Line (OfModel model) ls x y);; mret plotted
  end.

(** The error bars of one line (lines 451-471 and 473-493), with
    [yerr=[np.abs(lower), upper]]; the result is the new value of
    [plotted_reference_CIs[k]]. *)
Definition plot_errorbar (model : string) (x : list datetime)
    (reference : option reference_line) (y : list cell)
    (ci : list cell * list cell) (plotted : bool) : M bool :=
  match reference with
  | Some r =>
      if plotted then mret plotted
      else
        let b := default ([], []) (ref_ci r) in
        draw (Errorbar OfReference x (ref_values r) (abs_cells b.1) b.2);;
        mret true
  | None => draw (Errorbar (OfModel model) x y (abs_cells ci.1) ci.2);;
            mret plotted
  end.

Fixpoint for_each {A S} (l : list A) (body : A → S → M S) (st : S) : M S :=
  match l with
  | [] => mret st
  | x :: l' => st' ← body x st; for_each l' body st'
  end.

Section routine.

Context (plot_util : plot_util_t) (G : globals).

(** One turn of [for m in range(len(mod_setting_dicts))].  The running
    y-range of lines 367-402 only feeds the axis configuration; what is
    kept of it is that [np.nanmin] fails on an empty array and that the
    first plotted model reads its column of [pivot_counts]. *)
Definition plot_model (a : plot_args) (model_list : list string)
    (t : pivot_tables7) (x_vals1 : list datetime)
    (x_vals2 : option (list datetime))
    (reference1 reference2 : option reference_line)
    (m : nat) (st : loop_state) : M loop_state :=
  model ← item model_list m;
  let model_plot_name := default model (model_alias G !! model) in
  present ← contains (rt_metric1 t) model;
  if negb present then mret st else
  y_vals_metric1 ← subscript (rt_metric1 t) model;
  y_vals_metric2 ← match metric2_name a with
                   | Some _ => subscript (rt_metric2 t) model
                   | None => mret []
                   end;
  ci1 ← (if confidence_intervals a
         then lo ← subscript (rt_ci_lower1 t) model;
              hi ← subscript (rt_ci_upper1 t) model; mret (lo, hi)
         else mret ([], []));
  ci2 ← (if confidence_intervals a
         then match metric2_name a with
              | Some _ => lo ← subscript (rt_ci_lower2 t) model;
                          hi ← subscript (rt_ci_upper2 t) model; mret (lo, hi)
              | None => mret ([], [])
              end
         else mret ([], []));
  st ← (if y_lim_lock a then mret st
        else
          (if bool_decide (y_vals_metric1 ++ y_vals_metric2 = [])
           then raise (ValueError "zero-size array to reduction operation")
           else mret tt);;
          match n_mods st with
          | O => c ← subscript (rt_counts t) model;
                 mret (mk_loop 1 (Some c) (plotted_reference st)
                               (plotted_reference_CIs st) (labels st))
          | S _ => mret st
          end);
  let metric1_mean_fmt_string := fmt_mean G (nanmean y_vals_metric1) in
  plotted1 ← plot_line model "solid" x_vals1 reference1 y_vals_metric1
               (plotted_reference st).1;
  plotted2 ← match metric2_name a with
             | Some _ =>
                 x2 ← match x_vals2 with
                      | Some x => mret x
                      | None => raise (AttributeError "tolist")
                      end;
                 plot_line model "dashed" x2 reference2 y_vals_metric2
                   (plotted_reference st).2
             | None => mret (plotted_reference st).2
             end;
  plotted_CIs ← (if confidence_intervals a then
                   c1 ← plot_errorbar model x_vals1 reference1 y_vals_metric1
                          ci1 (plotted_reference_CIs st).1;
                   c2 ← match metric2_name a with
                        | Some _ =>
                            plot_errorbar model (default [] x_vals2) reference2
                              y_vals_metric2 ci2 (plotted_reference_CIs st).2
                        | None => mret (plotted_reference_CIs st).2
                        end;
                   mret (c1, c2)
                 else mret (plotted_reference_CIs st));
  let st := mk_loop (n_mods st) (counts st) (plotted1, plotted2) plotted_CIs
                    (labels st) in
  let label :=
    if display_averages a then
      match metric2_name a with
      | Some _ => model_plot_name +:+ " (" +:+ metric1_mean_fmt_string +:+ ", "
                  +:+ fmt_mean G (nanmean y_vals_metric2) +:+ ")"
      | None => model_plot_name +:+ " (" +:+ metric1_mean_fmt_string +:+ ")"
      end
    else model_plot_name in
  mret (mk_loop (n_mods st) (counts st) (plotted_reference st)
                (plotted_reference_CIs st) (labels st ++ [label])).

Definition plot_models (a : plot_args) (model_list : list string)
    (mod_setting_dicts : list model_setting) (t : pivot_tables7)
    (x_vals1 : list datetime) (x_vals2 : option (list datetime))
    (reference1 reference2 : option reference_line) : M loop_state :=
  let labels0 := match metric2_name a with
                 | Some m2 => [Str.upper (metric1_name a); Str.upper m2]
                 | None => []
                 end in
  for_each (seq 0 (List.length mod_setting_dicts))
    (plot_model a model_list t x_vals1 x_vals2 reference1 reference2)
    (mk_loop 0 None (false, false) (false, false) labels0).

(** Lines 219-513: restriction to common dates, the x values, reference
    detection and the loop. *)
Definition plot_data (a : plot_args) (sample_equalization : bool)
    (model_list : list string) (mod_setting_dicts : list model_setting)
    (t : pivot_tables7) : M (pivot_tables7 * list datetime * loop_state) :=
  t ← restrict_to_common (confidence_intervals a) sample_equalization
        (metric2_name a) t;
  p1 ← attr "index" (rt_metric1 t);
  let x_vals1 := pv_index p1 in
  x_vals2 ← match metric2_name a with
            | Some _ => p2 ← attr "index" (rt_metric2 t); mret (Some (pv_index p2))
            | None => mret None
            end;
  reference1 ← detect_reference (metric1_name a) (confidence_intervals a)
                 (rt_metric1 t) (rt_ci_lower1 t) (rt_ci_upper1 t);
  reference2 ← match metric2_name a with
               | Some m2 => detect_reference m2 (confidence_intervals a)
                              (rt_metric2 t) (rt_ci_lower2 t) (rt_ci_upper2 t)
               | None => mret None
               end;
  st ← plot_models a model_list mod_setting_dicts t x_vals1 x_vals2
         reference1 reference2;
  mret (t, x_vals1, st).

(** Lines 570-586: the per-date sample counts above the axes. *)
Definition int_of_Q (q : Q) : Z := Z.quot (Qnum q) (Z.pos (Qden q)).

Definition annotate_samples (se : bool) (pivot_counts : option pivot_table)
    (x_vals1 : list datetime) : M unit :=
  if se then
    pc ← attr "mean" pivot_counts;
    for_each (zip (pv_mean_axis1 pc) x_vals1)
      (λ cx _, draw (Annotation
                       match cx.1 with
                       | None => ""
                       | Some count => Str.of_Z (int_of_Q count)
                       end (Some cx.2)))
      tt;;
    draw (Annotation "#SAMPLES" None)
  else mret tt.

(** Lines 645-675: one logo *)
Definition plot_logo (wanted : bool) (side path : string) : M unit :=
  if wanted then
    found ← Fs.exists_ path;
    if (found : bool) then draw (Logo path)
    else log WARNING (side +:+ " logo path (" +:+ path +:+ ") doesn't exist. "
                      +:+ side +:+ " logo will not be plotted.")
  else mret tt.

(** Lines 677-714: the file name *)
Definition date_hours_savename (date_hours : list Z) : string :=
  if (List.length date_hours <=? 8)%nat
  then Str.join "_" (map (λ h, Str.fmt_02d h +:+ "Z") date_hours)
  else Str.join "-" (map (λ h, Str.fmt_02d h +:+ "Z")
                         [List.hd 0 date_hours; List.last date_hours 0]).

Definition time_period_savename (a : plot_args) : string :=
  if String.eqb (Str.upper (eval_period a)) "TEST"
  then strftime_Ymd (date_range a).1 +:+ "-" +:+ strftime_Ymd (date_range a).2
  else eval_period a.

Definition plot_info (a : plot_args) (date_hours : list Z)
    (frange_save_string : string) : string :=
  Str.join "_" (List.filter Str.nonempty
    ["timeseries";
     Str.lower (date_type a) +:+ Str.lower (date_hours_savename date_hours);
     Str.lower frange_save_string]).

Definition save_name (a : plot_args) (date_hours : list Z)
    (frange_save_string thresholds_save_phrase interp_pts_save_string
     var_savename level_savename domain_save_string : string) : string :=
  let s := Str.lower (metric1_name a) in
  let s := match metric2_name a with
           | Some m2 => s +:+ "_" +:+ Str.lower m2
           | None => s
           end in
  let s := if listed (thresh a)
           then s +:+ "_" +:+ Str.lower thresholds_save_phrase else s in
  let s := if listed (interp_pts a)
           then s +:+ "_" +:+ Str.lower interp_pts_save_string else s in
  let s := s +:+ "." +:+ Str.lower var_savename in
  let s := if Str.nonempty level_savename
           then s +:+ "_" +:+ Str.lower level_savename else s in
  let s := s +:+ "." +:+ Str.lower (time_period_savename a) in
  let s := s +:+ "." +:+ plot_info a date_hours frange_save_string in
  let s := s +:+ "." +:+ Str.lower domain_save_string in
  if Str.nonempty (save_header a) then save_header a +:+ "." +:+ s else s.

(** Lines 716-738: persistence *)
Definition save_subdir (a : plot_args) : string :=
  Path.join (save_dir a)
    [Str.lower (plot_group a); Str.lower (time_period_savename a)].

Definition save_path (a : plot_args) (name : string) : string :=
  Path.join (save_subdir a) [name +:+ ".png"].

Definition restart_path (a : plot_args) (name : string) : string :=
  Path.join (restart_dir a)
    [Str.lower (plot_group a); Str.lower (time_period_savename a);
     name +:+ ".png"].

Definition save_figure (a : plot_args) (name : string) : M unit :=
  is_dir ← Fs.isdir (save_subdir a);
  when (negb is_dir) (Fs.makedirs (save_subdir a));;
  Fs.savefig (save_path a name);;
  when (Str.nonempty (restart_dir a))
       (Fs.copy2 (save_path a name) (restart_path a name));;
  log INFO ("✓ plot saved successfully as " +:+ save_path a name);;
  plt_close (num a);;
  log INFO banner.

(** Lines 189-212: nothing to plot *)
Definition truthy (s : option string) : bool :=
  match s with Some s => Str.nonempty s | None => false end.

Definition no_stats_warning (a : plot_args) (print_varname : string) : string :=
  (if truthy (metric2_name a)
   then "Could not find (and cannot plot) " +:+ metric1_name a +:+ " and/or "
        +:+ default "" (metric2_name a)
   else "Could not find (and cannot plot) " +:+ metric1_name a)
  +:+ " stats for " +:+ print_varname +:+ " at any level. "
  +:+ "This often happens when processed data are all NaNs, "
  +:+ " which are removed.  Check for seasonal cases where critical "
  +:+ " threshold is not reached. Continuing ...".

Definition nothing_to_plot (a : plot_args) (t : pivot_tables7) : M bool :=
  p1 ← attr "empty" (rt_metric1 t);
  if truthy (metric2_name a) && negb (pv_empty p1)
  then p2 ← attr "empty" (rt_metric2 t); mret (pv_empty p2)
  else mret (pv_empty p1).

(** Lines 609-642: the title *)
Definition title_center (a : plot_args) (axis : stats_axis)
    (interp_pts_string opt level_string domain_string date_hours_string
     frange_string : string) : string :=
  let title1 := match metric2_name a with
                | Some _ => ax_metric1_string axis +:+ " and "
                            +:+ ax_metric2_string axis
                | None => ax_metric1_string axis
                end in
  let title1 := if listed (interp_pts a)
                then title1 +:+ " " +:+ interp_pts_string else title1 in
  let unit_name := if Str.nonempty (ax_units axis)
                   then ax_units axis else "unitless" in
  let title2 :=
    if listed (thresh a) then
      level_string +:+ ax_var_long_name axis +:+ " ("
      +:+ Str.join ", " (map (λ l, opt +:+ l) (ax_thresh_labels axis))
      +:+ " " +:+ unit_name +:+ "), " +:+ domain_string
    else
      level_string +:+ ax_var_long_name axis +:+ " (" +:+ unit_name +:+ "), "
      +:+ domain_string in
  let title3 := Str.capitalize (date_type a) +:+ " " +:+ date_hours_string
                +:+ " " +:+ strftime_dbY (date_range a).1 +:+ " to "
                +:+ strftime_dbY (date_range a).2 +:+ ", " +:+ frange_string in
  Str.join (String "010" EmptyString) [title1; title2; title3].

(** The locals the filter chain leaves for the rest of the routine *)
Record chain_locals := mk_chain {
  c_df : DataFrame;
  c_model_list : list string;
  c_date_hours : list Z;
  c_sample_equalization : bool;
  c_frange_string : string;
  c_frange_save_string : string;
  c_interp_pts_string : string;
  c_interp_pts_save_string : string;
  c_opt : string;
  c_opt_letter : string;
  c_requested_thresh_value : list string
}.

(** Lines 95-152: the filter chain and sample equalization *)
Definition filter_chain (a : plot_args) : M chain_locals :=
  (* filter by level *)
  enter at_level (df a);;
  let df := List.filter (λ r, String.eqb (FCST_LEV r) (level a)) (df a) in
  (if empty df then skip_plot (Some (num a)) else mret tt);;
  (* filter by forecast lead times *)
  enter at_lead df;;
  let '(df, frange_string, frange_save_string) :=
    filter_by_lead plot_util df (flead a) in
  (* remove from date_hours the hours that don't exist in the dataframe *)
  date_hours ← lift_exn (prune_date_hours (Str.upper (date_type a)) df
                           (date_hours a));
  (if empty df then skip_plot (Some (num a)) else mret tt);;
  (* filter by interpolation width *)
  enter at_width df;;
  let '(df, interp_pts_string, interp_pts_save_string) :=
    filter_by_width plot_util df (interp_pts a) in
  (* process thresholds *)
  enter at_thresh df;;
  let '(df, opt, opt_letter, requested_thresh_value) :=
    process_thresh plot_util df (thresh a) in
  (* remove from model_list the models that don't exist in the dataframe *)
  enter at_models df;;
  let '(df, model_list) := process_models plot_util df (model_list a) in
  (if empty df then skip_plot (Some (num a)) else mret tt);;
  (* equalize samples *)
  let group_by := ["MODEL"; Str.upper (date_type a)] in
  eq ← (if sample_equalization a then
          enter at_equalize df;;
          let '(df, bool_success) := equalize_samples plot_util df group_by in
          (if empty df then skip_plot (Some (num a)) else mret tt);;
          mret (df, bool_success)
        else mret (df, false));
  mret (mk_chain eq.1 model_list date_hours eq.2 frange_string
          frange_save_string interp_pts_string interp_pts_save_string
          opt opt_letter requested_thresh_value).

(** Line 155: [df.groupby(group_by)] with [group_by] of line 143.  The
    grouping is followed for the datetime columns VALID and INIT, the only
    values of date_type that main() admits (lines 773-787).  For a name that
    is no column pandas raises the KeyError; for another column of the
    dataframe pandas would group by its values, which the model does not
    follow: the run ends here with the error of [date_column], and every
    statement about the aggregation assumes [known_date_type]. *)
Definition df_groups (a : plot_args) (c : chain_locals) : exn + GroupBy :=
  match date_column (Str.upper (date_type a)) with
  | inr date => inr (groupby date (c_df c))
  | inl e => inl e
  end.

(** Lines 154-178: aggregation and pivoting *)
Definition aggregate (a : plot_args) (c : chain_locals)
    : M (stats_result * pivot_tables6) :=
  df_groups ← lift_exn (df_groups a c);
  enter (at_stats (c_sample_equalization c)) (c_df c);;
  let stats :=
    process_stats plot_util (c_df c) df_groups (c_model_list c)
      (metric1_name a) (metric2_name a) (confidence_intervals a)
      (date_type a) (line_type a) (bs a) (c_sample_equalization c)
      (keep_shared_events_only a) in
  let pivot_tables :=
    get_pivot_tables plot_util (df_aggregated stats) (metric1_name a)
      (metric2_name a) (c_sample_equalization c) (keep_shared_events_only a)
      (date_type a) (confidence_intervals a) (aggregate_dates_by a) in
  mret (stats, pivot_tables).

(** Lines 180-188: the call of [reindex_pivot_tables].  [pivot_counts] is
    assigned by the statement that follows the call, so it is a local of
    the routine, and nothing has bound it when the arguments are read. *)
Definition reindex (a : plot_args) (c : chain_locals)
    (pivot_tables : pivot_tables6) : M (pivot_tables7 * Z) :=
  let pivot_counts : option (option pivot_table) := None in
  f ← load_global "reindex_pivot_tables" (reindex_pivot_tables G);
  let arg1 := pt_metric2 pivot_tables in
  let arg2 := pt_metric2 pivot_tables in
  arg3 ← load_fast "pivot_counts" pivot_counts;
  mret (f arg1 arg2 arg3 (pt_ci_lower1 pivot_tables)
          (pt_ci_upper2 pivot_tables) (pt_ci_lower2 pivot_tables)
          (pt_ci_upper2 pivot_tables) (c_date_hours c) (metric2_name a)
          (c_sample_equalization c) (confidence_intervals a)).

(** Lines 189-738: everything drawn and saved *)
Definition render (a : plot_args) (c : chain_locals) (stats : stats_result)
    (t : pivot_tables7) (incr : Z) : M unit :=
  let df := c_df c in
  stop ← nothing_to_plot a t;
  (if (stop : bool) then
     print_varname ← item (map FCST_VAR df) 0;
     log WARNING (no_stats_warning a print_varname);;
     plt_close (num a);;
     log INFO banner;;
     return_None
   else mret tt);;
  (* get plot settings for models *)
  let mod_setting_dicts := get_model_settings plot_util (c_model_list c) in
  (* plot data *)
  log INFO "Begin plotting ...";;
  let thresh_labels :=
    if listed (thresh a)
    then Some (sort_by (float G) (unique (map FCST_THRESH_VALUE df)))
    else None in
  let requested_thresh_labels :=
    sort_by (float G) (c_requested_thresh_value c) in
  plotted ← plot_data a (c_sample_equalization c) (c_model_list c)
              mod_setting_dicts t;
  let '(t, x_vals1, st) := plotted in
  (* plot zero line *)
  draw Axhline;;
  (* configure x-axis *)
  xv ← load_global "xvals1" (xvals1 G);
  let '(xticks, xtick_labels_with_blanks) :=
    configure_dates_axis plot_util xv incr in
  (* configure y-axis *)
  var_long_name_key ← item (map FCST_VAR df) 0;
  thresh_labels ← load_fast "thresh_labels" thresh_labels;
  let axis :=
    configure_stats_axis plot_util thresh_labels (thresh a) (metric1_name a)
      (metric2_name a) (metric_long_names stats) (units stats)
      (unit_convert stats) var_long_name_key in
  (* set axes *)
  item xticks 0;;
  (* set legend *)
  draw (Legend (labels st));;
  (* plot samples *)
  annotate_samples (c_sample_equalization c) (rt_counts t) x_vals1;;
  (* variable, domain, date and level info *)
  let var_savename := get_var_info plot_util df in
  let '(domain_string, domain_save_string) := get_domain_info plot_util df in
  let date_hours_string :=
    get_name_for_listed_items plot_util (map Str.fmt_02d (c_date_hours c)) in
  let '(level_string, level_savename) :=
    get_level_info plot_util (verif_type a) (level a)
      (ax_var_long_name_key axis) var_savename in
  (* set the title *)
  let thresholds_save_phrase :=
    Str.replace_char "." "p"
      (Str.join "" (map (λ l, c_opt_letter c +:+ l) requested_thresh_labels)) in
  draw (Title (title_center a axis (c_interp_pts_string c) (c_opt c)
                 level_string domain_string date_hours_string
                 (c_frange_string c))
              (if c_sample_equalization c then Some 23 else None));;
  log INFO "... Plotting complete.";;
  (* plot logos *)
  plot_logo (plot_logo_left a) "Left" (path_logo_left a);;
  plot_logo (plot_logo_right a) "Right" (path_logo_right a);;
  (* saving *)
  save_figure a
    (save_name a (c_date_hours c) (c_frange_save_string c)
       thresholds_save_phrase (c_interp_pts_save_string c) var_savename
       level_savename domain_save_string).

Definition plot_time_series (a : plot_args) : M unit :=
  log INFO banner;;
  log INFO ("Creating Plot " +:+ Str.of_Z (num a) +:+ " ...");;
  (if empty (df a) then skip_plot None else mret tt);;
  (* fig, ax = plotter.get_plots(num) *)
  c ← filter_chain a;
  aggregated ← aggregate a c;
  reindexed ← reindex a c aggregated.2;
  render a c aggregated.1 reindexed.1 reindexed.2.

End routine.

(** ** The filter chain as data

    The dataframe each step of the chain works on, read off the routine in
    the order it runs them. *)

Section chain.

Context (plot_util : plot_util_t) (G : globals).

Definition df_level (a : plot_args) : DataFrame :=
  List.filter (λ r, String.eqb (FCST_LEV r) (level a)) (df a).
Definition df_lead (a : plot_args) : DataFrame :=
  (filter_by_lead plot_util (df_level a) (flead a)).1.1.
Definition df_width (a : plot_args) : DataFrame :=
  (filter_by_width plot_util (df_lead a) (interp_pts a)).1.1.
Definition df_thresh (a : plot_args) : DataFrame :=
  (process_thresh plot_util (df_width a) (thresh a)).1.1.1.
Definition df_models (a : plot_args) : DataFrame :=
  (process_models plot_util (df_thresh a) (model_list a)).1.
Definition group_by (a : plot_args) : list string :=
  ["MODEL"; Str.upper (date_type a)].
Definition df_equalized (a : plot_args) : DataFrame :=
  (equalize_samples plot_util (df_models a) (group_by a)).1.
Definition bool_success (a : plot_args) : bool :=
  (equalize_samples plot_util (df_models a) (group_by a)).2.

(** The dataframe that reaches the aggregation, and the value of the
    local [sample_equalization] there. *)
Definition df_final (a : plot_args) : DataFrame :=
  if sample_equalization a then df_equalized a else df_models a.
Definition equalized (a : plot_args) : bool :=
  if sample_equalization a then bool_success a else false.

(** The steps in the order the routine enters them. *)
Definition filters (a : plot_args) : list (stage * DataFrame) :=
  [(at_level, df a); (at_lead, df_level a); (at_width, df_lead a);
   (at_thresh, df_width a); (at_models, df_thresh a)]
  ++ (if sample_equalization a then [(at_equalize, df_models a)] else []).

Definition chain (a : plot_args) : list (stage * DataFrame) :=
  filters a ++ [(at_stats (equalized a), df_final a)].

(** A dataframe survives the chain when no step leaves it empty. *)
Definition survives (a : plot_args) : bool :=
  negb (empty (df a)) && negb (empty (df_level a)) && negb (empty (df_lead a))
  && negb (empty (df_width a)) && negb (empty (df_thresh a))
  && negb (empty (df_models a)) && negb (empty (df_final a)).

(** The exception of the call on lines 181-185: the callee name is looked
    up first, then the arguments are read from left to right. *)
Definition reindex_error : exn :=
  match reindex_pivot_tables G with
  | None => NameError "reindex_pivot_tables"
  | Some _ => UnboundLocalError "pivot_counts"
  end.

(** The log of a call that stops on an empty dataframe. *)
Definition opening (a : plot_args) : list (log_level * string) :=
  [(INFO, banner);
   (INFO, "Creating Plot " +:+ Str.of_Z (num a) +:+ " ...")].

Definition empty_log : list (log_level * string) :=
  [(WARNING, "Empty Dataframe. Continuing onto next plot...");
   (INFO, banner)].

(** [date_type] names a datetime column *)
Definition known_date_type (a : plot_args) : bool :=
  match date_column (Str.upper (date_type a)) with
  | inr _ => true
  | inl _ => false
  end.

(** The steps a call has entered, beyond those already in the world *)
Definition steps_of (a : plot_args) (w : world) : list (stage * DataFrame) :=
  drop (List.length (w_stages w))
       (w_stages (plot_time_series plot_util G a w).2).

(** What a run of the chain does to the world: it enters steps, and it
    logs and closes the figure when it stops on an empty dataframe. *)
Definition entered (a : plot_args) (w : world) (n : nat) : world :=
  mk_world (w_log w) (w_stages w ++ take n (filters a))
           (w_figure w) (w_closed w) (w_fs w).

Definition stopped (a : plot_args) (w : world) (n : nat) : world :=
  mk_world (w_log w ++ empty_log) (w_stages w ++ take n (filters a))
           (w_figure w) (w_closed w ++ [num a]) (w_fs w).

(** The world after a call: what it has logged after the opening lines,
    how much of the chain it has entered, and the figures it has closed. *)
Definition after (a : plot_args) (w : world) (lg : list (log_level * string))
    (n : nat) (closed : list Z) : world :=
  mk_world (w_log w ++ opening a ++ lg) (w_stages w ++ take n (chain a))
           (w_figure w) (w_closed w ++ closed) (w_fs w).

End chain.

(** [s1] is performed before [s2] in a sequence of steps *)
Definition performed_before (s1 s2 : stage) (l : list stage) : Prop :=
  ∃ i j, l !! i = Some s1 ∧ l !! j = Some s2 ∧ (i < j)%nat.

(** ** A concrete setting

    Collaborators that hand every dataframe on unchanged, a module that
    defines neither of the two free names, and a call with the defaults of
    the signature. *)

Definition passthrough (ok : bool) : plot_util_t := {|
  filter_by_lead df _ := (df, "F024", "f024");
  filter_by_width df _ := (df, "", "");
  process_thresh df thresh := (df, "<", "lt", thresh);
  process_models df model_list := (df, model_list);
  equalize_samples df _ := (df, ok);
  process_stats _ _ _ _ _ _ _ _ _ _ _ := mk_stats [] [] "" false;
  get_pivot_tables _ _ _ _ _ _ _ _ := mk_pivots6 None None None None None None;
  get_model_settings model_list := map (λ _, mk_setting "o" "black" 1 1) model_list;
  configure_dates_axis x _ := (x, []);
  configure_stats_axis thresh_labels _ m1 _ _ units _ key :=
    mk_stats_axis m1 thresh_labels m1 "" units key key;
  get_var_info _ := "hgt";
  get_domain_info _ := ("CONUS", "conus");
  get_name_for_listed_items items := Str.join ", " items;
  get_level_info _ level _ _ := (level, level)
|}.

Definition bare_module : globals := {|
  model_alias := ∅;
  reindex_pivot_tables := None;
  xvals1 := None;
  fmt_mean _ := "";
  float _ := 0%Q
|}.

Definition call (df : DataFrame) (date_range : datetime * datetime)
    (model_list : list string) : plot_args := {|
  df := df; date_range := date_range; model_list := model_list; num := 0;
  level := "500"; flead := all_leads; thresh := ["<20"];
  metric1_name := "BCRMSE"; metric2_name := Some "BIAS";
  y_lim_lock := false; xlabel := "Valid Date"; date_type := "VALID";
  date_hours := [0; 6; 12; 18]; verif_type := "pres";
  save_dir := "."; restart_dir := "."; line_type := "SL1L2";
  confidence_intervals := false; interp_pts := [];
  bs := mk_bootstrap "MATCHED_PAIRS" 5000 30 (95 # 100);
  eval_period := "TEST"; save_header := ""; display_averages := true;
  keep_shared_events_only := false; plot_group := "sfc_upper";
  sample_equalization := true;
  plot_logo_left := false; plot_logo_right := false;
  path_logo_left := "."; path_logo_right := "."; aggregate_dates_by := ""
|}.

Definition at_hour (h : Z) : datetime := mk_datetime 2022 12 1 h 0.

Definition observation (model : string) (valid : datetime) : row :=
  mk_row model valid valid "500" 24 "20" "1" "HGT" "CONUS" [].

(** Two models verified at 00Z and at 03Z of one day *)
Definition sample_df : DataFrame :=
  [observation "GFS" (at_hour 0); observation "NAM" (at_hour 0);
   observation "GFS" (at_hour 3); observation "NAM" (at_hour 3)].

Definition sample_call : plot_args :=
  call sample_df (mk_datetime 2022 12 1 0 0, mk_datetime 2022 12 1 23 3599999999)
       ["GFS"; "NAM"].

Definition fresh_world : world :=
  mk_world [] [] [] [] (mk_fs ∅ ∅).

(** The locals and the world the chain leaves on the sample call *)
Definition sample_locals : chain_locals :=
  mk_chain sample_df ["GFS"; "NAM"] [0] true "F024" "f024" "" "" "<" "lt"
           ["<20"].

Definition sample_world : world :=
  mk_world [] (filters (passthrough true) sample_call) [] [] (mk_fs ∅ ∅).

(** An OBAR table of two models over two days: the models agree on the
    first day and differ on the second. *)
Definition day (d : Z) : datetime := mk_datetime 2022 12 d 0 0.

Definition obar_varying : pivot_table :=
  mk_pivot [day 1; day 2]
           [("GFS", [Some 5%Q; Some 1%Q]); ("NAM", [Some 5%Q; Some 3%Q])].

(** An OBAR table on which the models agree everywhere, with value zero *)
Definition obar_zero : pivot_table :=
  mk_pivot [day 1; day 2]
           [("GFS", [Some 0%Q; Some 0%Q]); ("NAM", [Some 0%Q; Some 0%Q])].

(** A call that plots OBAR alone, without confidence intervals *)
Definition obar_call : plot_args := {|
  df := sample_df; date_range := (day 1, day 2); model_list := ["GFS"; "NAM"];
  num := 0; level := "500"; flead := all_leads; thresh := [""];
  metric1_name := "OBAR"; metric2_name := None;
  y_lim_lock := true; xlabel := "Valid Date"; date_type := "VALID";
  date_hours := [0; 6; 12; 18]; verif_type := "pres";
  save_dir := "."; restart_dir := "."; line_type := "SL1L2";
  confidence_intervals := false; interp_pts := [];
  bs := mk_bootstrap "MATCHED_PAIRS" 5000 30 (95 # 100);
  eval_period := "TEST"; save_header := ""; display_averages := true;
  keep_shared_events_only := false; plot_group := "sfc_upper";
  sample_equalization := false;
  plot_logo_left := false; plot_logo_right := false;
  path_logo_left := "."; path_logo_right := "."; aggregate_dates_by := ""
|}.

(** The tables of a call that has only its first metric *)
Definition only_metric1 (p : pivot_table) : pivot_tables7 :=
  mk_pivots7 (Some p) None None None None None None.

Definition two_settings : list model_setting :=
  get_model_settings (passthrough true) ["GFS"; "NAM"].

(** ** Paths of the saved figure *)





(** A call for a named evaluation period, saving under [out] with a restart
    copy under [restart], in a world where the restart directory exists *)
Definition period_call : plot_args := {|
  df := sample_df; date_range := (day 1, day 2); model_list := ["GFS"; "NAM"];
  num := 0; level := "500"; flead := all_leads; thresh := [""];
  metric1_name := "BCRMSE"; metric2_name := None;
  y_lim_lock := true; xlabel := "Valid Date"; date_type := "VALID";
  date_hours := [0; 6; 12; 18]; verif_type := "pres";
  save_dir := "out"; restart_dir := "restart"; line_type := "SL1L2";
  confidence_intervals := false; interp_pts := [];
  bs := mk_bootstrap "MATCHED_PAIRS" 5000 30 (95 # 100);
  eval_period := "LAST90DAYS"; save_header := ""; display_averages := true;
  keep_shared_events_only := false; plot_group := "sfc_upper";
  sample_equalization := false;
  plot_logo_left := false; plot_logo_right := false;
  path_logo_left := "."; path_logo_right := "."; aggregate_dates_by := ""
|}.


(** The same call with confidence intervals *)
Definition ci_call : plot_args := {|
  df := sample_df; date_range := (day 1, day 2); model_list := ["GFS"; "NAM"];
  num := 0; level := "500"; flead := all_leads; thresh := [""];
  metric1_name := "BCRMSE"; metric2_name := None;
  y_lim_lock := true; xlabel := "Valid Date"; date_type := "VALID";
  date_hours := [0; 6; 12; 18]; verif_type := "pres";
  save_dir := "out"; restart_dir := "restart"; line_type := "SL1L2";
  confidence_intervals := true; interp_pts := [];
  bs := mk_bootstrap "MATCHED_PAIRS" 5000 30 (95 # 100);
  eval_period := "LAST90DAYS"; save_header := ""; display_averages := true;
  keep_shared_events_only := false; plot_group := "sfc_upper";
  sample_equalization := false;
  plot_logo_left := false; plot_logo_right := false;
  path_logo_left := "."; path_logo_right := "."; aggregate_dates_by := ""
|}.

(** A metric on three days whose lower bound lacks the third day and whose
    upper bound lacks the first *)
Definition ci_tables : pivot_tables7 := {|
  rt_metric1 := Some (mk_pivot [day 1; day 2; day 3]
                               [("GFS", [Some 1%Q; Some 2%Q; Some 3%Q])]);
  rt_metric2 := None;
  rt_counts := None;
  rt_ci_lower1 := Some (mk_pivot [day 1; day 2]
                                 [("GFS", [Some (-1)%Q; Some (-1)%Q])]);
  rt_ci_upper1 := Some (mk_pivot [day 2; day 3]
                                 [("GFS", [Some 1%Q; Some 1%Q])]);
  rt_ci_lower2 := None;
  rt_ci_upper2 := None
|}.

(** ** Aggregation and pivoting, from the specification *)



(** Modelled from the spec: [plot_util.get_pivot_tables] is not in this
    file.  The spec: "Pivot table: rows indexed by date, columns indexed by
    model, values are aggregated metric or confidence bound."  The table of
    the value named [value] has one row per date and one column per model
    of the aggregated dataframe; a pair without a value is NaN. *)
Definition agg_cell (value : string) (agg : AggFrame) (model : string)
    (date : datetime) : cell :=
  match List.find (λ r, bool_decide (AGG_MODEL r = model ∧ AGG_DATE r = date)) agg with
  | Some r => default None (assoc value (AGG_VALUES r))
  | None => None
  end.

Definition pivot (value : string) (agg : AggFrame) : pivot_table :=
  let dates := remove_dups (map AGG_DATE agg) in
  let models := remove_dups (map AGG_MODEL agg) in
  mk_pivot dates (map (λ m, (m, map (agg_cell value agg m) dates)) models).

(** The aggregated BCRMSE of two models on two days *)
Definition sample_agg : AggFrame :=
  [mk_agg "GFS" (day 1) [("BCRMSE", Some 1%Q)];
   mk_agg "NAM" (day 1) [("BCRMSE", Some 2%Q)];
   mk_agg "GFS" (day 2) [("BCRMSE", Some 3%Q)];
   mk_agg "NAM" (day 2) [("BCRMSE", Some 4%Q)]].

(** ** What is drawn *)

(** The figure only grows, by artists that satisfy [P]; a normal result
    satisfies [Q]. *)
Definition grows {A} (P : artist → Prop) (Q : A → Prop) (m : M A) : Prop :=
  ∀ w, (∃ new, w_figure (m w).2 = w_figure w ++ new ∧ Forall P new)
       ∧ ∀ x, (m w).1 = Normal x → Q x.





Definition is_line (art : artist) : bool :=
  match art with Line _ _ _ _ => true | _ => false end.

Definition is_errorbar (art : artist) : bool :=
  match art with Errorbar _ _ _ _ _ => true | _ => false end.

(** the x values of a line or of error bars *)
Definition dates_of (art : artist) : list datetime :=
  match art with
  | Line _ _ x _ | Errorbar _ x _ _ _ => x
  | _ => []
  end.



Definition line_artists (model ls : string) (x : list datetime)
    (reference : option reference_line) (y : list cell) (plotted : bool)
    : list artist :=
  match reference with
  | Some r => if plotted then [] else [Line OfReference ls x (ref_values r)]
  | None => [Line (OfModel model) ls x y]
  end.

Definition errorbar_artists (model : string) (x : list datetime)
    (reference : option reference_line) (y : list cell)
    (ci : list cell * list cell) (plotted : bool) : list artist :=
  match reference with
  | Some r =>
      if plotted then []
      else [Errorbar OfReference x (ref_values r)
              (abs_cells (default ([], []) (ref_ci r)).1)
              (default ([], []) (ref_ci r)).2]
  | None => [Errorbar (OfModel model) x y (abs_cells ci.1) ci.2]
  end.

(** Lines come with error bars *)
Definition paired (new : list artist) : Prop :=
  existsb is_line new = true → existsb is_errorbar new = true.

(** ** What a computation leaves alone *)

(** The file system before and after a run are related by [R]. *)
Definition fs_changes {A} (R : relation filesystem) (m : M A) : Prop :=
  ∀ w, R (w_fs w) (w_fs (m w).2).

(** The run leaves the file system as it is. *)
Definition keeps_fs {A} (m : M A) : Prop := fs_changes eq m.

(** The run does not come to its end: it returns early or raises. *)
Definition never_completes {A} (m : M A) : Prop :=
  ∀ w x, (m w).1 ≠ Normal x.

(** What [save_figure] may do to the file system: create the save directory
    with the directories above it, and write the plot and its restart copy. *)
Definition saved_only (a : plot_args) (name : string) (fs fs' : filesystem) : Prop :=
  dirs fs' ⊆ list_to_set (Fs.ancestors (String.length (save_subdir a)) (save_subdir a))
            ∪ dirs fs
  ∧ dom (files fs') ⊆ {[save_path a name; restart_path a name]} ∪ dom (files fs).

(** A string without upper-case ASCII letters *)
Definition is_lower (s : string) : Prop := Str.lower s = s.

(** A module that defines [xvals1], as the star import might *)
Definition patched_module (x : list datetime) : globals := {|
  model_alias := ∅;
  reindex_pivot_tables := None;
  xvals1 := Some x;
  fmt_mean _ := "";
  float _ := 0%Q
|}.

(** The locals the chain leaves on the call [obar_call], and tables that
    hold one metric on two days *)
Definition obar_locals : chain_locals :=
  mk_chain sample_df ["GFS"; "NAM"] [0] false "F024" "f024" "" "" "" "" [""].

Definition no_stats : stats_result := mk_stats [] [] "" false.

(** A call for one metric with a listed threshold, saving under [out]
    without a restart copy *)
Definition thresh_call : plot_args := {|
  df := sample_df; date_range := (day 1, day 2); model_list := ["GFS"; "NAM"];
  num := 0; level := "500"; flead := all_leads; thresh := ["<20"];
  metric1_name := "BCRMSE"; metric2_name := None;
  y_lim_lock := true; xlabel := "Valid Date"; date_type := "VALID";
  date_hours := [0; 6; 12; 18]; verif_type := "pres";
  save_dir := "out"; restart_dir := ""; line_type := "SL1L2";
  confidence_intervals := false; interp_pts := [];
  bs := mk_bootstrap "MATCHED_PAIRS" 5000 30 (95 # 100);
  eval_period := "TEST"; save_header := ""; display_averages := true;
  keep_shared_events_only := false; plot_group := "sfc_upper";
  sample_equalization := false;
  plot_logo_left := false; plot_logo_right := false;
  path_logo_left := "."; path_logo_right := "."; aggregate_dates_by := ""
|}.

(** The locals the chain leaves on [thresh_call] *)
Definition thresh_locals : chain_locals :=
  mk_chain sample_df ["GFS"; "NAM"] [0] false "F024" "f024" "" "" "<" "lt"
           ["20"].


(** ** main() (lines 741-1026)

    [main] reads its settings from module-level names that the block under
    [if __name__ == "__main__"] binds; here they are the fields of a record.
    The tables of [settings.py] and the functions of [plot_util] and
    [df_preprocessing] are collaborators.  The logger set-up (lines 749-761)
    and the listing of the settings at debug level (lines 789-861) are not
    followed. *)

Module Main.

(** [s.split(sep)] for a one-character separator *)
Fixpoint str_split (sep : ascii) (s : string) : list string :=
  match s with
  | EmptyString => [""]
  | String c s' =>
      if Ascii.eqb c sep then "" :: str_split sep s'
      else match str_split sep s' with
           | [] => [String c ""]
           | piece :: pieces => String c piece :: pieces
           end
  end.

(** [s.replace(' ', '').split(',')] *)
Definition comma_list (s : string) : list string :=
  str_split "," (Str.replace_char " " "" s).

(** Lines 744-746: the directory of the log file *)
Definition log_metplus_dir (LOG_TEMPLATE : string) : string :=
  foldl Path.join2 "/" (removelast (str_split "/" LOG_TEMPLATE)).

(** [re.split] with the pattern: a comma, then a negative lookahead for
    the characters 0 and star.  The string is cut at every comma that is
    not followed by one of the two. *)
Definition protected (s : string) : bool :=
  match s with
  | String c _ => Ascii.eqb c "0" || Ascii.eqb c "*"
  | EmptyString => false
  end.

Fixpoint re_split_levels (s : string) : list string :=
  match s with
  | EmptyString => [""]
  | String c s' =>
      if Ascii.eqb c "," && negb (protected s') then "" :: re_split_levels s'
      else match re_split_levels s' with
           | [] => [String c ""]
           | piece :: pieces => String c piece :: pieces
           end
  end.

(** *** Dates *)

(** Exceptions of main(): those the plotting routine knows, and the
    overflow of date arithmetic. *)
Inductive failure :=
| Py (e : exn)
| OverflowError (what : string).

Definition is_digit (c : ascii) : bool :=
  let n := Ascii.nat_of_ascii c in ((48 <=? n) && (n <=? 57))%nat.

Definition digit (c : ascii) : Z := Z.of_nat (Ascii.nat_of_ascii c) - 48.

(** The directive [%m] of strptime, [1[0-2]|0[1-9]|[1-9]]: the ways it can
    match at the head of [s], in the order the regular expression tries
    them, each with the text left over *)
Definition match_month (s : string) : list (Z * string) :=
  match s with
  | String c1 rest1 =>
      (match rest1 with
       | String c2 rest2 =>
           (if Ascii.eqb c1 "1" && is_digit c2 && (digit c2 <=? 2)%Z
            then [(10 + digit c2, rest2)] else [])
           ++ (if Ascii.eqb c1 "0" && is_digit c2 && (1 <=? digit c2)%Z
               then [(digit c2, rest2)] else [])
       | EmptyString => []
       end)
      ++ (if is_digit c1 && (1 <=? digit c1)%Z then [(digit c1, rest1)] else [])
  | EmptyString => []
  end.

(** The directive [%d], [3[0-1]|[1-2]\d|0[1-9]|[1-9]| [1-9]]: nothing
    follows it in the format, so its first match is taken *)
Definition match_day (s : string) : option (Z * string) :=
  match s with
  | String c1 rest1 =>
      match rest1 with
      | String c2 rest2 =>
          if Ascii.eqb c1 "3" && is_digit c2 && (digit c2 <=? 1)%Z
          then Some (30 + digit c2, rest2)
          else if (Ascii.eqb c1 "1" || Ascii.eqb c1 "2") && is_digit c2
          then Some (10 * digit c1 + digit c2, rest2)
          else if Ascii.eqb c1 "0" && is_digit c2 && (1 <=? digit c2)%Z
          then Some (digit c2, rest2)
          else if is_digit c1 && (1 <=? digit c1)%Z
          then Some (digit c1, rest1)
          else if Ascii.eqb c1 " " && is_digit c2 && (1 <=? digit c2)%Z
          then Some (digit c2, rest2)
          else None
      | EmptyString =>
          if is_digit c1 && (1 <=? digit c1)%Z then Some (digit c1, rest1)
          else None
      end
  | EmptyString => None
  end.

Definition is_leap (y : Z) : bool :=
  ((y mod 4 =? 0) && (negb (y mod 100 =? 0) || (y mod 400 =? 0)))%Z.

Definition days_in_month (y m : Z) : Z :=
  if (m =? 2)%Z then (if is_leap y then 29 else 28)
  else if bool_decide (m ∈ [4; 6; 9; 11]) then 30
  else 31.

(** [datetime.strptime(s, '%Y%m%d')]; digits are the ASCII digits *)
Definition strptime_Ymd (s : string) : failure + datetime :=
  let no_match :=
    inl (Py (ValueError ("time data '" +:+ s
                         +:+ "' does not match format '%Y%m%d'"))) in
  match s with
  | String y1 (String y2 (String y3 (String y4 rest))) =>
      if is_digit y1 && is_digit y2 && is_digit y3 && is_digit y4 then
        let year := 1000 * digit y1 + 100 * digit y2 + 10 * digit y3
                    + digit y4 in
        match omap (M:=list)
                (λ mr : Z * string,
                   (λ dr : Z * string, (mr.1, dr.1, dr.2)) <$> match_day mr.2)
                (match_month rest) with
        | [] => no_match
        | (month, day, unconverted) :: _ =>
            if Str.nonempty unconverted
            then inl (Py (ValueError ("unconverted data remains: "
                                      +:+ unconverted)))
            else if (year =? 0)%Z
            then inl (Py (ValueError "year 0 is out of range"))
            else if (days_in_month year month <? day)%Z
            then inl (Py (ValueError "day is out of range for month"))
            else inr (mk_datetime year month day 0 0)
        end
      else no_match
  | _ => no_match
  end.

(** [d + timedelta(days=1)] *)
Definition plus_day (d : datetime) : failure + datetime :=
  if (dt_day d <? days_in_month (dt_year d) (dt_month d))%Z
  then inr (mk_datetime (dt_year d) (dt_month d) (dt_day d + 1)
                        (dt_hour d) (dt_rest d))
  else if (dt_month d <? 12)%Z
  then inr (mk_datetime (dt_year d) (dt_month d + 1) 1 (dt_hour d) (dt_rest d))
  else if (dt_year d <? 9999)%Z
  then inr (mk_datetime (dt_year d + 1) 1 1 (dt_hour d) (dt_rest d))
  else inl (OverflowError "date value out of range").

(** [d - timedelta(milliseconds=1)] *)
Definition minus_millisecond (d : datetime) : failure + datetime :=
  if (1000 <=? dt_rest d)%Z
  then inr (mk_datetime (dt_year d) (dt_month d) (dt_day d) (dt_hour d)
                        (dt_rest d - 1000))
  else
    let rest := dt_rest d + 3600000000 - 1000 in
    if (0 <? dt_hour d)%Z
    then inr (mk_datetime (dt_year d) (dt_month d) (dt_day d) (dt_hour d - 1)
                          rest)
    else if (1 <? dt_day d)%Z
    then inr (mk_datetime (dt_year d) (dt_month d) (dt_day d - 1) 23 rest)
    else if (1 <? dt_month d)%Z
    then inr (mk_datetime (dt_year d) (dt_month d - 1)
                          (days_in_month (dt_year d) (dt_month d - 1)) 23 rest)
    else if (1 <? dt_year d)%Z
    then inr (mk_datetime (dt_year d - 1) 12 31 23 rest)
    else inl (OverflowError "date value out of range").



(** *** Settings and collaborators *)

(** The module-level names main() reads.  Those of lower case carry the
    prefix [g_], which keeps them apart from the parameters of
    [plot_time_series]; so does INTERP_PNTS, which is also a column. *)
Record config := mk_config {
  LOG_TEMPLATE : string;
  MET_VERSION : Q;
  IMG_HEADER : string;
  VERIF_CASE : string;
  VERIF_TYPE : string;
  VERIF_CASETYPE : string;
  STATS_DIR : string;
  PRUNE_DIR : string;
  SAVE_DIR : string;
  RESTART_DIR : string;
  OUTPUT_BASE_TEMPLATE : string;
  DATE_TYPE : string;
  LINE_TYPE : string;
  INTERP : string;
  MODELS : list string;
  DOMAINS : list string;
  VALID_HOURS : list Z;
  INIT_HOURS : list Z;
  EVAL_PERIOD : string;
  VALID_BEG : string;
  VALID_END : string;
  INIT_BEG : string;
  INIT_END : string;
  VARIABLES : list string;
  FLEADS : list Z;
  FCST_LEVELS : string;
  OBS_LEVELS : string;
  FCST_THRESH : list string;
  OBS_THRESH : list string;
  METRICS : list string;
  Y_LIM_LOCK : bool;
  CONFIDENCE_INTERVALS : bool;
  g_INTERP_PNTS : list string;
  g_bs : bootstrap;
  g_sample_equalization : bool;
  g_display_averages : bool;
  g_keep_shared_events_only : bool;
  g_aggregate_dates_by : string;
  g_clear_prune_dir : bool;
  g_plot_logo_left : bool;
  g_plot_logo_right : bool;
  g_path_logo_left : string;
  g_path_logo_right : string
}.

(** One entry of [case_specs['var_dict']].  What main() asks of the
    thresholds and levels of a variable is whether a string is [in] them. *)
Record var_specs := mk_var_specs {
  fcst_var_names : list string;
  obs_var_names : list string;
  fcst_var_thresholds : string → bool;
  obs_var_thresholds : string → bool;
  fcst_var_levels : string → bool;
  obs_var_levels : string → bool;
  var_plot_group : string
}.

(** One entry of [reference.case_type[case][line_type]] *)
Record case_specs := mk_case_specs {
  interp : string;
  plot_stats_list : string;
  var_dict : gmap string var_specs;
  vx_mask_list : string → bool
}.

(** The tables and functions main() uses, and the three names it reads
    without binding them: [date_type] (line 784), [level] (line 979) and
    [re] (lines 962-968), each bound only if the star import of
    check_variables brings it. *)
Record env := mk_env {
  date_presets : gmap string (gmap string string);
  level_presets : gmap string string;
  case_type : gmap string (gmap string case_specs);
  format_thresh : string → string * string;
  get_preprocessed_data :
    config → datetime * datetime → list Z → string → list string →
    list string → string → option DataFrame;
  g_date_type : option string;
  g_level : option string;
  g_re : option unit
}.

(** *** The monad of main() *)

Inductive severity := debug | info | warning | error.

(** What main() has logged itself, the calls of [plot_time_series] it has
    made, and the world those calls run in. *)
Record state := mk_state {
  s_log : list (severity * string);
  s_calls : list plot_args;
  s_world : world
}.

Definition MM (A : Type) := state → (failure + A) * state.

Global Instance MM_ret : MRet MM := λ A a s, (inr a, s).

Global Instance MM_bind : MBind MM := λ A B k m s,
  match m s with
  | (inr a, s') => k a s'
  | (inl e, s') => (inl e, s')
  end.

Definition fail {A} (e : failure) : MM A := λ s, (inl e, s).

Definition lift {A} (r : failure + A) : MM A :=
  match r with inl e => fail e | inr a => mret a end.

Definition logger (l : severity) (msg : string) : MM unit :=
  λ s, (inr tt, mk_state (s_log s ++ [(l, msg)]) (s_calls s) (s_world s)).

(** A global name that the module may or may not define *)
Definition global {A} (name : string) (v : option A) : MM A :=
  match v with Some a => mret a | None => fail (Py (NameError name)) end.

(** [d[key]] *)
Definition getitem {A} (d : gmap string A) (key : string) : MM A :=
  match d !! key with Some v => mret v | None => fail (Py (KeyError key)) end.

(** [l[i]] *)
Definition list_item {A} (l : list A) (i : nat) : MM A :=
  match l !! i with
  | Some x => mret x
  | None => fail (Py (IndexError "list index out of range"))
  end.

(** [np.array(l)[mask]] for a boolean mask *)
Definition mask_select {A} (l : list A) (mask : list bool) : MM (list A) :=
  if (List.length mask =? List.length l)%nat then mret (select mask l)
  else fail (Py (IndexError "boolean index did not match indexed array")).

Fixpoint for_each {A S} (l : list A) (body : A → S → MM S) (st : S) : MM S :=
  match l with
  | [] => mret st
  | x :: l' => st' ← body x st; for_each l' body st'
  end.

Definition newline : string := String "010" EmptyString.

(** [logger.error(e); logger.error("Quitting ..."); raise ValueError(...)] *)
Definition quit {A} (e : string) : MM A :=
  logger error e;;
  logger error "Quitting ...";;
  fail (Py (ValueError (e +:+ newline +:+ "Quitting ..."))).

Section main.

Context (plot_util : plot_util_t) (G : globals) (E : env).

(** The call of [plot_time_series]: an exception of the routine is one of
    main(), a [return None] is a return. *)
Definition call_plot (a : plot_args) : MM unit := λ s,
  let r := plot_time_series plot_util G a (s_world s) in
  let s' := mk_state (s_log s) (s_calls s ++ [a]) r.2 in
  match r.1 with
  | Raise e => (inl (Py e), s')
  | _ => (inr tt, s')
  end.

(** Lines 763-787: the period and the hours of the date type *)
Definition select_dates (cfg : config)
    : MM (string * string * list Z * string) :=
  dates ← (if String.eqb (Str.upper (EVAL_PERIOD cfg)) "TEST"
           then mret (VALID_BEG cfg, VALID_END cfg, INIT_BEG cfg, INIT_END cfg)
           else
             preset ← getitem (date_presets E) (EVAL_PERIOD cfg);
             valid_beg ← getitem preset "valid_beg";
             valid_end ← getitem preset "valid_end";
             init_beg ← getitem preset "init_beg";
             init_end ← getitem preset "init_end";
             mret (valid_beg, valid_end, init_beg, init_end));
  let '(valid_beg, valid_end, init_beg, init_end) := dates in
  if String.eqb (Str.upper (DATE_TYPE cfg)) "VALID"
  then mret (valid_beg, valid_end, VALID_HOURS cfg, DATE_TYPE cfg)
  else if String.eqb (Str.upper (DATE_TYPE cfg)) "INIT"
  then mret (init_beg, init_end, INIT_HOURS cfg, "Initialization")
  else
    date_type ← global "date_type" (g_date_type E);
    let e := "FATAL ERROR: Invalid DATE_TYPE: " +:+ Str.upper date_type
             +:+ ". Valid values are VALID or INIT" in
    logger error e;;
    fail (Py (ValueError e)).

(** Lines 863-866 *)
Definition date_range_of (date_beg date_end : string)
    : MM (datetime * datetime) :=
  first ← lift (strptime_Ymd date_beg);
  last ← lift (strptime_Ymd date_end);
  last ← lift (plus_day last);
  last ← lift (minus_millisecond last);
  mret (first, last).

(** Lines 867-876 *)
Definition select_metrics (cfg : config) : MM (string * option string) :=
  match METRICS cfg with
  | [metric] => mret (metric, None)
  | metric1 :: metric2 :: _ => mret (metric1, Some metric2)
  | [] =>
      let e := "FATAL ERROR: Received no list of metrics.  Check that, for the METRICS"
               +:+ " setting, a comma-separated string of at least one metric is"
               +:+ " provided" in
      logger error e;;
      fail (Py (ValueError e))
  end.

(** Lines 877-882: the symbols and the letters of the thresholds, by
    unpacking the transposed list of [format_thresh(t)] into two names *)
Definition unzip_thresh (thresholds : list string)
    : MM (list string * list string) :=
  match thresholds with
  | [] => fail (Py (ValueError "not enough values to unpack (expected 2, got 0)"))
  | _ => mret (map (λ t, (format_thresh E t).1) thresholds,
               map (λ t, (format_thresh E t).2) thresholds)
  end.

(** Lines 883-909: the case type, the line type and the interpolation *)
Definition check_case (cfg : config) : MM case_specs :=
  match case_type E !! Str.lower (VERIF_CASETYPE cfg) with
  | None =>
      quit ("FATAL ERROR: The requested verification case/type combination is not valid:"
            +:+ " " +:+ VERIF_CASETYPE cfg)
  | Some line_types =>
      match line_types !! Str.upper (LINE_TYPE cfg) with
      | None =>
          quit ("FATAL ERROR: The requested line_type is not valid for "
                +:+ VERIF_CASETYPE cfg +:+ ":" +:+ " " +:+ LINE_TYPE cfg)
      | Some case_specs =>
          if bool_decide (Str.upper (INTERP cfg) ∈ comma_list (interp case_specs))
          then mret case_specs
          else
            quit ("FATAL ERROR: The requested interp method is not valid for the"
                  +:+ " requested case type (" +:+ VERIF_CASETYPE cfg +:+ ") and"
                  +:+ " line_type (" +:+ LINE_TYPE cfg +:+ "): " +:+ INTERP cfg)
      end
  end.

(** Lines 910-920: a metric that the case does not list is only reported *)
Definition check_metrics (cfg : config) (specs : case_specs)
    (metrics : string * option string) : MM unit :=
  for_each [Some metrics.1; metrics.2]
    (λ metric _,
       match metric with
       | Some metric =>
           if bool_decide (Str.lower metric ∈ comma_list (plot_stats_list specs))
           then mret tt
           else
             logger warning
               ("The requested metric is not valid for the"
                +:+ " requested case type (" +:+ VERIF_CASETYPE cfg +:+ ") and"
                +:+ " line_type (" +:+ LINE_TYPE cfg +:+ "): " +:+ metric);;
             logger warning "Continuing ..."
       | None => mret tt
       end)
    tt.

(** Lines 933-952: the thresholds that the variable admits.  The two loops
    run over [zip] of the forecast and observation forms, and [np.add] of
    two boolean lists is their element-wise disjunction; inverting an empty
    array, which numpy holds as floats, is a type error. *)
Definition keep_mask (vs : var_specs) (fcst obs : list string) : list bool :=
  map (λ fo : string * string,
         fcst_var_thresholds vs fo.1 && obs_var_thresholds vs fo.2)
      (zip fcst obs).

Definition select_thresholds (cfg : config) (vs : var_specs)
    (fcst_thresh_symbol fcst_thresh_letter
     obs_thresh_symbol obs_thresh_letter : list string)
    : MM (list string * list string * list string) :=
  let symbol_keep := keep_mask vs fcst_thresh_symbol obs_thresh_symbol in
  let letter_keep := keep_mask vs fcst_thresh_letter obs_thresh_letter in
  let keep := zip_with orb letter_keep symbol_keep in
  (if bool_decide (keep = [])
   then fail (Py (TypeError "ufunc 'invert' not supported for the input types"))
   else mret tt);;
  dropped_items ← mask_select (FCST_THRESH cfg) (map negb keep);
  fcst_thresh ← mask_select (FCST_THRESH cfg) keep;
  obs_thresh ← mask_select (OBS_THRESH cfg) keep;
  mret (dropped_items, fcst_thresh, obs_thresh).

(** Lines 961-968 *)
Definition levels_of (levels : string) : list string :=
  re_split_levels
    (Str.replace_char " " "" (default levels (level_presets E !! levels))).

(** Lines 982-1026: one domain *)
Definition plot_domain (cfg : config) (specs : case_specs) (vs : var_specs)
    (metrics : string * option string) (date_range : datetime * datetime)
    (date_hours : list Z) (date_type_string requested_var : string)
    (fcst_thresh : list string) (fcst_level : string)
    (domain : string) (num : Z) : MM Z :=
  if negb (vx_mask_list specs domain) then
    logger warning
      ("The requested domain is not valid for the"
       +:+ " requested case type (" +:+ VERIF_CASETYPE cfg +:+ ") and"
       +:+ " line_type (" +:+ LINE_TYPE cfg +:+ "): " +:+ domain);;
    logger warning "Continuing ...";;
    mret num
  else
    match get_preprocessed_data E cfg date_range date_hours requested_var
            (fcst_var_names vs) (obs_var_names vs) domain with
    | None => mret num
    | Some df =>
        call_plot {|
          df := df; date_range := date_range; model_list := MODELS cfg;
          num := num; flead := lead_list (FLEADS cfg); level := fcst_level;
          thresh := fcst_thresh;
          metric1_name := metrics.1; metric2_name := metrics.2;
          date_type := DATE_TYPE cfg; y_lim_lock := Y_LIM_LOCK cfg;
          xlabel := Str.capitalize date_type_string +:+ " Date";
          verif_type := VERIF_TYPE cfg; date_hours := date_hours;
          line_type := LINE_TYPE cfg; save_dir := SAVE_DIR cfg;
          restart_dir := RESTART_DIR cfg; eval_period := EVAL_PERIOD cfg;
          display_averages := g_display_averages cfg;
          keep_shared_events_only := g_keep_shared_events_only cfg;
          save_header := IMG_HEADER cfg; plot_group := var_plot_group vs;
          confidence_intervals := CONFIDENCE_INTERVALS cfg;
          interp_pts := g_INTERP_PNTS cfg;
          bs := g_bs cfg;
          sample_equalization := g_sample_equalization cfg;
          plot_logo_left := g_plot_logo_left cfg;
          plot_logo_right := g_plot_logo_right cfg;
          path_logo_left := g_path_logo_left cfg;
          path_logo_right := g_path_logo_right cfg;
          aggregate_dates_by := g_aggregate_dates_by cfg
        |};;
        mret (num + 1)
    end.

(** Lines 969-1026: one level, with its domains *)
Definition plot_level (cfg : config) (specs : case_specs) (vs : var_specs)
    (metrics : string * option string) (date_range : datetime * datetime)
    (date_hours : list Z) (date_type_string requested_var : string)
    (fcst_thresh fcst_levels obs_levels : list string)
    (l_fcst_level : nat * string) (num : Z) : MM Z :=
  let '(l, fcst_level) := l_fcst_level in
  (if negb (List.length fcst_levels =? List.length obs_levels)%nat
   then quit ("FATAL ERROR: FCST_LEVELS and OBS_LEVELS must be lists of the same"
              +:+ " size")
   else mret tt);;
  fcst ← list_item fcst_levels l;
  obs ← list_item obs_levels l;
  if negb (fcst_var_levels vs fcst) || negb (obs_var_levels vs obs) then
    level ← global "level" (g_level E);
    logger warning
      ("The requested variable/level combination is not valid: "
       +:+ requested_var +:+ "/" +:+ level);;
    mret num
  else
    for_each (DOMAINS cfg)
      (plot_domain cfg specs vs metrics date_range date_hours date_type_string
         requested_var fcst_thresh fcst_level)
      num.

(** Lines 921-1026: one variable, with its levels *)
Definition plot_variable (cfg : config) (specs : case_specs)
    (metrics : string * option string) (date_range : datetime * datetime)
    (date_hours : list Z) (date_type_string : string)
    (fcst_thresh_symbol fcst_thresh_letter
     obs_thresh_symbol obs_thresh_letter : list string)
    (requested_var : string) (num : Z) : MM Z :=
  match var_dict specs !! requested_var with
  | None =>
      logger warning
        ("The requested variable is not valid for the requested case"
         +:+ " type (" +:+ VERIF_CASETYPE cfg +:+ ") and line_type ("
         +:+ LINE_TYPE cfg +:+ "):" +:+ " " +:+ requested_var);;
      logger warning "Continuing ...";;
      mret num
  | Some vs =>
      kept ← select_thresholds cfg vs fcst_thresh_symbol fcst_thresh_letter
               obs_thresh_symbol obs_thresh_letter;
      let '(dropped_items, fcst_thresh, obs_thresh) := kept in
      (match dropped_items with
       | [] => mret tt
       | _ =>
           logger warning
             ("The requested thresholds are not valid for the requested"
              +:+ " case type (" +:+ VERIF_CASETYPE cfg +:+ ") and line_type"
              +:+ " (" +:+ LINE_TYPE cfg +:+ "): "
              +:+ Str.join ", " dropped_items);;
           logger warning "Continuing ..."
       end);;
      global "re" (g_re E);;
      let fcst_levels := levels_of (FCST_LEVELS cfg) in
      let obs_levels := levels_of (OBS_LEVELS cfg) in
      for_each (zip (seq 0 (List.length fcst_levels)) fcst_levels)
        (plot_level cfg specs vs metrics date_range date_hours
           date_type_string requested_var fcst_thresh fcst_levels obs_levels)
        num
  end.

(** Lines 863-1026: everything after the settings have been listed *)
Definition main_plots (cfg : config) (date_beg date_end : string)
    (date_hours : list Z) (date_type_string : string) : MM unit :=
  date_range ← date_range_of date_beg date_end;
  metrics ← select_metrics cfg;
  fcst ← unzip_thresh (FCST_THRESH cfg);
  obs ← unzip_thresh (OBS_THRESH cfg);
  specs ← check_case cfg;
  check_metrics cfg specs metrics;;
  for_each (VARIABLES cfg)
    (plot_variable cfg specs metrics date_range date_hours date_type_string
       fcst.1 fcst.2 obs.1 obs.2)
    0;;
  mret tt.

End main.

(** *** What main() keeps *)

(** A run from a state that satisfies [P] ends in a state that satisfies
    [Q] with its result, or fails in a state that satisfies [F]. *)
Definition triple {A} (P : state → Prop) (m : MM A)
    (Q : A → state → Prop) (F : state → Prop) : Prop :=
  ∀ s, P s → match m s with (inr x, s') => Q x s' | (inl _, s') => F s' end.

(** The numbers 0, 1, ..., n-1 *)
Definition numbers (n : nat) : list Z := map Z.of_nat (seq 0 n).

(** Since [s0], main() has made the calls [new] of the routine, numbered
    from 0 on, and nothing has been drawn or written; with [skipped], every
    dataframe of these calls was emptied by a filter of the routine. *)
Definition attempted (plot_util : plot_util_t) (skipped : bool)
    (s0 s : state) (new : list plot_args) : Prop :=
  s_calls s = s_calls s0 ++ new
  ∧ map num new = numbers (List.length new)
  ∧ w_fs (s_world s) = w_fs (s_world s0)
  ∧ w_figure (s_world s) = w_figure (s_world s0)
  ∧ (skipped = true → Forall (λ a, survives plot_util a = false) new).

(** [n] calls have been made since [s0], each skipped; and the state of a
    run that failed *)
Definition counted (plot_util : plot_util_t) (s0 : state) (n : Z)
    (s : state) : Prop :=
  ∃ new, attempted plot_util true s0 s new ∧ n = Z.of_nat (List.length new).

Definition failed (plot_util : plot_util_t) (s0 s : state) : Prop :=
  ∃ new, attempted plot_util false s0 s new.

(** The run does not call the routine. *)
Definition quiet {A} (m : MM A) : Prop :=
  ∀ s, s_calls (m s).2 = s_calls s ∧ s_world (m s).2 = s_world s.

(** The run fails, and has not called the routine. *)
Definition fails_quietly {A} (m : MM A) : Prop :=
  ∀ s, ∃ e s', m s = (inl e, s')
               ∧ s_calls s' = s_calls s ∧ s_world s' = s_world s.

(** The case type, the line type and the interpolation are known, with
    the settings [specs]. *)
Definition valid_case (E : env) (cfg : config) (specs : case_specs) : Prop :=
  ∃ line_types,
    case_type E !! Str.lower (VERIF_CASETYPE cfg) = Some line_types
    ∧ line_types !! Str.upper (LINE_TYPE cfg) = Some specs
    ∧ Str.upper (INTERP cfg) ∈ comma_list (interp specs).

(** Every comma of the string is followed by 0 or by a star. *)
Fixpoint only_protected_commas (s : string) : bool :=
  match s with
  | EmptyString => true
  | String c s' =>
      (negb (Ascii.eqb c ",") || protected s') && only_protected_commas s'
  end.

(** *** A concrete setting

    One case with one variable, one level preset and one domain; the
    thresholds are their own symbol and letter forms; the data read for
    the domain is [sample_df], whose rows are all at level 500. *)

Definition sample_var : var_specs := {|
  fcst_var_names := ["HGT"]; obs_var_names := ["HGT"];
  fcst_var_thresholds t := String.eqb t "";
  obs_var_thresholds t := String.eqb t "";
  fcst_var_levels l := bool_decide (l ∈ ["500"; "850"]);
  obs_var_levels l := bool_decide (l ∈ ["500"; "850"]);
  var_plot_group := "sfc_upper"
|}.

Definition sample_case : case_specs := {|
  interp := "NEAREST, BILIN";
  plot_stats_list := "bcrmse, bias, rmse";
  var_dict := {["HGT" := sample_var]};
  vx_mask_list d := bool_decide (d ∈ ["CONUS"; "EAST"])
|}.

Definition env_with (re : option unit) : env := {|
  date_presets := ∅;
  level_presets := {["all" := "500, 850"]};
  case_type := {["grid2obs_upper" := {["SL1L2" := sample_case]}]};
  format_thresh t := (t, t);
  get_preprocessed_data _ _ _ _ _ _ _ := Some sample_df;
  g_date_type := None;
  g_level := None;
  g_re := re
|}.

(** The star import binds [re], and neither [date_type] nor [level] *)
Definition sample_env : env := env_with (Some tt).

Definition config_with (date_type verif_casetype fcst_levels : string)
    (obs_thresh : list string) : config := {|
  LOG_TEMPLATE := "/logs/timeseries.log";
  MET_VERSION := 10%Q;
  IMG_HEADER := "";
  VERIF_CASE := "grid2obs";
  VERIF_TYPE := "upper";
  VERIF_CASETYPE := verif_casetype;
  STATS_DIR := "/stats";
  PRUNE_DIR := "/prune";
  SAVE_DIR := "/out";
  RESTART_DIR := "";
  OUTPUT_BASE_TEMPLATE := "";
  DATE_TYPE := date_type;
  LINE_TYPE := "SL1L2";
  INTERP := "NEAREST";
  MODELS := ["GFS"; "NAM"];
  DOMAINS := ["CONUS"];
  VALID_HOURS := [0; 6; 12; 18];
  INIT_HOURS := [0; 12];
  EVAL_PERIOD := "TEST";
  VALID_BEG := "20221201";
  VALID_END := "20221202";
  INIT_BEG := "20221130";
  INIT_END := "20221201";
  VARIABLES := ["HGT"];
  FLEADS := [24];
  FCST_LEVELS := fcst_levels;
  OBS_LEVELS := fcst_levels;
  FCST_THRESH := [""];
  OBS_THRESH := obs_thresh;
  METRICS := ["BCRMSE"; "BIAS"];
  Y_LIM_LOCK := false;
  CONFIDENCE_INTERVALS := false;
  g_INTERP_PNTS := [""];
  g_bs := mk_bootstrap "MATCHED_PAIRS" 5000 30 (95 # 100);
  g_sample_equalization := true;
  g_display_averages := true;
  g_keep_shared_events_only := false;
  g_aggregate_dates_by := "";
  g_clear_prune_dir := true;
  g_plot_logo_left := false;
  g_plot_logo_right := false;
  g_path_logo_left := ".";
  g_path_logo_right := "."
|}.

(** Valid dates, the case grid2obs_upper and the level 850, at which
    [sample_df] has no row *)
Definition sample_config : config :=
  config_with "VALID" "grid2obs_upper" "850" [""].

Definition fresh_state : state := mk_state [] [] fresh_world.

End Main.


(** * Properties *)

(** ** Running the monad *)

Lemma run_bind {A B} (m : M A) (k : A → M B) w out w' :
  m w = (out, w') →
  (m ≫= k) w = match out with
               | Normal x => k x w'
               | ReturnNone => (ReturnNone, w')
               | Raise e => (Raise e, w')
               end.
Proof. unfold mbind, M_bind. by intros ->. Qed.

Lemma run_mret {A} (x : A) w : (mret x : M A) w = (Normal x, w).
Proof. done. Qed.

Lemma run_raise {A} e w : raise (A:=A) e w = (Raise e, w).
Proof. done. Qed.

Lemma run_enter s d w :
  enter s d w = (Normal tt, mk_world (w_log w) (w_stages w ++ [(s, d)])
                              (w_figure w) (w_closed w) (w_fs w)).
Proof. done. Qed.

Lemma run_log l msg w :
  log l msg w = (Normal tt, mk_world (w_log w ++ [(l, msg)]) (w_stages w)
                              (w_figure w) (w_closed w) (w_fs w)).
Proof. done. Qed.

Lemma run_draw x w :
  draw x w = (Normal tt, mk_world (w_log w) (w_stages w) (w_figure w ++ [x])
                           (w_closed w) (w_fs w)).
Proof. done. Qed.

Lemma run_skip_plot {A} n w :
  skip_plot (A:=A) (Some n) w =
    (ReturnNone, mk_world (w_log w ++ empty_log) (w_stages w) (w_figure w)
                          (w_closed w ++ [n]) (w_fs w)).
Proof.
  cbv [skip_plot mbind M_bind log plt_close return_None empty_log]. cbn.
  by rewrite <- app_assoc.
Qed.

Lemma run_skip_plot_on_entry {A} w :
  skip_plot (A:=A) None w =
    (ReturnNone, mk_world (w_log w ++ empty_log) (w_stages w) (w_figure w)
                          (w_closed w) (w_fs w)).
Proof.
  cbv [skip_plot mbind M_bind mret M_ret log return_None empty_log]. cbn.
  by rewrite <- app_assoc.
Qed.

Ltac step :=
  first [ erewrite run_bind by apply run_enter
        | erewrite run_bind by apply run_log
        | erewrite run_bind by apply run_skip_plot
        | erewrite run_bind by apply run_skip_plot_on_entry
        | erewrite run_bind by apply run_mret
        | erewrite run_bind by apply run_raise
        | rewrite run_mret ];
  cbn beta iota.

Ltac run_M :=
  repeat step; cbn [w_log w_stages w_figure w_closed w_fs fst snd].

Lemma empty_false (d : DataFrame) : d ≠ [] → empty d = false.
Proof. by destruct d. Qed.

Lemma empty_nil (d : DataFrame) : empty d = true → d = [].
Proof. by destruct d. Qed.

Lemma empty_cons (d : DataFrame) : empty d = false → d ≠ [].
Proof. by destruct d. Qed.

(** ** The filter chain *)

Lemma prune_date_hours_spec name df hours :
  match prune_date_hours name df hours with
  | inl e => date_column name = inl e ∧ hours ≠ []
  | inr hs =>
      hs = match date_column name with
           | inr date => present_hours date df hours
           | inl _ => []
           end
      ∧ ((∃ e, date_column name = inl e) → hours = [])
  end.
Proof.
  unfold prune_date_hours. destruct hours as [|h hours].
  - split; [by destruct (date_column name)|done].
  - destruct (date_column name) as [e|date]; [done|].
    split; [done|]. by intros [? ?].
Qed.

Section chain_facts.

Context (plot_util : plot_util_t) (G : globals).
Implicit Types (a : plot_args) (w : world).

Ltac open_chain a :=
  unfold filter_chain, chain, filters, df_final, equalized, df_equalized,
    bool_success, df_models, df_thresh, df_width, df_lead, group_by in *;
  fold (df_level a) in *;
  destruct (filter_by_lead plot_util (df_level a) (flead a)) as [[d1 ?s] ?s];
  cbn [fst snd] in *;
  destruct (filter_by_width plot_util d1 (interp_pts a)) as [[d2 ?s] ?s];
  cbn [fst snd] in *;
  destruct (process_thresh plot_util d2 (thresh a)) as [[[d3 ?s] ?s] ?l];
  cbn [fst snd] in *;
  destruct (process_models plot_util d3 (model_list a)) as [d4 ?l];
  cbn [fst snd] in *;
  destruct (equalize_samples plot_util d4 ["MODEL"; Str.upper (date_type a)])
    as [d5 ok];
  cbn [fst snd] in *.

Lemma filter_chain_run a w :
  ∃ n, (n ≤ List.length (filters plot_util a))%nat ∧
    ((filter_chain plot_util a w = (ReturnNone, stopped plot_util a w n)
        ∧ (df_level a = [] ∨ df_lead plot_util a = []
           ∨ df_models plot_util a = [] ∨ df_final plot_util a = []))
     ∨ (∃ e, filter_chain plot_util a w = (Raise e, entered plot_util a w n)
             ∧ known_date_type a = false ∧ df_level a ≠ [])
     ∨ (∃ c, filter_chain plot_util a w = (Normal c, entered plot_util a w n)
             ∧ take n (filters plot_util a) = filters plot_util a
             ∧ c_df c = df_final plot_util a
             ∧ c_sample_equalization c = equalized plot_util a
             ∧ c_date_hours c
               = match date_column (Str.upper (date_type a)) with
                 | inr date =>
                     present_hours date (df_lead plot_util a) (date_hours a)
                 | inl _ => []
                 end
             ∧ (known_date_type a = false → date_hours a = [])
             ∧ df_level a ≠ [] ∧ df_lead plot_util a ≠ []
             ∧ df_models plot_util a ≠ [] ∧ df_final plot_util a ≠ [])).
Proof.
  pose proof (prune_date_hours_spec (Str.upper (date_type a))
                (df_lead plot_util a) (date_hours a)) as Hh.
  unfold entered, stopped, known_date_type. open_chain a.
  destruct (empty (df_level a)) eqn:E1.
  { exists 1%nat. split; [cbn; lia|]. left. run_M. rewrite <- ?app_assoc.
    auto using empty_nil. }
  destruct (prune_date_hours _ d1 _) as [e|hours]; cbn [lift_exn].
  { exists 2%nat. split; [cbn; lia|]. right; left. exists e. run_M.
    rewrite <- ?app_assoc. destruct Hh as [-> _]. auto using empty_cons. }
  destruct Hh as [Hh Hnone].
  assert (match date_column (Str.upper (date_type a)) with
          | inr _ => true
          | inl _ => false
          end = false → date_hours a = []) as Hknown.
  { destruct (date_column _) as [e|]; [|done]. intros _. apply Hnone. eauto. }
  destruct (empty d1) eqn:E2.
  { exists 2%nat. split; [cbn; lia|]. left. run_M. rewrite <- ?app_assoc.
    auto using empty_nil. }
  destruct (empty d4) eqn:E4.
  { exists 5%nat. split; [cbn; lia|]. left. run_M. rewrite <- ?app_assoc.
    auto 6 using empty_nil. }
  destruct (sample_equalization a).
  - destruct (empty d5) eqn:E5.
    { exists 6%nat. split; [cbn; lia|]. left. run_M. rewrite <- ?app_assoc.
      auto 6 using empty_nil. }
    exists 6%nat. split; [cbn; lia|]. right; right. eexists. run_M.
    rewrite <- ?app_assoc.
    split; [reflexivity|]. cbn. auto 12 using empty_cons.
  - exists 5%nat. split; [cbn; lia|]. right; right. eexists. run_M.
    rewrite <- ?app_assoc.
    split; [reflexivity|]. cbn. auto 12 using empty_cons.
Qed.

Lemma aggregate_run a c w date :
  date_column (Str.upper (date_type a)) = inr date →
  ∃ r, aggregate plot_util a c w =
         (Normal r,
          mk_world (w_log w)
            (w_stages w ++ [(at_stats (c_sample_equalization c), c_df c)])
            (w_figure w) (w_closed w) (w_fs w)).
Proof.
  intros Hd. unfold aggregate, df_groups. rewrite Hd. cbn [lift_exn].
  eexists. run_M. reflexivity.
Qed.

Lemma aggregate_unknown a c w e :
  date_column (Str.upper (date_type a)) = inl e →
  aggregate plot_util a c w = (Raise e, w).
Proof.
  intros Hd. unfold aggregate, df_groups. rewrite Hd. cbn [lift_exn].
  by erewrite run_bind by apply run_raise.
Qed.

Lemma reindex_run a c p w :
  reindex G a c p w = (Raise (reindex_error G), w).
Proof.
  unfold reindex, reindex_error, load_global, load_fast.
  destruct (reindex_pivot_tables G); by run_M.
Qed.

(** Every call ends in one of three ways, and touches neither the figure
    nor the file system. *)
Lemma plot_time_series_run a w :
  ∃ n closed,
    (plot_time_series plot_util G a w = (ReturnNone, after plot_util a w empty_log n closed)
     ∧ (n ≤ List.length (filters plot_util a))%nat
     ∧ (df a = [] ∨ df_level a = [] ∨ df_lead plot_util a = []
        ∨ df_models plot_util a = [] ∨ df_final plot_util a = []))
    ∨ (∃ e, plot_time_series plot_util G a w = (Raise e, after plot_util a w [] n closed)
            ∧ (n ≤ List.length (filters plot_util a))%nat
            ∧ known_date_type a = false ∧ df a ≠ [] ∧ df_level a ≠ [])
    ∨ (plot_time_series plot_util G a w
         = (Raise (reindex_error G), after plot_util a w [] n closed)
       ∧ take n (chain plot_util a) = chain plot_util a ∧ closed = []
       ∧ known_date_type a = true
       ∧ df a ≠ [] ∧ df_level a ≠ [] ∧ df_lead plot_util a ≠ []
       ∧ df_models plot_util a ≠ [] ∧ df_final plot_util a ≠ []).
Proof.
  unfold plot_time_series, after, opening.
  destruct (empty (df a)) eqn:E0.
  { exists 0%nat, []. left. run_M. rewrite take_0, !app_nil_r, <- !app_assoc.
    split; [done|]. split; [lia|]. auto using empty_nil. }
  run_M.
  destruct (filter_chain_run a
    (mk_world ((w_log w ++ [(INFO, banner)]) ++
               [(INFO, "Creating Plot " +:+ Str.of_Z (num a) +:+ " ...")])
              (w_stages w) (w_figure w) (w_closed w) (w_fs w)))
    as (n & Hn & [[Hrun H]|[(e & Hrun & H & H')
                              |(c & Hrun & Htake & Hdf & Hse & _ & _ & H)]]).
  - exists n, [num a]. left. erewrite run_bind by apply Hrun.
    unfold stopped, chain. cbn [w_log w_stages w_figure w_closed w_fs].
    rewrite take_app_le, <- !app_assoc by done. auto 8.
  - exists n, []. right; left. exists e. erewrite run_bind by apply Hrun.
    unfold entered, chain. cbn [w_log w_stages w_figure w_closed w_fs].
    rewrite take_app_le, <- !app_assoc, !app_nil_r by done.
    auto 10 using empty_cons.
  - erewrite run_bind by apply Hrun. cbn beta iota.
    destruct (date_column (Str.upper (date_type a))) as [e|date] eqn:Hd.
    { exists n, []. right; left. exists e.
      erewrite run_bind by (by apply aggregate_unknown).
      unfold entered, chain, known_date_type.
      cbn [w_log w_stages w_figure w_closed w_fs].
      rewrite Hd, take_app_le, <- !app_assoc, !app_nil_r by done.
      destruct H as (? & ? & ? & ?). auto 10 using empty_cons. }
    exists (S n), []. right; right.
    destruct (aggregate_run a c (entered plot_util a
      (mk_world ((w_log w ++ [(INFO, banner)]) ++
                 [(INFO, "Creating Plot " +:+ Str.of_Z (num a) +:+ " ...")])
                (w_stages w) (w_figure w) (w_closed w) (w_fs w)) n) date Hd)
      as [r Hagg].
    erewrite run_bind by apply Hagg. cbn beta iota.
    erewrite run_bind by apply reindex_run.
    unfold entered, chain, known_date_type.
    cbn [w_log w_stages w_figure w_closed w_fs].
    rewrite Hd, Htake, Hdf, Hse, <- !app_assoc, !app_nil_r.
    assert (take (S n) (filters plot_util a
              ++ [(at_stats (equalized plot_util a), df_final plot_util a)])
            = filters plot_util a
              ++ [(at_stats (equalized plot_util a), df_final plot_util a)])
      as ->.
    { apply take_ge. rewrite length_app. cbn [List.length].
      rewrite <- Htake at 1. rewrite length_take. lia. }
    destruct H as (? & ? & ? & ?). auto 12 using empty_cons.
Qed.

(** The steps a call enters are an initial part of the chain. *)
Lemma steps_prefix a w : ∃ n, steps_of plot_util G a w = take n (chain plot_util a).
Proof.
  unfold steps_of.
  destruct (plot_time_series_run a w)
    as (n & closed & [[-> _]|[(e & -> & _)|[-> _]]]);
    exists n; unfold after; cbn [snd w_stages]; by rewrite drop_app_length.
Qed.

Lemma chain_stages a :
  ∃ b, (chain plot_util a).*1 =
       [at_level; at_lead; at_width; at_thresh; at_models]
       ++ (if sample_equalization a then [at_equalize] else [])
       ++ [at_stats b].
Proof.
  exists (equalized plot_util a). unfold chain, filters.
  by destruct (sample_equalization a).
Qed.

Lemma chain_not_thresh_before_width a n :
  ¬ performed_before at_thresh at_width (take n (chain plot_util a)).*1.
Proof.
  intros (i & j & Hi & Hj & Hlt).
  rewrite fmap_take in Hi, Hj.
  apply lookup_take_Some in Hi as [Hi _].
  apply lookup_take_Some in Hj as [Hj _].
  destruct (chain_stages a) as [b Hb]. rewrite Hb in Hi, Hj.
  destruct (sample_equalization a);
    do 8 (try destruct i as [|i]); do 8 (try destruct j as [|j]);
    simplify_eq/=; lia.
Qed.

Lemma chain_width_before_thresh a n :
  at_thresh ∈ (take n (chain plot_util a)).*1 →
  performed_before at_width at_thresh (take n (chain plot_util a)).*1.
Proof.
  intros (i & Hi)%list_elem_of_lookup.
  assert (i = 3%nat) as ->.
  { rewrite fmap_take in Hi. apply lookup_take_Some in Hi as [Hi _].
    destruct (chain_stages a) as [b Hb]. rewrite Hb in Hi.
    destruct (sample_equalization a);
      do 8 (try destruct i as [|i]); simplify_eq/=; done. }
  exists 2%nat, 3%nat. split; [|split; [done|lia]].
  rewrite fmap_take in Hi |- *.
  apply lookup_take_Some in Hi as [Hi Hn].
  apply lookup_take_Some. split; [|lia].
  destruct (chain_stages a) as [b Hb]. by rewrite Hb.
Qed.

End chain_facts.

(** ** Boolean-mask selection and the hours that are present *)

Lemma elem_of_select {A} (P : A → bool) (l : list A) (x : A) :
  x ∈ select (map P l) l ↔ x ∈ l ∧ P x = true.
Proof.
  induction l as [|y l IH]; cbn.
  - rewrite elem_of_nil. tauto.
  - destruct (P y) eqn:Hy; rewrite ?elem_of_cons, IH.
    + split; [intros [->|[? ?]]; auto|]. intros [[->|?] ?]; auto.
    + split; [tauto|]. intros [[->|?] ?]; [congruence|tauto].
Qed.

Lemma elem_of_present_hours (date : row → datetime) (df : DataFrame)
    (date_hours : list Z) (x : Z) :
  x ∈ present_hours date df date_hours
  ↔ x ∈ date_hours ∧ ∃ r, r ∈ df ∧ dt_hour (date r) = x.
Proof.
  unfold present_hours.
  rewrite (elem_of_select
    (λ x, bool_decide (Str.of_Z x ∈ map (λ r, Str.of_Z (dt_hour (date r))) df))).
  rewrite bool_decide_eq_true, list_elem_of_fmap.
  split; intros [Hx (r & Hr & Hin)]; (split; [done|]); exists r.
  - split; [done|]. by apply (inj (pretty (A:=Z))).
  - by rewrite Hin.
Qed.

(** ** Claims about the filter chain *)

Section chain_claims.

Context (plot_util : plot_util_t) (G : globals).
Implicit Types (a : plot_args) (w : world).

Lemma survives_nonempty a :
  survives plot_util a = true →
  df a ≠ [] ∧ df_level a ≠ [] ∧ df_lead plot_util a ≠ []
  ∧ df_models plot_util a ≠ [] ∧ df_final plot_util a ≠ [].
Proof.
  unfold survives. rewrite !andb_true_iff, !negb_true_iff.
  intros [[[[[[? ?] ?] ?] ?] ?] ?]. auto 10 using empty_cons.
Qed.


(** C1 (as the code behaves): a dataframe that survives the whole chain
    never reaches the plot.  The call of reindex_pivot_tables raises, and
    neither the figure nor the file system has been touched. *)
Theorem surviving_dataframe_raises a w :
  known_date_type a = true → survives plot_util a = true →
  ∃ w', plot_time_series plot_util G a w = (Raise (reindex_error G), w')
        ∧ w_fs w' = w_fs w ∧ w_figure w' = w_figure w.
Proof.
  intros Hd (? & ? & ? & ? & ?)%survives_nonempty.
  destruct (plot_time_series_run plot_util G a w)
    as (n & closed & [(_ & _ & He)|[(e & _ & _ & Hd' & _)|(Hrun & _)]]).
  - destruct He as [He|[He|[He|[He|He]]]]; done.
  - congruence.
  - by eexists.
Qed.

(** C10 (as the code behaves): after an equalization that reports failure
    on a dataframe that stays non-empty, the routine goes on to the
    aggregation with sample_equalization False, and then raises at the
    call of reindex_pivot_tables; nothing is annotated. *)
Theorem failed_equalization_then_raises a w :
  known_date_type a = true → survives plot_util a = true →
  sample_equalization a = true → bool_success plot_util a = false →
  ∃ w', plot_time_series plot_util G a w = (Raise (reindex_error G), w')
        ∧ (at_stats false, df_equalized plot_util a) ∈ steps_of plot_util G a w
        ∧ w_figure w' = w_figure w.
Proof.
  intros Hd (? & ? & ? & ? & ?)%survives_nonempty Hse Hok.
  unfold steps_of.
  destruct (plot_time_series_run plot_util G a w)
    as (n & closed & [(_ & _ & He)|[(e & _ & _ & Hd' & _)|(Hrun & Htake & _)]]).
  - destruct He as [He|[He|[He|[He|He]]]]; done.
  - congruence.
  - rewrite Hrun. eexists. split; [done|]. split; [|done].
    unfold after. cbn [snd w_stages]. rewrite drop_app_length, Htake.
    unfold chain, equalized, df_final. rewrite Hse, Hok. set_solver.
Qed.

(** C2 (amended): the steps run in the order level, lead, interpolation
    width, threshold, model availability, then sample equalization and
    aggregation, each on the dataframe the previous one left; threshold
    processing is never performed before the width filter, and whenever
    it is performed the width filter has been performed before it. *)
Theorem filter_chain_order a w :
  (∃ n, steps_of plot_util G a w = take n (chain plot_util a))
  ∧ ¬ performed_before at_thresh at_width (steps_of plot_util G a w).*1
  ∧ (at_thresh ∈ (steps_of plot_util G a w).*1 →
     performed_before at_width at_thresh (steps_of plot_util G a w).*1).
Proof.
  destruct (steps_prefix plot_util G a w) as [n Hn]. split; [by exists n|].
  rewrite Hn. split.
  - apply chain_not_thresh_before_width.
  - apply chain_width_before_thresh.
Qed.

(** C3 (amended): the hours step removes no row.  It keeps of date_hours
    the hours that occur as valid/init hour in the dataframe left by the
    lead filter, and that dataframe goes whole to the width filter. *)
Theorem hours_prune_date_hours_only a w c w' :
  filter_chain plot_util a w = (Normal c, w') →
  (∀ x, x ∈ c_date_hours c
        ↔ x ∈ date_hours a
          ∧ ∃ date r, date_column (Str.upper (date_type a)) = inr date
                      ∧ r ∈ df_lead plot_util a ∧ dt_hour (date r) = x)
  ∧ (at_width, df_lead plot_util a) ∈ w_stages w'.
Proof.
  intros Hrun.
  destruct (filter_chain_run plot_util a w)
    as (n & Hn & [[Hrun' _]|[(e & Hrun' & _)
                            |(c' & Hrun' & Htake & _ & _ & Hh & Hknown & _)]]);
    rewrite Hrun in Hrun'; simplify_eq.
  split.
  - intros x. rewrite Hh. unfold known_date_type in Hknown.
    destruct (date_column (Str.upper (date_type a))) as [e|date].
    + rewrite Hknown by done. rewrite !elem_of_nil.
      split; [done|]. by intros [[] _].
    + rewrite elem_of_present_hours.
      split; intros [Hx (r & Hr)]; (split; [done|]).
      * by exists date, r.
      * destruct Hr as (r' & Hd & Hr' & Hx'). simplify_eq. by exists r'.
  - unfold entered. cbn [w_stages]. rewrite Htake. unfold filters. set_solver.
Qed.

End chain_claims.

(** ** The filter chain on the concrete setting *)


Lemma surviving_dataframe_raises_witness :
  known_date_type sample_call = true
  ∧ survives (passthrough true) sample_call = true
  ∧ ∃ w', plot_time_series (passthrough true) bare_module sample_call fresh_world
          = (Raise (NameError "reindex_pivot_tables"), w')
          ∧ w_fs w' = w_fs fresh_world ∧ w_figure w' = w_figure fresh_world.
Proof.
  split; [reflexivity|]. split; [reflexivity|].
  apply (surviving_dataframe_raises (passthrough true) bare_module
           sample_call fresh_world); reflexivity.
Defined.

Lemma failed_equalization_then_raises_witness :
  known_date_type sample_call = true
  ∧ survives (passthrough false) sample_call = true
  ∧ sample_equalization sample_call = true
  ∧ bool_success (passthrough false) sample_call = false
  ∧ ∃ w', plot_time_series (passthrough false) bare_module sample_call fresh_world
          = (Raise (NameError "reindex_pivot_tables"), w')
          ∧ (at_stats false, df_equalized (passthrough false) sample_call)
            ∈ steps_of (passthrough false) bare_module sample_call fresh_world
          ∧ w_figure w' = w_figure fresh_world.
Proof.
  do 4 (split; [reflexivity|]).
  apply (failed_equalization_then_raises (passthrough false) bare_module
           sample_call fresh_world); reflexivity.
Defined.

(** C2 (as stated) fails: on the sample call the width filter is entered
    third and the threshold step fourth, so threshold processing is not
    performed before interpolation-width filtering. *)
Lemma threshold_not_before_width :
  (steps_of (passthrough true) bare_module sample_call fresh_world).*1
  = [at_level; at_lead; at_width; at_thresh; at_models; at_equalize;
     at_stats true]
  ∧ ¬ performed_before at_thresh at_width
        (steps_of (passthrough true) bare_module sample_call fresh_world).*1.
Proof.
  assert ((steps_of (passthrough true) bare_module sample_call fresh_world).*1
          = [at_level; at_lead; at_width; at_thresh; at_models; at_equalize;
             at_stats true]) as Hsteps by (vm_compute; reflexivity).
  split; [exact Hsteps|]. rewrite Hsteps. clear Hsteps.
  intros (i & j & Hi & Hj & Hlt).
  do 8 (try destruct i as [|i]); do 8 (try destruct j as [|j]);
    simplify_eq/=; lia.
Qed.

(** C3 (as stated) fails: on the sample call the rows verified at 03Z reach
    the aggregation although 3 is not listed in date_hours. *)
Lemma unlisted_hour_reaches_aggregation :
  (at_stats true, sample_df)
  ∈ steps_of (passthrough true) bare_module sample_call fresh_world
  ∧ observation "GFS" (at_hour 3) ∈ sample_df
  ∧ dt_hour (VALID (observation "GFS" (at_hour 3))) ∉ date_hours sample_call.
Proof.
  split; [|split].
  - assert (steps_of (passthrough true) bare_module sample_call fresh_world
            = chain (passthrough true) sample_call) as ->
      by (vm_compute; reflexivity).
    unfold chain. set_solver.
  - unfold sample_df. set_solver.
  - cbn. rewrite !elem_of_cons, elem_of_nil. intros [?|[?|[?|[?|[]]]]]; done.
Qed.

Lemma hours_prune_date_hours_only_witness :
  filter_chain (passthrough true) sample_call fresh_world
  = (Normal sample_locals, sample_world)
  ∧ (∀ x, x ∈ c_date_hours sample_locals
          ↔ x ∈ date_hours sample_call
            ∧ ∃ date r,
                date_column (Str.upper (date_type sample_call)) = inr date
                ∧ r ∈ df_lead (passthrough true) sample_call
                ∧ dt_hour (date r) = x)
  ∧ (at_width, df_lead (passthrough true) sample_call) ∈ w_stages sample_world.
Proof.
  split; [reflexivity|].
  apply (hours_prune_date_hours_only (passthrough true) sample_call fresh_world
           sample_locals sample_world).
  reflexivity.
Defined.

(** ** Grouping *)



Section aggregation_claims.

Context (plot_util : plot_util_t).


End aggregation_claims.



(** ** Reference-line detection *)

(** C5 (as the code behaves): on an OBAR table whose values differ between
    the models on the second day, detection keeps the reference without a
    warning, because one cell of the first day equals the mean of its row;
    the plot is the single line of across-model means, and no model has a
    line of its own. *)
Theorem reference_kept_although_obar_varies :
  pv_row obar_varying 1 = [Some 1%Q; Some 3%Q]
  ∧ detect_reference "OBAR" false (Some obar_varying) None None fresh_world
    = (Normal (Some (mk_ref [Some 5%Q; Some 2%Q] None)), fresh_world)
  ∧ w_figure (plot_data bare_module obar_call false ["GFS"; "NAM"] two_settings
                (only_metric1 obar_varying) fresh_world).2
    = [Line OfReference "solid" [day 1; day 2] [Some 5%Q; Some 2%Q]].
Proof. split; [|split]; vm_compute; reflexivity. Qed.

(** The other way round: models that agree everywhere on the value zero
    lose the reference, since a zero mean divides no cell to one. *)
Lemma reference_dropped_although_obar_agrees :
  pv_row obar_zero 0 = [Some 0%Q; Some 0%Q]
  ∧ pv_row obar_zero 1 = [Some 0%Q; Some 0%Q]
  ∧ (detect_reference "OBAR" false (Some obar_zero) None None fresh_world).1
    = Normal None
  ∧ w_figure (plot_data bare_module obar_call false ["GFS"; "NAM"] two_settings
                (only_metric1 obar_zero) fresh_world).2
    = [Line (OfModel "GFS") "solid" [day 1; day 2] [Some 0%Q; Some 0%Q];
       Line (OfModel "NAM") "solid" [day 1; day 2] [Some 0%Q; Some 0%Q]].
Proof. repeat split; vm_compute; reflexivity. Qed.


(** ** File naming and persistence *)

Section paths.

Local Arguments String.append !_ _ / : simpl nomatch.












End paths.










Lemma run_plt_close n w :
  plt_close n w = (Normal tt, mk_world (w_log w) (w_stages w) (w_figure w)
                                (w_closed w ++ [n]) (w_fs w)).
Proof. done. Qed.





(** ** The figure *)

Section grows.

Context (P : artist → Prop).

Lemma grows_mret {A} (Q : A → Prop) (x : A) : Q x → grows P Q (mret x).
Proof.
  intros Hx w. split; [exists []; by rewrite app_nil_r|].
  intros y [= <-]. done.
Qed.

Lemma grows_raise {A} (Q : A → Prop) e : grows P Q (raise e).
Proof. intros w. split; [exists []; by rewrite app_nil_r|]. done. Qed.


Lemma grows_draw (Q : unit → Prop) x : P x → Q tt → grows P Q (draw x).
Proof.
  intros Hx HQ w. split; [exists [x]; split; [done|by constructor]|].
  by intros [] _.
Qed.

Lemma grows_bind {A B} (Q : A → Prop) (R : B → Prop) (m : M A) (k : A → M B) :
  grows P Q m → (∀ x, Q x → grows P R (k x)) → grows P R (m ≫= k).
Proof.
  intros Hm Hk w. destruct (Hm w) as [(n1 & Hfig & Hn1) HQ].
  unfold mbind, M_bind. destruct (m w) as [[x| |e] w1] eqn:E; cbn [fst snd] in *.
  - destruct (Hk x (HQ x eq_refl) w1) as [(n2 & Hfig2 & Hn2) HR].
    split; [|done]. exists (n1 ++ n2). rewrite Hfig2, Hfig, app_assoc.
    split; [done|]. by apply Forall_app.
  - split; [by exists n1|done].
  - split; [by exists n1|done].
Qed.

Lemma grows_weaken {A} (Q Q' : A → Prop) (m : M A) :
  (∀ x, Q x → Q' x) → grows P Q m → grows P Q' m.
Proof. intros HQ Hm w. destruct (Hm w) as [? ?]. split; [done|]. auto. Qed.

Lemma grows_item {A} (l : list A) i : grows P (λ x, l !! i = Some x) (item l i).
Proof.
  unfold item. destruct (l !! i); [by apply grows_mret|apply grows_raise].
Qed.


Lemma grows_contains p name :
  grows P (λ b, ∃ t, p = Some t ∧ b = pv_has t name) (contains p name).
Proof. destruct p; [apply grows_mret; eauto|apply grows_raise]. Qed.

Lemma grows_subscript p name :
  grows P (λ y, ∃ t, p = Some t ∧ pv_column t name = Some y) (subscript p name).
Proof.
  unfold subscript. destruct p as [t|]; [|apply grows_raise].
  destruct (pv_column t name) eqn:E; [apply grows_mret; eauto|apply grows_raise].
Qed.

Lemma grows_for_each {A S} (l : list A) (body : A → S → M S) st :
  (∀ x st, grows P (λ _, True) (body x st)) →
  grows P (λ _, True) (for_each l body st).
Proof.
  intros Hbody. revert st. induction l as [|x l IH]; intros st; cbn.
  - by apply grows_mret.
  - eapply grows_bind; [apply Hbody|]. intros st' _. apply IH.
Qed.

End grows.


Lemma grows_then {A B} P (R : B → Prop) (m : M A) (k : A → M B) :
  grows P (λ _, True) m → (∀ x, grows P R (k x)) → grows P R (m ≫= k).
Proof. intros Hm Hk. eapply grows_bind; [exact Hm|]. intros x _. apply Hk. Qed.

Lemma grows_draw_any P x : P x → grows P (λ _, True) (draw x).
Proof. intros Hx. by apply grows_draw. Qed.

Section loop.

Context (G : globals).

Lemma grows_plot_line P model ls x reference y plotted :
  (∀ r, reference = Some r → P (Line OfReference ls x (ref_values r))) →
  (reference = None → P (Line (OfModel model) ls x y)) →
  grows P (λ _, True) (plot_line model ls x reference y plotted).
Proof.
  intros Hr Hm. unfold plot_line. destruct reference as [r|].
  - destruct plotted; [by apply grows_mret|].
    apply grows_then; [apply grows_draw_any; by apply Hr|].
    intros _. by apply grows_mret.
  - apply grows_then; [apply grows_draw_any; by apply Hm|].
    intros _. by apply grows_mret.
Qed.

Lemma grows_plot_errorbar P model x reference y ci plotted :
  (∀ who y lo hi, P (Errorbar who x y lo hi)) →
  grows P (λ _, True) (plot_errorbar model x reference y ci plotted).
Proof.
  intros HP. unfold plot_errorbar. destruct reference as [r|].
  - destruct plotted; [by apply grows_mret|].
    apply grows_then; [apply grows_draw_any; apply HP|].
    intros _. by apply grows_mret.
  - apply grows_then; [apply grows_draw_any; apply HP|].
    intros _. by apply grows_mret.
Qed.

(** Reading the bounds and tracking the y range draw nothing. *)
Ltac quiet :=
  repeat first
    [ apply grows_mret; exact I
    | apply grows_raise
    | apply grows_then;
      [eapply grows_weaken; [|apply grows_subscript]; done|]; intros ?
    | match goal with
      | |- grows _ _ (match ?x with _ => _ end) => destruct x
      | |- grows _ _ (if ?x then _ else _) => destruct x
      end ].



End loop.




Lemma pv_has_spec (p : pivot_table) name :
  pv_has p name = true ↔ is_Some (pv_column p name).
Proof.
  unfold pv_has, pv_column. rewrite bool_decide_eq_true.
  induction (pv_columns p) as [|[n c] l IH]; cbn [fmap list_fmap assoc fst].
  - rewrite elem_of_nil. split; [done|by intros []].
  - rewrite elem_of_cons. destruct (String.eqb_spec n name) as [->|Hne].
    + split; [by eexists|by left].
    + rewrite <- IH. split; [intros [?|?]; [congruence|done]|by right].
Qed.


Section pivot_facts.

Context (value : string) (agg : AggFrame).



End pivot_facts.

Section pivot_claims.

Context (G : globals).


End pivot_claims.





Section data.

Context (G : globals).


End data.



(** A computation that may draw nothing leaves the figure as it is. *)
Lemma quiet_Normal {A} (Q : A → Prop) (m : M A) w x w1 :
  grows (λ _, False) Q m → m w = (Normal x, w1) →
  w_figure w1 = w_figure w ∧ Q x.
Proof.
  intros Hm E. destruct (Hm w) as [(new & Hfig & Hnew) HQ].
  rewrite E in Hfig, HQ. cbn [fst snd] in *.
  destruct new as [|? ?]; [|by inversion Hnew].
  rewrite app_nil_r in Hfig. split; [done|]. by apply HQ.
Qed.




Lemma paired_line_errorbar model ls x x' reference y ci plotted rest :
  paired rest →
  paired (line_artists model ls x reference y plotted
          ++ rest ++ errorbar_artists model x' reference y ci plotted).
Proof.
  unfold paired, line_artists, errorbar_artists.
  rewrite !existsb_app, !orb_true_iff.
  destruct reference; [destruct plotted|]; cbn; tauto.
Qed.




Section turn.

Context (G : globals).


Ltac inv_quiet H1 Hfig HQ :=
  eapply quiet_Normal in H1 as [Hfig HQ]; [|shelve].

Lemma grows_quiet_block_y2 P a t model :
  grows P (λ _, True)
    (match metric2_name a with
     | Some _ => subscript (rt_metric2 t) model
     | None => mret []
     end).
Proof.
  destruct (metric2_name a); [|by apply grows_mret].
  eapply grows_weaken; [|apply grows_subscript]. done.
Qed.

Lemma grows_quiet_pair P (b : bool) (m : M (list cell * list cell)) :
  grows P (λ _, True) m →
  grows P (λ _, True) (if b then m else mret ([], [])).
Proof. destruct b; [done|]. intros _. by apply grows_mret. Qed.

Lemma grows_read_bounds P p q model :
  grows P (λ _, True)
    (lo ← subscript p model; hi ← subscript q model; mret (lo, hi)).
Proof.
  apply grows_then; [eapply grows_weaken; [|apply grows_subscript]; done|].
  intros lo.
  apply grows_then; [eapply grows_weaken; [|apply grows_subscript]; done|].
  intros hi. by apply grows_mret.
Qed.


End turn.

Section data_pairs.

Context (G : globals).



End data_pairs.

(** ** Claims about the figure *)

Section figure_claims.

Context (G : globals).


End figure_claims.

(** On the tables [ci_tables] only the second day is common: the line and
    its error bars have that one date. *)
Lemma error_bars_at_the_common_date :
  w_figure (plot_data bare_module ci_call false ["GFS"] two_settings ci_tables
              fresh_world).2
  = [Line (OfModel "GFS") "solid" [day 2] [Some 2%Q];
     Errorbar (OfModel "GFS") [day 2] [Some 2%Q] [Some 1%Q] [Some 1%Q]].
Proof. vm_compute. reflexivity. Qed.

(** Without confidence intervals the same tables give the whole line and
    no error bars. *)
Lemma no_error_bars_without_confidence_intervals :
  w_figure (plot_data bare_module period_call false ["GFS"] two_settings
              ci_tables fresh_world).2
  = [Line (OfModel "GFS") "solid" [day 1; day 2; day 3]
          [Some 1%Q; Some 2%Q; Some 3%Q]].
Proof. vm_compute. reflexivity. Qed.



(** The pivot table of the sample and the two lines the loop plots from it *)
Lemma pivot_of_the_sample :
  pivot "BCRMSE" sample_agg
  = mk_pivot [day 1; day 2]
             [("GFS", [Some 1%Q; Some 3%Q]); ("NAM", [Some 2%Q; Some 4%Q])]
  ∧ w_figure (plot_models bare_module period_call ["GFS"; "NAM"] two_settings
                (only_metric1 (pivot "BCRMSE" sample_agg))
                (pv_index (pivot "BCRMSE" sample_agg)) None None None
                fresh_world).2
    = [Line (OfModel "GFS") "solid" [day 1; day 2] [Some 1%Q; Some 3%Q];
       Line (OfModel "NAM") "solid" [day 1; day 2] [Some 2%Q; Some 4%Q]].
Proof. split; vm_compute; reflexivity. Qed.

(** * Further properties of the plotting routine *)

(** ** What a run leaves alone *)

Lemma fs_changes_bind {A B} (R : relation filesystem) `{!Transitive R}
    (m : M A) (k : A → M B) :
  fs_changes R m → (∀ x, fs_changes R (k x)) → fs_changes R (m ≫= k).
Proof.
  intros Hm Hk w. specialize (Hm w). unfold mbind, M_bind.
  destruct (m w) as [[x| |e] w1]; cbn [fst snd] in *; [|done|done].
  etrans; [exact Hm|apply Hk].
Qed.

Lemma keeps_changes {A} (R : relation filesystem) `{!Reflexive R} (m : M A) :
  keeps_fs m → fs_changes R m.
Proof. intros Hm w. by rewrite <- (Hm w). Qed.

Lemma keeps_bind {A B} (m : M A) (k : A → M B) :
  keeps_fs m → (∀ x, keeps_fs (k x)) → keeps_fs (m ≫= k).
Proof. apply fs_changes_bind. apply _. Qed.

Lemma keeps_mret {A} (x : A) : keeps_fs (mret x : M A).
Proof. by intros w. Qed.

Lemma keeps_raise {A} e : keeps_fs (raise (A:=A) e).
Proof. by intros w. Qed.

Lemma keeps_return_None {A} : keeps_fs (return_None (A:=A)).
Proof. by intros w. Qed.

Lemma keeps_log l msg : keeps_fs (log l msg).
Proof. by intros w. Qed.

Lemma keeps_draw x : keeps_fs (draw x).
Proof. by intros w. Qed.

Lemma keeps_plt_close n : keeps_fs (plt_close n).
Proof. by intros w. Qed.

Lemma keeps_attr name p : keeps_fs (attr name p).
Proof. by destruct p; intros w. Qed.

Lemma keeps_item {A} (l : list A) i : keeps_fs (item l i).
Proof. unfold item. by destruct (l !! i); intros w. Qed.

Lemma keeps_contains p name : keeps_fs (contains p name).
Proof. by destruct p; intros w. Qed.

Lemma keeps_subscript p name : keeps_fs (subscript p name).
Proof.
  unfold subscript. destruct p as [t|]; [|by intros w].
  by destruct (pv_column t name); intros w.
Qed.

Lemma keeps_load_fast {A} name (v : option A) : keeps_fs (load_fast name v).
Proof. by destruct v; intros w. Qed.

Lemma keeps_load_global {A} name (v : option A) : keeps_fs (load_global name v).
Proof. by destruct v; intros w. Qed.

Lemma keeps_exists p : keeps_fs (Fs.exists_ p).
Proof. by intros w. Qed.

Lemma keeps_for_each {A S} (l : list A) (body : A → S → M S) st :
  (∀ x st, keeps_fs (body x st)) → keeps_fs (for_each l body st).
Proof.
  intros Hbody. revert st. induction l as [|x l IH]; intros st; cbn [for_each].
  - apply keeps_mret.
  - apply keeps_bind; [apply Hbody|]. intros st'. apply IH.
Qed.

Ltac keeps :=
  repeat first
    [ apply keeps_mret | apply keeps_raise | apply keeps_return_None
    | apply keeps_log | apply keeps_draw | apply keeps_plt_close
    | apply keeps_attr | apply keeps_item | apply keeps_contains
    | apply keeps_subscript | apply keeps_load_fast | apply keeps_load_global
    | apply keeps_exists
    | apply keeps_for_each; intros ? ?
    | apply keeps_bind; [|intros ?]
    | match goal with
      | |- keeps_fs (match ?x with _ => _ end) => destruct x
      | |- keeps_fs (if ?x then _ else _) => destruct x
      end ].

Lemma keeps_plot_data G a se model_list settings t :
  keeps_fs (plot_data G a se model_list settings t).
Proof.
  unfold plot_data, restrict_to_common, detect_reference, plot_models,
    plot_model, plot_line, plot_errorbar.
  keeps.
Qed.

Lemma keeps_annotate_samples se pc x : keeps_fs (annotate_samples se pc x).
Proof. unfold annotate_samples. keeps. Qed.

Lemma keeps_plot_logo wanted side path : keeps_fs (plot_logo wanted side path).
Proof. unfold plot_logo. keeps. Qed.

Lemma never_bind_l {A B} (m : M A) (k : A → M B) :
  never_completes m → never_completes (m ≫= k).
Proof.
  intros Hm w y. specialize (Hm w). unfold mbind, M_bind.
  destruct (m w) as [[x| |e] w1]; cbn [fst] in *; [|done|done].
  by destruct (Hm x).
Qed.

Lemma never_bind_r {A B} (m : M A) (k : A → M B) :
  (∀ x, never_completes (k x)) → never_completes (m ≫= k).
Proof.
  intros Hk w y. unfold mbind, M_bind.
  destruct (m w) as [[x| |e] w1]; cbn [fst]; [apply Hk|done|done].
Qed.

Lemma never_raise {A} e : never_completes (raise (A:=A) e).
Proof. by intros w x. Qed.

Lemma keeps_bind_raise {A B} e (k : A → M B) : keeps_fs (raise e ≫= k).
Proof. by intros w. Qed.

(** ** Nothing to plot (lines 189-212) *)

Section body.

Context (plot_util : plot_util_t) (G : globals).

Lemma nothing_to_plot_run a t w p1 :
  rt_metric1 t = Some p1 →
  pv_empty p1 = true
  ∨ (truthy (metric2_name a) = true
     ∧ ∃ p2, rt_metric2 t = Some p2 ∧ pv_empty p2 = true) →
  nothing_to_plot a t w = (Normal true, w).
Proof.
  intros H1 H. unfold nothing_to_plot. rewrite H1. cbn [attr]. step.
  destruct (pv_empty p1) eqn:E1.
  - by rewrite andb_false_r.
  - destruct H as [?|(Hm & p2 & H2 & E2)]; [done|].
    rewrite Hm, H2. cbn [andb negb attr]. step. by rewrite E2.
Qed.

(** X1: when the table of the first metric is empty, or a second metric is
    asked for and its table is empty, the body warns that it could not find
    the statistics, closes figure num, logs the banner and returns None;
    nothing is drawn and nothing is written. *)
Theorem empty_pivot_returns_None a c stats t incr w p1 r rest :
  rt_metric1 t = Some p1 → c_df c = r :: rest →
  pv_empty p1 = true
  ∨ (truthy (metric2_name a) = true
     ∧ ∃ p2, rt_metric2 t = Some p2 ∧ pv_empty p2 = true) →
  render plot_util G a c stats t incr w
  = (ReturnNone,
     mk_world (w_log w ++ [(WARNING, no_stats_warning a (FCST_VAR r));
                           (INFO, banner)])
              (w_stages w) (w_figure w) (w_closed w ++ [num a]) (w_fs w)).
Proof.
  intros H1 Hdf Hempty. unfold render. cbv zeta.
  erewrite run_bind by (by eapply nothing_to_plot_run). cbn beta iota.
  erewrite run_bind.
  2:{ rewrite Hdf. cbn [map item lookup list_lookup]. step. step.
      erewrite run_bind by apply run_plt_close. cbn beta iota. step.
      unfold return_None. cbn [w_log w_stages w_figure w_closed w_fs].
      rewrite <- app_assoc. reflexivity. }
  reflexivity.
Qed.

(** X2: the body reads the name xvals1 (line 519) where its local is
    x_vals1.  In a module that does not define xvals1 the body never comes
    to its end, whatever the tables hold, and nothing is written to the
    file system. *)
Theorem undefined_xvals1_stops_the_plot a c stats t incr :
  xvals1 G = None →
  never_completes (render plot_util G a c stats t incr)
  ∧ keeps_fs (render plot_util G a c stats t incr).
Proof.
  intros Hx. unfold render. cbv zeta. rewrite Hx. cbn [load_global].
  split.
  - apply never_bind_r. intros stop.
    apply never_bind_r. intros _.
    apply never_bind_r. intros _.
    apply never_bind_r. intros [[t' x] st].
    apply never_bind_r. intros _.
    apply never_bind_l. apply never_raise.
  - apply keeps_bind; [unfold nothing_to_plot; keeps|]. intros stop.
    apply keeps_bind; [keeps|]. intros _.
    apply keeps_bind; [keeps|]. intros _.
    apply keeps_bind; [apply keeps_plot_data|]. intros [[t' x] st].
    apply keeps_bind; [keeps|]. intros _.
    apply keeps_bind_raise.
Qed.

(** X3: thresh_labels is assigned only when thresholds are listed (lines
    252-261) and read in any case (line 526).  For a call without
    thresholds - an empty list, or one that holds the empty string - the
    body never comes to its end, also in a module that defines xvals1, and
    nothing is written to the file system. *)
Theorem unlisted_thresholds_stop_the_plot a c stats t incr :
  listed (thresh a) = false →
  never_completes (render plot_util G a c stats t incr)
  ∧ keeps_fs (render plot_util G a c stats t incr).
Proof.
  intros Hl. unfold render. cbv zeta. rewrite Hl. cbn [load_fast].
  split.
  - apply never_bind_r. intros stop.
    apply never_bind_r. intros _.
    apply never_bind_r. intros _.
    apply never_bind_r. intros [[t' x] st].
    apply never_bind_r. intros _.
    apply never_bind_r. intros xv.
    destruct (configure_dates_axis plot_util xv incr) as [xticks labels].
    apply never_bind_r. intros key.
    apply never_bind_l. apply never_raise.
  - apply keeps_bind; [unfold nothing_to_plot; keeps|]. intros stop.
    apply keeps_bind; [keeps|]. intros _.
    apply keeps_bind; [keeps|]. intros _.
    apply keeps_bind; [apply keeps_plot_data|]. intros [[t' x] st].
    apply keeps_bind; [keeps|]. intros _.
    apply keeps_bind; [keeps|]. intros xv.
    destruct (configure_dates_axis plot_util xv incr) as [xticks labels].
    apply keeps_bind; [keeps|]. intros key.
    apply keeps_bind_raise.
Qed.

End body.

Lemma empty_pivot_returns_None_witness :
  rt_metric1 (only_metric1 (mk_pivot [] [])) = Some (mk_pivot [] [])
  ∧ c_df obar_locals = observation "GFS" (at_hour 0)
                       :: List.tl sample_df
  ∧ render (passthrough true) bare_module obar_call obar_locals no_stats
      (only_metric1 (mk_pivot [] [])) 1 fresh_world
    = (ReturnNone,
       mk_world (w_log fresh_world
                 ++ [(WARNING, no_stats_warning obar_call
                                 (FCST_VAR (observation "GFS" (at_hour 0))));
                     (INFO, banner)])
                (w_stages fresh_world) (w_figure fresh_world)
                (w_closed fresh_world ++ [num obar_call]) (w_fs fresh_world)).
Proof.
  split; [reflexivity|]. split; [reflexivity|].
  apply (empty_pivot_returns_None (passthrough true) bare_module obar_call
           obar_locals no_stats (only_metric1 (mk_pivot [] [])) 1 fresh_world
           (mk_pivot [] []) (observation "GFS" (at_hour 0)) (List.tl sample_df)).
  - reflexivity.
  - reflexivity.
  - left. reflexivity.
Defined.

Lemma undefined_xvals1_stops_the_plot_witness :
  xvals1 bare_module = None
  ∧ never_completes (render (passthrough true) bare_module sample_call
                       sample_locals no_stats (only_metric1 obar_varying) 1)
  ∧ keeps_fs (render (passthrough true) bare_module sample_call
                sample_locals no_stats (only_metric1 obar_varying) 1).
Proof.
  split; [reflexivity|].
  apply (undefined_xvals1_stops_the_plot (passthrough true) bare_module
           sample_call sample_locals no_stats (only_metric1 obar_varying) 1).
  reflexivity.
Defined.

Lemma unlisted_thresholds_stop_the_plot_witness :
  listed (thresh obar_call) = false
  ∧ never_completes (render (passthrough true) (patched_module [day 1; day 2])
                       obar_call obar_locals no_stats
                       (only_metric1 obar_varying) 1)
  ∧ keeps_fs (render (passthrough true) (patched_module [day 1; day 2])
                obar_call obar_locals no_stats (only_metric1 obar_varying) 1).
Proof.
  split; [reflexivity|].
  apply (unlisted_thresholds_stop_the_plot (passthrough true)
           (patched_module [day 1; day 2]) obar_call obar_locals no_stats
           (only_metric1 obar_varying) 1).
  reflexivity.
Defined.

(** With xvals1 bound and a listed threshold the body does come to its
    end: it saves the figure and closes it. *)
Lemma body_completes_when_the_names_are_bound :
  (render (passthrough true) (patched_module [day 1; day 2]) thresh_call
     thresh_locals no_stats (only_metric1 obar_varying) 1 fresh_world).1
  = Normal tt
  ∧ dom (files (w_fs (render (passthrough true) (patched_module [day 1; day 2])
                        thresh_call thresh_locals no_stats
                        (only_metric1 obar_varying) 1 fresh_world).2))
    = {["out/sfc_upper/20221201-20221202/bcrmse_lt20.hgt_500.20221201-20221202.timeseries_valid00z_f024.conus.png"]}.
Proof. split; vm_compute; reflexivity. Qed.

(** ** Saving (lines 716-738) *)

Lemma saved_only_refl a name : Reflexive (saved_only a name).
Proof. intros fs. unfold saved_only. set_solver. Qed.

Lemma saved_only_trans a name : Transitive (saved_only a name).
Proof. intros fs1 fs2 fs3. unfold saved_only. set_solver. Qed.

Lemma changes_makedirs a name :
  fs_changes (saved_only a name) (Fs.makedirs (save_subdir a)).
Proof.
  intros w. unfold Fs.makedirs, saved_only.
  cbv [mbind M_bind get_fs put_fs raise].
  destruct (String.eqb _ _); [set_solver|].
  case_bool_decide; cbn [fst snd w_fs dirs files]; set_solver.
Qed.

Lemma changes_savefig a name :
  fs_changes (saved_only a name) (Fs.savefig (save_path a name)).
Proof.
  intros w. unfold Fs.savefig, saved_only.
  cbv [mbind M_bind get_fs get_figure put_fs raise].
  destruct (Fs.parent_exists _ _); cbn [fst snd w_fs dirs files];
    [|set_solver].
  rewrite dom_insert. set_solver.
Qed.

Lemma changes_copy2 a name :
  fs_changes (saved_only a name)
    (Fs.copy2 (save_path a name) (restart_path a name)).
Proof.
  intros w. unfold Fs.copy2, saved_only.
  cbv [mbind M_bind get_fs put_fs raise].
  destruct (String.eqb _ _); [set_solver|].
  destruct (files (w_fs w) !! _); [|set_solver].
  destruct (Fs.parent_exists _ _); cbn [fst snd w_fs dirs files];
    [|set_solver].
  rewrite dom_insert. set_solver.
Qed.

(** X4: saving creates no directory but the save directory and those above
    it, and writes no file but the plot and its restart copy: the
    directory of the restart copy is never created by the routine. *)
Theorem save_writes_the_plot_only a name w :
  saved_only a name (w_fs w) (w_fs (save_figure a name w).2).
Proof.
  revert w. change (fs_changes (saved_only a name) (save_figure a name)).
  pose proof (saved_only_refl a name) as Hrefl.
  pose proof (saved_only_trans a name) as Htrans.
  unfold save_figure.
  apply fs_changes_bind; [done|by apply keeps_changes|]. intros is_dir.
  apply fs_changes_bind; [done| |intros _].
  { destruct is_dir; cbn [negb when];
      [apply keeps_changes; [done|apply keeps_mret]|apply changes_makedirs]. }
  apply fs_changes_bind; [done|apply changes_savefig|intros _].
  apply fs_changes_bind; [done| |intros _].
  { destruct (Str.nonempty (restart_dir a)); cbn [when];
      [apply changes_copy2|apply keeps_changes; [done|apply keeps_mret]]. }
  apply keeps_changes; [done|]. keeps.
Qed.

(** X5: a restart directory equal to the save directory - as with the
    defaults of the signature, '.' and '.' - makes the restart copy a copy
    of the saved file onto itself.  The call then always raises: either the
    figure could not be written, or it was written and shutil.copy2 raises
    SameFileError; in neither case is the success logged or the figure
    closed. *)
Theorem restart_onto_itself_raises a name w :
  restart_dir a = save_dir a → Str.nonempty (restart_dir a) = true →
  restart_path a name = save_path a name
  ∧ ∃ e w', save_figure a name w = (Raise e, w')
      ∧ w_log w' = w_log w ∧ w_closed w' = w_closed w
      ∧ ((e = SameFileError (save_path a name)
          ∧ files (w_fs w') !! save_path a name = Some (w_figure w))
         ∨ ((∀ p, e ≠ SameFileError p) ∧ files (w_fs w') = files (w_fs w))).
Proof.
  intros Hr Hne.
  assert (restart_path a name = save_path a name) as Hp.
  { unfold restart_path, save_path, save_subdir, Path.join. by rewrite Hr. }
  split; [done|]. unfold save_figure. rewrite Hne, Hp. cbn [when].
  unfold Fs.isdir, Fs.makedirs, Fs.savefig, Fs.copy2, when.
  cbv [mbind M_bind mret M_ret get_fs put_fs get_figure raise].
  rewrite String.eqb_refl.
  cbn [w_fs w_figure w_log w_closed dirs files].
  destruct (negb _).
  - destruct (String.eqb _ _); [eauto 10|].
    case_bool_decide; [eauto 10|].
    cbn [w_fs w_figure w_log w_closed dirs files].
    destruct (Fs.parent_exists _ _); [|eauto 10].
    cbn [w_fs w_figure w_log w_closed dirs files].
    do 2 eexists. split; [done|]. split; [done|]. split; [done|].
    left. split; [done|]. apply lookup_insert_eq.
  - destruct (Fs.parent_exists _ _); [|eauto 10].
    cbn [w_fs w_figure w_log w_closed dirs files].
    do 2 eexists. split; [done|]. split; [done|]. split; [done|].
    left. split; [done|]. apply lookup_insert_eq.
Qed.

Lemma restart_onto_itself_raises_witness :
  restart_dir sample_call = save_dir sample_call
  ∧ Str.nonempty (restart_dir sample_call) = true
  ∧ restart_path sample_call "bcrmse" = save_path sample_call "bcrmse"
  ∧ ∃ e w', save_figure sample_call "bcrmse" fresh_world = (Raise e, w')
      ∧ w_log w' = w_log fresh_world ∧ w_closed w' = w_closed fresh_world
      ∧ ((e = SameFileError (save_path sample_call "bcrmse")
          ∧ files (w_fs w') !! save_path sample_call "bcrmse"
            = Some (w_figure fresh_world))
         ∨ ((∀ p, e ≠ SameFileError p)
            ∧ files (w_fs w') = files (w_fs fresh_world))).
Proof.
  split; [reflexivity|]. split; [reflexivity|].
  apply (restart_onto_itself_raises sample_call "bcrmse" fresh_world);
    reflexivity.
Defined.

(** ** The file name (lines 677-717) *)

Section names.

Local Arguments String.append !_ _ / : simpl nomatch.

Lemma lower_ascii_idem c :
  Str.lower_ascii (Str.lower_ascii c) = Str.lower_ascii c.
Proof. destruct c as [[] [] [] [] [] [] [] []]; reflexivity. Qed.

Lemma lower_app a b : Str.lower (a +:+ b) = Str.lower a +:+ Str.lower b.
Proof.
  induction a as [|c a IH]; [done|].
  change (String c a +:+ b) with (String c (a +:+ b)).
  cbn [Str.lower Str.smap]. change (Str.smap Str.lower_ascii) with Str.lower.
  by rewrite IH.
Qed.

Lemma is_lower_lower s : is_lower (Str.lower s).
Proof.
  unfold is_lower. induction s as [|c s IH]; [done|].
  cbn [Str.lower Str.smap]. change (Str.smap Str.lower_ascii) with Str.lower.
  by rewrite lower_ascii_idem, IH.
Qed.

Lemma is_lower_app a b : is_lower a → is_lower b → is_lower (a +:+ b).
Proof. unfold is_lower. intros Ha Hb. by rewrite lower_app, Ha, Hb. Qed.

Lemma is_lower_join sep l :
  is_lower sep → Forall is_lower l → is_lower (Str.join sep l).
Proof.
  intros Hsep Hl. induction Hl as [|x l Hx Hl IH]; [done|].
  destruct l as [|y l]; [done|].
  change (Str.join sep (x :: y :: l)) with (x +:+ sep +:+ Str.join sep (y :: l)).
  auto using is_lower_app.
Qed.

Lemma is_lower_plot_info a date_hours frange_save_string :
  is_lower (plot_info a date_hours frange_save_string).
Proof.
  unfold plot_info. apply is_lower_join; [done|].
  apply Forall_forall. intros x [Hx _]%list_elem_of_In%filter_In.
  apply list_elem_of_In in Hx. revert Hx. rewrite !elem_of_cons, elem_of_nil.
  intros [->|[->|[->|[]]]];
    [done|apply is_lower_app; apply is_lower_lower|apply is_lower_lower].
Qed.

(** X6: the file name is in lower case whatever the case of the metric
    names, the variable, the level, the period and the domain; only the
    header given with save_header is put in front as it is. *)
Theorem file_name_is_lower_case a date_hours frange_save_string
    thresholds_save_phrase interp_pts_save_string var_savename level_savename
    domain_save_string :
  ∃ stem,
    save_name a date_hours frange_save_string thresholds_save_phrase
      interp_pts_save_string var_savename level_savename domain_save_string
    = (if Str.nonempty (save_header a) then save_header a +:+ "." +:+ stem
       else stem)
    ∧ is_lower stem.
Proof.
  unfold save_name. cbv zeta. eexists. split; [reflexivity|].
  pose proof is_lower_lower. pose proof is_lower_plot_info.
  assert (is_lower ".") by done. assert (is_lower "_") by done.
  repeat first
    [ apply is_lower_app
    | match goal with
      | |- is_lower (match ?x with _ => _ end) => destruct x
      | |- is_lower (if ?x then _ else _) => destruct x
      end
    | done ].
Qed.

End names.

(** * main() *)

(** ** Running main() *)

Lemma mm_bind {A B} (m : Main.MM A) (k : A → Main.MM B) s r s' :
  m s = (r, s') →
  (m ≫= k) s = match r with inr x => k x s' | inl e => (inl e, s') end.
Proof. unfold mbind, Main.MM_bind. by intros ->. Qed.

Lemma quiet_bind {A B} (m : Main.MM A) (k : A → Main.MM B) :
  Main.quiet m → (∀ x, Main.quiet (k x)) → Main.quiet (m ≫= k).
Proof.
  intros Hm Hk s. specialize (Hm s). unfold mbind, Main.MM_bind.
  destruct (m s) as [[e|x] s1]; cbn [snd] in *; [done|].
  destruct (Hk x s1) as [-> ->]. done.
Qed.

Lemma quiet_mret {A} (x : A) : Main.quiet (mret x : Main.MM A).
Proof. by intros s. Qed.

Lemma quiet_fail {A} e : Main.quiet (Main.fail (A:=A) e).
Proof. by intros s. Qed.

Lemma quiet_logger l msg : Main.quiet (Main.logger l msg).
Proof. by intros s. Qed.

Lemma quiet_lift {A} (r : Main.failure + A) : Main.quiet (Main.lift r).
Proof. by destruct r; intros s. Qed.

Lemma quiet_global {A} name (v : option A) : Main.quiet (Main.global name v).
Proof. by destruct v; intros s. Qed.

Lemma quiet_getitem {A} (d : gmap string A) key : Main.quiet (Main.getitem d key).
Proof. unfold Main.getitem. by destruct (d !! key); intros s. Qed.

Lemma quiet_list_item {A} (l : list A) i : Main.quiet (Main.list_item l i).
Proof. unfold Main.list_item. by destruct (l !! i); intros s. Qed.

Lemma quiet_mask_select {A} (l : list A) mask : Main.quiet (Main.mask_select l mask).
Proof. unfold Main.mask_select. by destruct (_ =? _)%nat; intros s. Qed.

Lemma quiet_for_each {A S} (l : list A) (body : A → S → Main.MM S) st :
  (∀ x st, Main.quiet (body x st)) → Main.quiet (Main.for_each l body st).
Proof.
  intros Hbody. revert st.
  induction l as [|x l IH]; intros st; cbn [Main.for_each].
  - apply quiet_mret.
  - apply quiet_bind; [apply Hbody|]. intros st'. apply IH.
Qed.

Ltac quiet_main :=
  repeat first
    [ apply quiet_mret | apply quiet_fail | apply quiet_logger
    | apply quiet_lift | apply quiet_global | apply quiet_getitem
    | apply quiet_list_item | apply quiet_mask_select
    | apply quiet_for_each; intros ? ?
    | apply quiet_bind; [|intros ?]
    | match goal with
      | |- Main.quiet (match ?x with _ => _ end) => destruct x
      | |- Main.quiet (if ?x then _ else _) => destruct x
      end ].

Lemma quiet_quit {A} e : Main.quiet (Main.quit (A:=A) e).
Proof. unfold Main.quit. quiet_main. Qed.

Lemma fails_fail {A} e : Main.fails_quietly (Main.fail (A:=A) e).
Proof. intros s. by exists e, s. Qed.

Lemma fails_bind_l {A B} (m : Main.MM A) (k : A → Main.MM B) :
  Main.fails_quietly m → Main.fails_quietly (m ≫= k).
Proof.
  intros Hm s. destruct (Hm s) as (e & s' & Hrun & ? & ?).
  exists e, s'. by erewrite mm_bind by exact Hrun.
Qed.

Lemma fails_bind_r {A B} (m : Main.MM A) (k : A → Main.MM B) :
  Main.quiet m → (∀ x, Main.fails_quietly (k x)) →
  Main.fails_quietly (m ≫= k).
Proof.
  intros Hm Hk s. destruct (Hm s) as [Hc Hw]. unfold mbind, Main.MM_bind.
  destruct (m s) as [[e|x] s1]; cbn [snd] in *; [by exists e, s1|].
  destruct (Hk x s1) as (e & s' & Hrun & ? & ?).
  exists e, s'. split; [done|]. split; congruence.
Qed.

Lemma fails_quit {A} e : Main.fails_quietly (Main.quit (A:=A) e).
Proof. intros s. unfold Main.quit. by do 2 eexists. Qed.

Section main_stages.

Context (plot_util : plot_util_t) (G : globals) (E : Main.env).

Lemma quiet_date_range_of date_beg date_end :
  Main.quiet (Main.date_range_of date_beg date_end).
Proof. unfold Main.date_range_of. quiet_main. Qed.

Lemma quiet_select_metrics cfg : Main.quiet (Main.select_metrics cfg).
Proof. unfold Main.select_metrics. quiet_main. Qed.

Lemma quiet_unzip_thresh l : Main.quiet (Main.unzip_thresh E l).
Proof. unfold Main.unzip_thresh. quiet_main. Qed.

Lemma quiet_check_case cfg : Main.quiet (Main.check_case E cfg).
Proof. unfold Main.check_case. quiet_main; apply quiet_quit. Qed.

Lemma quiet_check_metrics cfg specs metrics :
  Main.quiet (Main.check_metrics cfg specs metrics).
Proof. unfold Main.check_metrics. quiet_main. Qed.

Lemma quiet_select_thresholds cfg vs fs fl os ol :
  Main.quiet (Main.select_thresholds cfg vs fs fl os ol).
Proof. unfold Main.select_thresholds. cbv zeta. quiet_main. Qed.

(** ** The dates (lines 763-787) *)

(** X7: a DATE_TYPE that is neither VALID nor INIT in any case does not
    get the error that lines 784-787 prepare: the message reads the name
    date_type, which main() does not bind.  Unless the module defines it,
    the call raises NameError - or the KeyError of a period or date that
    the presets lack - and nothing is logged. *)
Theorem invalid_date_type_is_a_NameError cfg s :
  Str.upper (Main.DATE_TYPE cfg) ≠ "VALID" →
  Str.upper (Main.DATE_TYPE cfg) ≠ "INIT" →
  Main.g_date_type E = None →
  ∃ e, Main.select_dates E cfg s = (inl (Main.Py e), s)
       ∧ (e = NameError "date_type" ∨ ∃ key, e = KeyError key).
Proof.
  intros Hv%String.eqb_neq Hi%String.eqb_neq Hg. unfold Main.select_dates.
  rewrite Hv, Hi, Hg. cbn [Main.global].
  destruct (String.eqb _ "TEST").
  - erewrite mm_bind by reflexivity. cbn beta iota.
    erewrite mm_bind by reflexivity. eauto.
  - unfold Main.getitem.
    destruct (Main.date_presets E !! _) as [preset|];
      [|erewrite mm_bind by (erewrite mm_bind by reflexivity; reflexivity);
        eauto].
    destruct (preset !! "valid_beg") as [?|] eqn:E1;
      destruct (preset !! "valid_end") as [?|] eqn:E2;
      destruct (preset !! "init_beg") as [?|] eqn:E3;
      destruct (preset !! "init_end") as [?|] eqn:E4;
      cbv [mbind Main.MM_bind mret Main.MM_ret Main.fail];
      rewrite ?E1, ?E2, ?E3, ?E4; eauto.
Qed.

(** ** The thresholds (lines 933-952) *)

(** X8: a list of observation thresholds that is longer or shorter than
    the list of forecast thresholds is not reported: the mask computed
    from the shorter list does not fit the longer one, and numpy raises
    IndexError at the first variable the case knows. *)
Theorem threshold_lists_of_different_length_raise cfg vs
    fcst_symbol fcst_letter obs_symbol obs_letter s :
  List.length fcst_symbol = List.length (Main.FCST_THRESH cfg) →
  List.length fcst_letter = List.length (Main.FCST_THRESH cfg) →
  List.length obs_symbol = List.length (Main.OBS_THRESH cfg) →
  List.length obs_letter = List.length (Main.OBS_THRESH cfg) →
  Main.FCST_THRESH cfg ≠ [] → Main.OBS_THRESH cfg ≠ [] →
  List.length (Main.FCST_THRESH cfg) ≠ List.length (Main.OBS_THRESH cfg) →
  Main.select_thresholds cfg vs fcst_symbol fcst_letter obs_symbol obs_letter s
  = (inl (Main.Py (IndexError "boolean index did not match indexed array")), s).
Proof.
  intros Hfs Hfl Hos Hol Hf Ho Hne. unfold Main.select_thresholds. cbv zeta.
  set (keep := zip_with orb _ _).
  assert (List.length keep
          = Nat.min (List.length (Main.FCST_THRESH cfg))
                    (List.length (Main.OBS_THRESH cfg)))
    as Hlen.
  { unfold keep, Main.keep_mask.
    rewrite length_zip_with, !length_map, !length_zip_with. lia. }
  assert (keep ≠ []) as Hkeep.
  { intros Hk. rewrite Hk in Hlen. cbn in Hlen.
    destruct (Main.FCST_THRESH cfg), (Main.OBS_THRESH cfg); done. }
  rewrite bool_decide_eq_false_2 by done.
  erewrite mm_bind by reflexivity. cbn beta iota.
  unfold Main.mask_select. rewrite !length_map.
  destruct (Nat.eqb_spec (List.length keep) (List.length (Main.FCST_THRESH cfg)))
    as [Heq|Hneq]; [|done].
  erewrite mm_bind by reflexivity. cbn beta iota.
  erewrite mm_bind by reflexivity. cbn beta iota.
  destruct (Nat.eqb_spec (List.length keep) (List.length (Main.OBS_THRESH cfg)))
    as [Heq'|Hneq']; [lia|done].
Qed.

(** ** The levels (lines 961-981) *)

(** X9: a level that the variable does not admit is not skipped with a
    warning, as lines 976-981 intend: the message reads the name level,
    which main() does not bind.  Unless the module defines it, the call
    raises NameError and nothing is logged. *)
Theorem inadmissible_level_is_a_NameError cfg specs vs metrics date_range
    date_hours date_type_string requested_var fcst_thresh fcst_levels
    obs_levels l fcst_level obs_level num s :
  List.length fcst_levels = List.length obs_levels →
  fcst_levels !! l = Some fcst_level → obs_levels !! l = Some obs_level →
  Main.fcst_var_levels vs fcst_level = false
  ∨ Main.obs_var_levels vs obs_level = false →
  Main.g_level E = None →
  Main.plot_level plot_util G E cfg specs vs metrics date_range date_hours
    date_type_string requested_var fcst_thresh fcst_levels obs_levels
    (l, fcst_level) num s
  = (inl (Main.Py (NameError "level")), s).
Proof.
  intros Hlen Hf Ho Hbad Hg. unfold Main.plot_level.
  rewrite Hlen, Nat.eqb_refl. cbn [negb].
  erewrite mm_bind by reflexivity. cbn beta iota.
  unfold Main.list_item. rewrite Hf, Ho.
  erewrite mm_bind by reflexivity. cbn beta iota.
  erewrite mm_bind by reflexivity. cbn beta iota.
  assert (negb (Main.fcst_var_levels vs fcst_level)
          || negb (Main.obs_var_levels vs obs_level) = true) as ->.
  { destruct Hbad as [-> | ->]; [done|apply orb_true_r]. }
  rewrite Hg. reflexivity.
Qed.

(** X10: the levels are split with re.split, and the file does not import
    re.  Unless the star import binds the name, main() plots no variable:
    at the first variable that the case knows the call fails, without
    having called the plotting routine. *)
Theorem undefined_re_stops_every_variable cfg specs metrics date_range
    date_hours date_type_string fcst_symbol fcst_letter obs_symbol obs_letter
    requested_var vs num :
  Main.g_re E = None →
  Main.var_dict specs !! requested_var = Some vs →
  Main.fails_quietly
    (Main.plot_variable plot_util G E cfg specs metrics date_range date_hours
       date_type_string fcst_symbol fcst_letter obs_symbol obs_letter
       requested_var num).
Proof.
  intros Hre Hvs. unfold Main.plot_variable. rewrite Hvs, Hre.
  apply fails_bind_r; [apply quiet_select_thresholds|].
  intros [[dropped_items fcst_thresh] obs_thresh].
  apply fails_bind_r; [quiet_main|]. intros _.
  apply fails_bind_l. apply fails_fail.
Qed.

(** ** The case (lines 883-909) *)

(** X11: when the case type, the line type or the interpolation is not
    one the reference table knows, main() fails without having called the
    plotting routine - with the ValueError of lines 898-909, unless the
    dates, the metrics or the thresholds have failed before. *)
Theorem unknown_case_plots_nothing cfg date_beg date_end date_hours
    date_type_string :
  (∀ specs, ¬ Main.valid_case E cfg specs) →
  Main.fails_quietly
    (Main.main_plots plot_util G E cfg date_beg date_end date_hours
       date_type_string).
Proof.
  intros Hbad. unfold Main.main_plots.
  apply fails_bind_r; [apply quiet_date_range_of|]. intros date_range.
  apply fails_bind_r; [apply quiet_select_metrics|]. intros metrics.
  apply fails_bind_r; [apply quiet_unzip_thresh|]. intros fcst.
  apply fails_bind_r; [apply quiet_unzip_thresh|]. intros obs.
  apply fails_bind_l. unfold Main.check_case.
  destruct (Main.case_type E !! _) as [line_types|] eqn:Hc; [|apply fails_quit].
  destruct (line_types !! _) as [specs|] eqn:Hl; [|apply fails_quit].
  case_bool_decide as Hi; [|apply fails_quit].
  destruct (Hbad specs). by exists line_types.
Qed.

End main_stages.

Lemma invalid_date_type_is_a_NameError_witness :
  Str.upper (Main.DATE_TYPE (Main.config_with "FCST" "grid2obs_upper" "850" [""]))
  ≠ "VALID"
  ∧ Str.upper (Main.DATE_TYPE (Main.config_with "FCST" "grid2obs_upper" "850" [""]))
    ≠ "INIT"
  ∧ Main.g_date_type Main.sample_env = None
  ∧ ∃ e, Main.select_dates Main.sample_env
           (Main.config_with "FCST" "grid2obs_upper" "850" [""]) Main.fresh_state
         = (inl (Main.Py e), Main.fresh_state)
         ∧ (e = NameError "date_type" ∨ ∃ key, e = KeyError key).
Proof.
  split; [vm_compute; discriminate|]. split; [vm_compute; discriminate|].
  split; [reflexivity|].
  apply (invalid_date_type_is_a_NameError Main.sample_env
           (Main.config_with "FCST" "grid2obs_upper" "850" [""])
           Main.fresh_state).
  - vm_compute. discriminate.
  - vm_compute. discriminate.
  - reflexivity.
Defined.

Lemma threshold_lists_of_different_length_raise_witness :
  Main.FCST_THRESH (Main.config_with "VALID" "grid2obs_upper" "850" [""; ">1"])
  = [""]
  ∧ Main.OBS_THRESH (Main.config_with "VALID" "grid2obs_upper" "850" [""; ">1"])
    = [""; ">1"]
  ∧ Main.select_thresholds
      (Main.config_with "VALID" "grid2obs_upper" "850" [""; ">1"])
      Main.sample_var [""] [""] [""; ">1"] [""; ">1"] Main.fresh_state
    = (inl (Main.Py (IndexError "boolean index did not match indexed array")),
       Main.fresh_state).
Proof.
  split; [reflexivity|]. split; [reflexivity|].
  apply (threshold_lists_of_different_length_raise
           (Main.config_with "VALID" "grid2obs_upper" "850" [""; ">1"])
           Main.sample_var [""] [""] [""; ">1"] [""; ">1"] Main.fresh_state);
    try reflexivity; cbn; try discriminate; lia.
Defined.

Lemma inadmissible_level_is_a_NameError_witness :
  Main.fcst_var_levels Main.sample_var "700" = false
  ∧ Main.g_level Main.sample_env = None
  ∧ Main.plot_level (passthrough true) bare_module Main.sample_env
      Main.sample_config Main.sample_case Main.sample_var ("BCRMSE", Some "BIAS")
      (day 1, day 2) [0; 12] "VALID" "HGT" [""] ["500"; "700"] ["500"; "700"]
      (1%nat, "700") 0 Main.fresh_state
    = (inl (Main.Py (NameError "level")), Main.fresh_state).
Proof.
  split; [reflexivity|]. split; [reflexivity|].
  apply (inadmissible_level_is_a_NameError (passthrough true) bare_module
           Main.sample_env Main.sample_config Main.sample_case Main.sample_var
           ("BCRMSE", Some "BIAS") (day 1, day 2) [0; 12] "VALID" "HGT" [""]
           ["500"; "700"] ["500"; "700"] 1%nat "700" "700" 0 Main.fresh_state);
    try reflexivity.
  left. reflexivity.
Defined.

Lemma undefined_re_stops_every_variable_witness :
  Main.g_re (Main.env_with None) = None
  ∧ Main.var_dict Main.sample_case !! "HGT" = Some Main.sample_var
  ∧ Main.fails_quietly
      (Main.plot_variable (passthrough true) bare_module (Main.env_with None)
         Main.sample_config Main.sample_case ("BCRMSE", Some "BIAS")
         (day 1, day 2) [0; 12] "VALID" [""] [""] [""] [""] "HGT" 0).
Proof.
  split; [reflexivity|]. split; [reflexivity|].
  apply (undefined_re_stops_every_variable (passthrough true) bare_module
           (Main.env_with None) Main.sample_config Main.sample_case
           ("BCRMSE", Some "BIAS") (day 1, day 2) [0; 12] "VALID"
           [""] [""] [""] [""] "HGT" Main.sample_var 0);
    reflexivity.
Defined.

Lemma unknown_case_plots_nothing_witness :
  Main.case_type Main.sample_env !! "grid2grid_anom" = None
  ∧ Main.fails_quietly
      (Main.main_plots (passthrough true) bare_module Main.sample_env
         (Main.config_with "VALID" "grid2grid_anom" "850" [""])
         "20221201" "20221202" [0; 12] "VALID").
Proof.
  split; [reflexivity|].
  apply (unknown_case_plots_nothing (passthrough true) bare_module
           Main.sample_env
           (Main.config_with "VALID" "grid2grid_anom" "850" [""])
           "20221201" "20221202" [0; 12] "VALID").
  intros specs (line_types & Hcase & _). vm_compute in Hcase. discriminate.
Defined.

(** ** The plots main() attempts (lines 863-1026) *)

Lemma triple_bind {A B} P (m : Main.MM A) (k : A → Main.MM B) Q R F :
  Main.triple P m Q F → (∀ x, Main.triple (Q x) (k x) R F) →
  Main.triple P (m ≫= k) R F.
Proof.
  intros Hm Hk s Hs. specialize (Hm s Hs). unfold mbind, Main.MM_bind.
  destruct (m s) as [[e|x] s1]; [done|]. by apply Hk.
Qed.

Lemma triple_mret {A} (P : Main.state → Prop) (x : A) Q F :
  (∀ s, P s → Q x s) → Main.triple P (mret x : Main.MM A) Q F.
Proof. intros H s Hs. by apply H. Qed.

Lemma triple_weaken {A} (P P' : Main.state → Prop) (m : Main.MM A) Q Q' F :
  (∀ s, P' s → P s) → (∀ x s, Q x s → Q' x s) →
  Main.triple P m Q F → Main.triple P' m Q' F.
Proof.
  intros HP HQ Hm s Hs. specialize (Hm s (HP s Hs)).
  destruct (m s) as [[e|x] s1]; [done|]. by apply HQ.
Qed.

Lemma triple_for_each {A S} (I : S → Main.state → Prop) F (l : list A)
    (body : A → S → Main.MM S) st :
  (∀ x st, Main.triple (I st) (body x st) I F) →
  Main.triple (I st) (Main.for_each l body st) I F.
Proof.
  intros Hbody. revert st.
  induction l as [|x l IH]; intros st; cbn [Main.for_each].
  - by apply triple_mret.
  - eapply triple_bind; [apply Hbody|]. intros st'. apply IH.
Qed.

Lemma numbers_S n : Main.numbers (S n) = Main.numbers n ++ [Z.of_nat n].
Proof. unfold Main.numbers. by rewrite seq_S, map_app. Qed.

Section attempts.

Context (plot_util : plot_util_t) (G : globals) (E : Main.env).
Context (s0 : Main.state).

Lemma survives_false a :
  df a = [] ∨ df_level a = [] ∨ df_lead plot_util a = []
  ∨ df_models plot_util a = [] ∨ df_final plot_util a = [] →
  survives plot_util a = false.
Proof.
  intros H. apply not_true_iff_false.
  intros (? & ? & ? & ? & ?)%survives_nonempty. tauto.
Qed.

Lemma attempted_weaken b s new :
  Main.attempted plot_util true s0 s new → Main.attempted plot_util b s0 s new.
Proof. intros (? & ? & ? & ? & H). repeat split; try done. intros _. by apply H. Qed.

Lemma counted_failed n s :
  Main.counted plot_util s0 n s → Main.failed plot_util s0 s.
Proof. intros (new & H & _). exists new. by apply attempted_weaken. Qed.

(** A step that does not call the routine keeps the count. *)
Lemma triple_quiet {A} (m : Main.MM A) n :
  Main.quiet m →
  Main.triple (Main.counted plot_util s0 n) m
    (λ _, Main.counted plot_util s0 n) (Main.failed plot_util s0).
Proof.
  intros Hm s Hs. destruct (Hm s) as [Hc Hw].
  assert (Main.counted plot_util s0 n (m s).2) as Hs'.
  { destruct Hs as (new & (? & ? & ? & ? & ?) & ?). exists new.
    unfold Main.attempted. rewrite Hc, Hw. done. }
  destruct (m s) as [[e|x] s1]; cbn [snd] in *; [|done].
  by eapply counted_failed.
Qed.

Lemma call_plot_counted a n :
  num a = n →
  Main.triple (Main.counted plot_util s0 n) (Main.call_plot plot_util G a)
    (λ _, Main.counted plot_util s0 (n + 1)) (Main.failed plot_util s0).
Proof.
  intros <- s (new & (Hcalls & Hnum & Hfs & Hfig & Hskip) & Hn).
  unfold Main.call_plot. cbv zeta.
  assert (map num (new ++ [a]) = Main.numbers (List.length (new ++ [a])))
    as Hnum'.
  { rewrite map_app, length_app, Hnum. cbn [List.length map].
    by rewrite Nat.add_1_r, numbers_S, Hn. }
  destruct (plot_time_series_run plot_util G a (Main.s_world s))
    as (k & closed & [(Hrun & _ & Hempty)|[(e & Hrun & _)|(Hrun & _)]]);
    rewrite Hrun; cbn [fst snd].
  - exists (new ++ [a]). split.
    + split; [cbn; by rewrite Hcalls, app_assoc|].
      split; [done|]. split; [done|]. split; [done|]. intros ?.
      apply Forall_app. split; [by apply Hskip|].
      constructor; [by apply survives_false|done].
    + rewrite length_app. cbn [List.length]. lia.
  - exists (new ++ [a]).
    split; [cbn; by rewrite Hcalls, app_assoc|]. by repeat split.
  - exists (new ++ [a]).
    split; [cbn; by rewrite Hcalls, app_assoc|]. by repeat split.
Qed.

Lemma plot_domain_counted cfg specs vs metrics date_range date_hours
    date_type_string requested_var fcst_thresh fcst_level domain num :
  Main.triple (Main.counted plot_util s0 num)
    (Main.plot_domain plot_util G E cfg specs vs metrics date_range date_hours
       date_type_string requested_var fcst_thresh fcst_level domain num)
    (Main.counted plot_util s0) (Main.failed plot_util s0).
Proof.
  unfold Main.plot_domain. destruct (negb _).
  { eapply triple_bind; [apply triple_quiet, quiet_logger|]. intros ?.
    eapply triple_bind; [apply triple_quiet, quiet_logger|]. intros ?.
    by apply triple_mret. }
  destruct (Main.get_preprocessed_data _ _ _ _ _ _ _ _) as [df|];
    [|by apply triple_mret].
  eapply triple_bind; [by apply call_plot_counted|]. intros ?.
  by apply triple_mret.
Qed.

Lemma plot_level_counted cfg specs vs metrics date_range date_hours
    date_type_string requested_var fcst_thresh fcst_levels obs_levels
    l_fcst_level num :
  Main.triple (Main.counted plot_util s0 num)
    (Main.plot_level plot_util G E cfg specs vs metrics date_range date_hours
       date_type_string requested_var fcst_thresh fcst_levels obs_levels
       l_fcst_level num)
    (Main.counted plot_util s0) (Main.failed plot_util s0).
Proof.
  unfold Main.plot_level. destruct l_fcst_level as [l fcst_level].
  eapply triple_bind.
  { apply triple_quiet. destruct (negb _); [apply quiet_quit|apply quiet_mret]. }
  intros ?.
  eapply triple_bind; [apply triple_quiet, quiet_list_item|]. intros fcst.
  eapply triple_bind; [apply triple_quiet, quiet_list_item|]. intros obs.
  destruct (_ || _).
  - eapply triple_bind; [apply triple_quiet, quiet_global|]. intros level.
    eapply triple_bind; [apply triple_quiet, quiet_logger|]. intros ?.
    by apply triple_mret.
  - cbv beta. apply (triple_for_each (Main.counted plot_util s0)).
    intros domain num'. apply plot_domain_counted.
Qed.

Lemma plot_variable_counted cfg specs metrics date_range date_hours
    date_type_string fcst_symbol fcst_letter obs_symbol obs_letter
    requested_var num :
  Main.triple (Main.counted plot_util s0 num)
    (Main.plot_variable plot_util G E cfg specs metrics date_range date_hours
       date_type_string fcst_symbol fcst_letter obs_symbol obs_letter
       requested_var num)
    (Main.counted plot_util s0) (Main.failed plot_util s0).
Proof.
  unfold Main.plot_variable. destruct (Main.var_dict specs !! _) as [vs|].
  2:{ eapply triple_bind; [apply triple_quiet, quiet_logger|]. intros ?.
      eapply triple_bind; [apply triple_quiet, quiet_logger|]. intros ?.
      by apply triple_mret. }
  eapply triple_bind; [apply triple_quiet, quiet_select_thresholds|].
  intros [[dropped_items fcst_thresh] obs_thresh].
  eapply triple_bind; [apply triple_quiet; quiet_main|]. intros ?.
  eapply triple_bind; [apply triple_quiet, quiet_global|]. intros ?.
  cbv beta zeta. apply (triple_for_each (Main.counted plot_util s0)).
  intros l_fcst_level num'.
  apply plot_level_counted.
Qed.

Lemma main_plots_counted cfg date_beg date_end date_hours date_type_string :
  Main.triple (Main.counted plot_util s0 0)
    (Main.main_plots plot_util G E cfg date_beg date_end date_hours
       date_type_string)
    (λ _ s, ∃ n, Main.counted plot_util s0 n s) (Main.failed plot_util s0).
Proof.
  unfold Main.main_plots.
  eapply triple_bind; [apply triple_quiet, quiet_date_range_of|]. intros ?.
  eapply triple_bind; [apply triple_quiet, quiet_select_metrics|]. intros ?.
  eapply triple_bind; [apply triple_quiet, quiet_unzip_thresh|]. intros ?.
  eapply triple_bind; [apply triple_quiet, quiet_unzip_thresh|]. intros ?.
  eapply triple_bind; [apply triple_quiet, quiet_check_case|]. intros ?.
  eapply triple_bind; [apply triple_quiet, quiet_check_metrics|]. intros ?.
  eapply triple_bind.
  { cbv beta. apply (triple_for_each (Main.counted plot_util s0)).
    intros v num'. apply plot_variable_counted. }
  intros n. apply triple_mret. intros s Hs. by exists n.
Qed.

End attempts.

Lemma counted_start plot_util s : Main.counted plot_util s 0 s.
Proof.
  exists []. split; [|done]. unfold Main.attempted.
  rewrite app_nil_r. by repeat split.
Qed.

Section main_claims.

Context (plot_util : plot_util_t) (G : globals) (E : Main.env).

(** What a run of lines 863-1026 leaves, whatever its outcome *)
Lemma main_plots_attempts cfg date_beg date_end date_hours date_type_string s :
  ∃ new,
    Main.attempted plot_util
      (match (Main.main_plots plot_util G E cfg date_beg date_end date_hours
                date_type_string s).1 with
       | inl _ => false
       | inr _ => true
       end)
      s (Main.main_plots plot_util G E cfg date_beg date_end date_hours
           date_type_string s).2 new.
Proof.
  pose proof (main_plots_counted plot_util G E s cfg date_beg date_end
                date_hours date_type_string s (counted_start plot_util s)) as H.
  destruct (Main.main_plots _ _ _ _ _ _ _ _ s) as [[e|[]] s1]; cbn [fst snd].
  - exact H.
  - destruct H as (n & new & H & _). by exists new.
Qed.

(** X12: main() draws nothing and writes no file: whatever the settings
    and the data, the figure and the file system are after lines 863-1026
    as they were before, so that no plot is ever saved. *)
Theorem main_saves_no_plot cfg date_beg date_end date_hours date_type_string s :
  w_fs (Main.s_world (Main.main_plots plot_util G E cfg date_beg date_end
                        date_hours date_type_string s).2)
  = w_fs (Main.s_world s)
  ∧ w_figure (Main.s_world (Main.main_plots plot_util G E cfg date_beg date_end
                              date_hours date_type_string s).2)
    = w_figure (Main.s_world s).
Proof.
  destruct (main_plots_attempts cfg date_beg date_end date_hours
              date_type_string s) as (new & _ & _ & Hfs & Hfig & _).
  done.
Qed.

(** X13: main() comes to its end only if every dataframe it passed to
    plot_time_series was left empty by one of the filters: a dataframe
    that survives them keeps main() from coming to its end. *)
Theorem main_completes_only_without_plots cfg date_beg date_end date_hours
    date_type_string s s' :
  Main.main_plots plot_util G E cfg date_beg date_end date_hours
    date_type_string s = (inr tt, s') →
  ∃ new, Main.s_calls s' = Main.s_calls s ++ new
         ∧ Forall (λ a, survives plot_util a = false) new.
Proof.
  intros Hrun.
  destruct (main_plots_attempts cfg date_beg date_end date_hours
              date_type_string s) as (new & Hcalls & _ & _ & _ & Hskip).
  rewrite Hrun in Hcalls, Hskip. cbn [fst snd] in *.
  exists new. split; [done|]. by apply Hskip.
Qed.

(** X14: the calls of plot_time_series are numbered 0, 1, 2, ... in the
    order main() makes them: a variable, level or domain that is skipped,
    and data that get_preprocessed_data does not find, use up no number. *)
Theorem plots_are_numbered_in_order cfg date_beg date_end date_hours
    date_type_string s :
  ∃ new,
    Main.s_calls (Main.main_plots plot_util G E cfg date_beg date_end
                    date_hours date_type_string s).2
    = Main.s_calls s ++ new
    ∧ map num new = Main.numbers (List.length new).
Proof.
  destruct (main_plots_attempts cfg date_beg date_end date_hours
              date_type_string s) as (new & Hcalls & Hnum & _).
  by exists new.
Qed.

End main_claims.

Lemma main_completes_only_without_plots_witness :
  Main.main_plots (passthrough true) bare_module Main.sample_env
    Main.sample_config "20221201" "20221202" [0; 12] "VALID" Main.fresh_state
  = (inr tt,
     (Main.main_plots (passthrough true) bare_module Main.sample_env
        Main.sample_config "20221201" "20221202" [0; 12] "VALID"
        Main.fresh_state).2)
  ∧ ∃ new,
      Main.s_calls (Main.main_plots (passthrough true) bare_module
                      Main.sample_env Main.sample_config "20221201" "20221202"
                      [0; 12] "VALID" Main.fresh_state).2
      = Main.s_calls Main.fresh_state ++ new
      ∧ Forall (λ a, survives (passthrough true) a = false) new.
Proof.
  split; [vm_compute; reflexivity|].
  apply (main_completes_only_without_plots (passthrough true) bare_module
           Main.sample_env Main.sample_config "20221201" "20221202" [0; 12]
           "VALID" Main.fresh_state).
  vm_compute. reflexivity.
Defined.

(** On the sample settings with the level 500, at which the data has rows,
    the one call of the routine raises, and so does main(). *)
Lemma first_surviving_dataframe_stops_main :
  (Main.main_plots (passthrough true) bare_module Main.sample_env
     (Main.config_with "VALID" "grid2obs_upper" "500" [""])
     "20221201" "20221202" [0; 12] "VALID" Main.fresh_state).1
  = inl (Main.Py (NameError "reindex_pivot_tables"))
  ∧ map num (Main.s_calls
               (Main.main_plots (passthrough true) bare_module Main.sample_env
                  (Main.config_with "VALID" "grid2obs_upper" "500" [""])
                  "20221201" "20221202" [0; 12] "VALID" Main.fresh_state).2)
    = [0].
Proof. split; vm_compute; reflexivity. Qed.

(** ** The log directory (lines 744-746) *)

Section log_dir.

Local Arguments String.append !_ _ / : simpl nomatch.

Lemma startswith_slash_app a b :
  Str.startswith_slash a = true → Str.startswith_slash (a +:+ b) = true.
Proof. by destruct a. Qed.

Lemma join2_absolute a b :
  Str.startswith_slash a = true → Str.startswith_slash (Path.join2 a b) = true.
Proof.
  intros Ha. unfold Path.join2.
  destruct (Str.startswith_slash b) eqn:Hb; [done|].
  destruct (_ || _); by apply startswith_slash_app.
Qed.

Lemma join_absolute a l :
  Str.startswith_slash a = true →
  Str.startswith_slash (foldl Path.join2 a l) = true.
Proof.
  revert a. induction l as [|b l IH]; intros a Ha; [done|].
  cbn [foldl]. by apply IH, join2_absolute.
Qed.

Lemma str_split_no_sep s :
  Str.has_slash s = false → Main.str_split "/" s = [s].
Proof.
  induction s as [|c s IH]; [done|]. cbn [Str.has_slash Main.str_split].
  intros [-> Hs]%orb_false_elim. by rewrite IH.
Qed.

(** X15: the directory that main() makes for the log file is an absolute
    path whatever LOG_TEMPLATE is, since the components are joined onto
    '/': for a relative template the directory checked and created is not
    the one the log file is opened in, and for a bare file name it is the
    root directory. *)
Theorem log_directory_is_absolute LOG_TEMPLATE :
  Str.startswith_slash (Main.log_metplus_dir LOG_TEMPLATE) = true
  ∧ (Str.has_slash LOG_TEMPLATE = false
     → Main.log_metplus_dir LOG_TEMPLATE = "/").
Proof.
  unfold Main.log_metplus_dir. split; [by apply join_absolute|].
  intros Hs. by rewrite str_split_no_sep.
Qed.

End log_dir.

(** The directory for the relative template logs/run.log *)
Lemma log_directory_of_a_relative_template :
  Main.log_metplus_dir "logs/run.log" = "/logs"
  ∧ Main.log_metplus_dir "/data/logs/run.log" = "/data/logs".
Proof. split; reflexivity. Qed.

(** ** The levels (lines 961-968) *)

Section levels.

Local Arguments String.append !_ _ / : simpl nomatch.

Lemma re_split_levels_cons s :
  ∃ piece pieces, Main.re_split_levels s = piece :: pieces.
Proof.
  destruct s as [|c s]; cbn [Main.re_split_levels]; [by eexists _, _|].
  destruct (_ && _); [by eexists _, _|].
  destruct (Main.re_split_levels s); by eexists _, _.
Qed.

Lemma re_split_levels_head s piece pieces :
  Main.re_split_levels s = piece :: pieces →
  Main.protected piece = Main.protected s.
Proof.
  destruct s as [|c s]; cbn [Main.re_split_levels].
  - by intros [= <- <-].
  - destruct (Ascii.eqb_spec c ",") as [->|Hc]; cbn [andb].
    + destruct (negb _); [by intros [= <- <-]|].
      destruct (Main.re_split_levels s); by intros [= <- <-].
    + destruct (Main.re_split_levels s); by intros [= <- <-].
Qed.

Lemma join_cons_char sep c piece pieces :
  Str.join sep (String c piece :: pieces) = String c (Str.join sep (piece :: pieces)).
Proof. by destruct pieces. Qed.

(** X16: the levels are cut at the commas that are not followed by 0 or
    by a star, and at no other place: joining the pieces with commas gives
    the string back, every comma left inside a piece is followed by 0 or
    by a star, and no piece after the first begins with 0 or with a star. *)
Theorem levels_are_cut_at_free_commas s :
  Str.join "," (Main.re_split_levels s) = s
  ∧ Forall (λ piece, Main.only_protected_commas piece = true)
           (Main.re_split_levels s)
  ∧ Forall (λ piece, Main.protected piece = false)
           (List.tl (Main.re_split_levels s)).
Proof.
  induction s as [|c s (IHjoin & IHin & IHtl)]; [by repeat constructor|].
  destruct (re_split_levels_cons s) as (piece & pieces & Hs).
  pose proof (re_split_levels_head s piece pieces Hs) as Hhead.
  cbn [Main.re_split_levels]. rewrite Hs in *. cbn [List.tl] in *.
  destruct (Ascii.eqb_spec c ",") as [->|Hc]; cbn [andb].
  - destruct (Main.protected s) eqn:Hp; cbn [negb].
    + rewrite join_cons_char, IHjoin. split; [done|].
      split; [|done]. inversion_clear IHin as [|?? Hpiece Hpieces].
      constructor; [|done].
      cbn [Main.only_protected_commas]. by rewrite Hhead, Hpiece.
    + split.
      { change (Str.join "," ("" :: piece :: pieces))
          with ("" +:+ "," +:+ Str.join "," (piece :: pieces)).
        by rewrite IHjoin. }
      split; [by constructor|]. cbn [List.tl]. by constructor.
  - rewrite join_cons_char, IHjoin. split; [done|].
    split; [|done]. inversion_clear IHin as [|?? Hpiece Hpieces].
    constructor; [|done]. cbn [Main.only_protected_commas].
    apply Ascii.eqb_neq in Hc. by rewrite Hc, Hpiece.
Qed.

End levels.

(** Pressure levels are cut apart; an index with a star and a zero is
    kept whole. *)
Lemma levels_of_a_netcdf_field :
  Main.re_split_levels "P500,P850" = ["P500"; "P850"]
  ∧ Main.re_split_levels "(0,*,0),Z2" = ["(0,*,0)"; "Z2"].
Proof. split; reflexivity. Qed.

(** ** The metrics (lines 910-920) *)

Section metrics.

Context (E : Main.env).

(** X17: a metric that the case does not list never stops main(): the
    check of lines 910-920 always comes to its end, having done nothing
    but log warnings, and the metric is plotted like any other. *)
Theorem unlisted_metric_is_only_reported cfg specs metrics s :
  ∃ warnings,
    Main.check_metrics cfg specs metrics s
    = (inr tt, Main.mk_state (Main.s_log s ++ warnings) (Main.s_calls s)
                             (Main.s_world s))
    ∧ Forall (λ entry, entry.1 = Main.warning) warnings.
Proof.
  unfold Main.check_metrics. cbn [Main.for_each].
  assert (∀ (metric : option string) s,
    ∃ warnings,
      match metric with
      | Some metric =>
          if bool_decide (Str.lower metric
                          ∈ Main.comma_list (Main.plot_stats_list specs))
          then mret tt
          else
            Main.logger Main.warning
              ("The requested metric is not valid for the"
               +:+ " requested case type (" +:+ Main.VERIF_CASETYPE cfg
               +:+ ") and" +:+ " line_type (" +:+ Main.LINE_TYPE cfg +:+ "): "
               +:+ metric);;
            Main.logger Main.warning "Continuing ..."
      | None => mret tt
      end s
      = (inr tt, Main.mk_state (Main.s_log s ++ warnings) (Main.s_calls s)
                               (Main.s_world s))
      ∧ Forall (λ entry, entry.1 = Main.warning) warnings) as Hone.
  { intros [metric|] s1.
    - case_bool_decide.
      + exists []. rewrite app_nil_r. by destruct s1.
      + eexists [(Main.warning, _); (Main.warning, _)].
        split; [|by repeat constructor].
        unfold Main.logger. cbv [mbind Main.MM_bind].
        cbn [Main.s_log Main.s_calls Main.s_world].
        by rewrite <- app_assoc.
    - exists []. rewrite app_nil_r. by destruct s1. }
  destruct (Hone (Some metrics.1) s) as (w1 & H1 & Hw1).
  erewrite mm_bind by exact H1. cbn beta iota.
  destruct (Hone metrics.2 (Main.mk_state (Main.s_log s ++ w1) (Main.s_calls s)
                              (Main.s_world s))) as (w2 & H2 & Hw2).
  erewrite mm_bind by exact H2. cbn beta iota.
  exists (w1 ++ w2). cbn [Main.s_log Main.s_calls Main.s_world].
  rewrite app_assoc. split; [done|]. by apply Forall_app.
Qed.

End metrics.

(** ** The whole routine *)

Section whole.

Context (plot_util : plot_util_t) (G : globals).

(** X18: whatever it is called with, plot_time_series never comes to its
    end: it returns None on an empty dataframe or raises, and the figure
    and the file system are after the call as they were before.  No call
    can draw a line or save a plot. *)
Theorem the_routine_never_plots a w :
  (plot_time_series plot_util G a w).1 ≠ Normal tt
  ∧ w_figure (plot_time_series plot_util G a w).2 = w_figure w
  ∧ w_fs (plot_time_series plot_util G a w).2 = w_fs w.
Proof.
  destruct (plot_time_series_run plot_util G a w)
    as (n & closed & [(-> & _)|[(e & -> & _)|(-> & _)]]); done.
Qed.

End whole.

(** ** The period (lines 863-866 and 688-693) *)





Section period.

Local Arguments String.append !_ _ / : simpl nomatch.




End period.


(** The last day of a year, and a date that does not exist *)
Lemma dates_at_the_edge :
  (Main.date_range_of "20221231" "20221231" Main.fresh_state).1
  = inr (mk_datetime 2022 12 31 0 0, mk_datetime 2022 12 31 23 3599999000)
  ∧ (Main.date_range_of "20230229" "20230301" Main.fresh_state).1
    = inl (Main.Py (ValueError "day is out of range for month"))
  ∧ (Main.date_range_of "20230101" "99991231" Main.fresh_state).1
    = inl (Main.OverflowError "date value out of range").
Proof. repeat split; reflexivity. Qed.

(** ** Confidence intervals without a common date (lines 219-244, 367-382) *)

Lemma select_none {A} (idx : list datetime) (l : list A) :
  select (map (λ d, bool_decide (d ∈ (∅ : gset datetime))) idx) l = [].
Proof.
  revert l. induction idx as [|d idx IH]; intros [|x l]; cbn; by try apply IH.
Qed.

Lemma pv_select_none_index p : pv_index (pv_select ∅ p) = [].
Proof. cbn. apply select_none. Qed.

Lemma pv_select_none_column p name :
  is_Some (pv_column p name) → pv_column (pv_select ∅ p) name = Some [].
Proof.
  unfold pv_column, pv_select. cbn [pv_columns].
  induction (pv_columns p) as [|[n c] cols IH]; cbn [map assoc fst snd].
  - by intros [? ?].
  - destruct (String.eqb n name); [|done]. intros _. by rewrite select_none.
Qed.

Lemma pv_select_none_has p name :
  is_Some (pv_column p name) → pv_has (pv_select ∅ p) name = true.
Proof.
  intros H. apply pv_has_spec. rewrite pv_select_none_column by done.
  by eexists.
Qed.

Lemma detect_reference_runs name ci pm lo hi w :
  ∃ r w1, detect_reference name ci (Some pm) (Some lo) (Some hi) w
          = (Normal r, w1)
          ∧ w_figure w1 = w_figure w.
Proof.
  unfold detect_reference. case_bool_decide; [|by eexists _, _].
  cbn [attr].
  destruct ci, (any_ratio_is_one pm (pv_mean_axis1 pm)) eqn:Hany;
    eexists _, _; (split; [run_M; rewrite Hany; run_M; reflexivity|done]).
Qed.

Lemma restrict_to_none_run se t w m1 l1 u1 :
  rt_metric1 t = Some m1 → rt_ci_lower1 t = Some l1 →
  rt_ci_upper1 t = Some u1 → (se = true → is_Some (rt_counts t)) →
  common_index m1 l1 u1 = ∅ →
  ∃ c, restrict_to_common true se None t w
       = (Normal (mk_pivots7 (Some (pv_select ∅ m1)) (rt_metric2 t) c
                    (Some (pv_select ∅ l1)) (Some (pv_select ∅ u1))
                    (rt_ci_lower2 t) (rt_ci_upper2 t)), w).
Proof.
  intros H1 Hl Hu Hcounts Hcommon. unfold restrict_to_common.
  rewrite H1, Hl, Hu. cbn [attr]. destruct se.
  - destruct (Hcounts eq_refl) as [pc ->]. cbn [attr].
    eexists. do 3 step. cbv zeta. rewrite Hcommon.
    erewrite run_bind by (step; reflexivity). reflexivity.
  - eexists. do 3 step. cbv zeta. rewrite Hcommon. step. reflexivity.
Qed.

Section no_common_date.

Context (G : globals).

(** X20: with confidence intervals and a y axis that is not locked, a
    metric whose table shares no date with the tables of its bounds is
    not plotted as an empty line: the tables are cut down to no row, and
    for the first model the minimum of an empty array is taken, which
    raises ValueError; nothing has been drawn by then. *)
Theorem no_common_date_raises a se model_list settings t w m1 l1 u1
    model setting rest :
  confidence_intervals a = true → y_lim_lock a = false →
  metric2_name a = None →
  rt_metric1 t = Some m1 → rt_ci_lower1 t = Some l1 →
  rt_ci_upper1 t = Some u1 → (se = true → is_Some (rt_counts t)) →
  common_index m1 l1 u1 = ∅ →
  model_list !! 0%nat = Some model → settings = setting :: rest →
  is_Some (pv_column m1 model) → is_Some (pv_column l1 model) →
  is_Some (pv_column u1 model) →
  ∃ w', plot_data G a se model_list settings t w
        = (Raise (ValueError "zero-size array to reduction operation"), w')
        ∧ w_figure w' = w_figure w.
Proof.
  intros Hci Hlock Hm2 H1 Hl Hu Hcounts Hcommon Hmodel -> Hc1 Hcl Hcu.
  destruct (detect_reference_runs (metric1_name a) true (pv_select ∅ m1)
              (pv_select ∅ l1) (pv_select ∅ u1) w) as (r1 & w1 & Hr1 & Hfig).
  exists w1. split; [|done].
  destruct (restrict_to_none_run se t w m1 l1 u1 H1 Hl Hu Hcounts Hcommon)
    as [c Hrestrict].
  unfold plot_data. rewrite Hci, Hm2.
  erewrite run_bind by exact Hrestrict. cbn beta iota.
  cbn [rt_metric1 rt_ci_lower1 rt_ci_upper1 attr]. do 2 step.
  erewrite run_bind by exact Hr1. cbn beta iota. step.
  erewrite run_bind; cycle 1.
  { unfold plot_models. cbn [List.length seq for_each].
    erewrite run_bind; cycle 1.
    { unfold plot_model. rewrite Hci, Hlock, Hm2.
      unfold item. rewrite Hmodel. step.
      cbn [contains rt_metric1 rt_ci_lower1 rt_ci_upper1].
      rewrite pv_select_none_has by done. step. cbn [negb].
      unfold subscript. rewrite !pv_select_none_column by done.
      do 2 step.
      erewrite run_bind by (do 2 step; reflexivity). cbn beta iota.
      step. rewrite bool_decide_eq_true_2 by done.
      erewrite run_bind; cycle 1.
      { erewrite run_bind by apply run_raise. reflexivity. }
      reflexivity. }
    reflexivity. }
  reflexivity.
Qed.

End no_common_date.

Lemma no_common_date_raises_witness :
  common_index (mk_pivot [day 1] [("GFS", [Some 1%Q])])
               (mk_pivot [day 2] [("GFS", [Some (-1)%Q])])
               (mk_pivot [day 2] [("GFS", [Some 1%Q])]) = ∅
  ∧ ∃ w', plot_data bare_module
            (mk_args sample_df (day 1, day 2) ["GFS"] 0 "500" all_leads [""]
               "BCRMSE" None false "Valid Date" "VALID" [0] "pres" "out" ""
               "SL1L2" true [] (mk_bootstrap "MATCHED_PAIRS" 5000 30 (95 # 100))
               "TEST" "" true false "sfc_upper" false false false "." "." "")
            false ["GFS"] two_settings
            (mk_pivots7 (Some (mk_pivot [day 1] [("GFS", [Some 1%Q])])) None None
               (Some (mk_pivot [day 2] [("GFS", [Some (-1)%Q])]))
               (Some (mk_pivot [day 2] [("GFS", [Some 1%Q])])) None None)
            fresh_world
          = (Raise (ValueError "zero-size array to reduction operation"), w')
          ∧ w_figure w' = w_figure fresh_world.
Proof.
  split; [by vm_compute|].
  apply (no_common_date_raises bare_module _ false ["GFS"] two_settings _
           fresh_world (mk_pivot [day 1] [("GFS", [Some 1%Q])])
           (mk_pivot [day 2] [("GFS", [Some (-1)%Q])])
           (mk_pivot [day 2] [("GFS", [Some 1%Q])])
           "GFS" (mk_setting "o" "black" 1 1) [mk_setting "o" "black" 1 1]);
    try reflexivity.
  - discriminate.
  - by eexists.
  - by eexists.
  - by eexists.
Defined.

(** ** The reference line (lines 407-425) *)

Section reference_lines.

Context (G : globals).

Lemma grows_plot_model_reference (P : artist → Prop) a model_list t x_vals1
    x_vals2 r reference2 m st :
  (∀ x y, P (Line OfReference "solid" x y)) →
  (∀ who x y, P (Line who "dashed" x y)) →
  (∀ who x y lo hi, P (Errorbar who x y lo hi)) →
  grows P (λ _, True)
    (plot_model G a model_list t x_vals1 x_vals2 (Some r) reference2 m st).
Proof.
  intros Href Hdashed Herr. unfold plot_model.
  eapply grows_bind; [apply grows_item|]. intros model _.
  eapply grows_bind; [apply grows_contains|]. intros present _.
  destruct present; cbn [negb]; [|by apply grows_mret].
  apply grows_then; [eapply grows_weaken; [|apply grows_subscript]; done|].
  intros y1.
  apply grows_then; [apply grows_quiet_block_y2|]. intros y2.
  apply grows_then; [apply grows_quiet_pair, grows_read_bounds|]. intros ci1.
  apply grows_then.
  { destruct (confidence_intervals a); [|by apply grows_mret].
    destruct (metric2_name a); [apply grows_read_bounds|by apply grows_mret]. }
  intros ci2.
  apply grows_then.
  { destruct (y_lim_lock a); [by apply grows_mret|].
    apply grows_then.
    { case_bool_decide; [apply grows_raise|by apply grows_mret]. }
    intros _. destruct (n_mods st); [|by apply grows_mret].
    apply grows_then; [eapply grows_weaken; [|apply grows_subscript]; done|].
    intros c. by apply grows_mret. }
  intros st1.
  apply grows_then; [by apply grows_plot_line|]. intros plotted1.
  apply grows_then.
  { destruct (metric2_name a); [|by apply grows_mret].
    apply grows_then.
    { destruct x_vals2; [by apply grows_mret|apply grows_raise]. }
    intros x. by apply grows_plot_line. }
  intros plotted2.
  apply grows_then.
  { destruct (confidence_intervals a); [|by apply grows_mret].
    apply grows_then; [by apply grows_plot_errorbar|]. intros c1.
    apply grows_then; [|intros; by apply grows_mret].
    destruct (metric2_name a);
      [by apply grows_plot_errorbar|by apply grows_mret]. }
  intros cis. by apply grows_mret.
Qed.

(** X21: when the reference of the first metric is kept, the loop draws no
    solid line for any model: the one line of the reference stands for all
    of them, whatever their own values are. *)
Theorem reference_replaces_the_model_lines a model_list settings t x_vals1
    x_vals2 r reference2 w :
  ∃ new,
    w_figure (plot_models G a model_list settings t x_vals1 x_vals2 (Some r)
                reference2 w).2
    = w_figure w ++ new
    ∧ ∀ model x y, Line (OfModel model) "solid" x y ∉ new.
Proof.
  assert (grows
              (λ art, ∀ model x y, art ≠ Line (OfModel model) "solid" x y)
              (λ _, True)
              (plot_models G a model_list settings t x_vals1 x_vals2 (Some r)
                 reference2)) as Hgrows.
  { unfold plot_models. apply grows_for_each.
    intros m st. apply grows_plot_model_reference; by intros. }
  destruct (Hgrows w) as [(new & Hfig & Hnew) _]. clear Hgrows.
  exists new. split; [exact Hfig|].
  intros model x y Hin. rewrite Forall_forall in Hnew.
  by eapply Hnew.
Qed.

End reference_lines.

